(** * Students route of the library-seat management back end

    A shallow embedding of [Backend/routes/students.js]: the four write
    handlers (POST /, PUT /:id, DELETE /:id, POST /:id/renew) and the
    read-time status expression, over an explicit model of the database
    and of the node-postgres connection they talk to.
    The read handlers of the same file (GET /active, /expired,
    /expiring-soon, /:id and /shift/:shiftId) and the two forms of the
    front end that call update and renew follow the write handlers.

    Conventions of the model.
    - JavaScript numbers are idealised as integers ([Fin z]) plus [NaN];
      IEEE doubles are exact on integers below 2^53 in magnitude, which is
      the range the arithmetic of the route stays in for such inputs.
    - A request field that reaches the code only through its truthiness,
      its comparison with [undefined], [null] and [''], and [parseFloat]
      or [parseInt], is a [jsval]; a non-empty string is represented by the
      number the parser reads from it ([JText]).
    - Dates travel as [YYYY-MM-DD] strings; such a string is represented by
      its day number since 1970-01-01, a missing or empty one by [None].
      The node process and the database session are both on UTC.
    - The schema is not part of the route file.  Columns are nullable
      unless the code shows otherwise; integer columns refuse [NaN];
      foreign keys and unique constraints are not assumed. *)

From Stdlib Require Import ZArith List String Bool Lia.
From Stdlib Require Import Permutation Sorted.
Import ListNotations.
Open Scope Z_scope.

(** ** JavaScript values *)

Inductive num : Type :=
| NaN
| Fin (z : Z).

Definition isNaN (n : num) : bool :=
  match n with NaN => true | Fin _ => false end.

(** [a < b] on numbers; a comparison with [NaN] is false. *)
Definition num_lt (a b : num) : bool :=
  match a, b with
  | Fin x, Fin y => x <? y
  | _, _ => false
  end.

Definition num_add (a b : num) : num :=
  match a, b with
  | Fin x, Fin y => Fin (x + y)
  | _, _ => NaN
  end.

Definition num_sub (a b : num) : num :=
  match a, b with
  | Fin x, Fin y => Fin (x - y)
  | _, _ => NaN
  end.

Inductive jsval : Type :=
| JUndefined
| JNull
| JNum (n : num)
| JEmpty                 (* the empty string *)
| JText (reads : num).   (* a non-empty string and what the parser reads from it *)

(** Truthiness: [undefined], [null], [''], [0] and [NaN] are falsy. *)
Definition truthy (v : jsval) : bool :=
  match v with
  | JNum (Fin z) => negb (z =? 0)
  | JText _ => true
  | _ => false
  end.

(** [a || b] *)
Definition jor (a b : jsval) : jsval := if truthy a then a else b.

Definition parseFloat (v : jsval) : num :=
  match v with
  | JNum n => n
  | JText n => n
  | _ => NaN
  end.

Definition parseInt (v : jsval) : num :=
  match v with
  | JNum n => n
  | JText n => n
  | _ => NaN
  end.

(** [v !== undefined && v !== null && v !== ''] *)
Definition supplied (v : jsval) : bool :=
  match v with
  | JUndefined | JNull | JEmpty => false
  | _ => true
  end.

Definition is_undefined (v : jsval) : bool :=
  match v with JUndefined => true | _ => false end.

(** Text fields: [None] is [undefined] or [null]. *)
Definition text := option string.

Definition truthy_text (t : text) : bool :=
  match t with
  | None => false
  | Some s => negb (String.eqb s EmptyString)
  end.

(** [t || null] *)
Definition or_null (t : text) : text := if truthy_text t then t else None.

(** [t || ''] *)
Definition or_empty (t : text) : text := if truthy_text t then t else Some EmptyString.

(** Dates: the day number of a [YYYY-MM-DD] string; [None] when the field
    is missing or empty. *)
Definition date := option Z.

Definition truthy_date (d : date) : bool :=
  match d with Some _ => true | None => false end.

Definition msPerDay : Z := 86400000.

(** [new Date(d).getTime()]: a date-only string is UTC midnight of that
    day; [new Date(undefined)] is an invalid date. *)
Definition Date_of (d : date) : num :=
  match d with
  | Some day => Fin (day * msPerDay)
  | None => NaN
  end.

(** A parsed identifier that may also be [null]. *)
Definition truthy_id (i : option num) : bool :=
  match i with
  | Some (Fin z) => negb (z =? 0)
  | _ => false
  end.

(** ** Tables *)

Inductive status : Type := active | expired.

Record student : Type := mkStudent {
  s_id : Z;
  s_name : text;
  s_email : text;
  s_phone : text;
  s_address : text;
  s_branch_id : option Z;
  s_membership_start : date;
  s_membership_end : date;
  s_total_fee : option num;
  s_amount_paid : option num;
  s_due_amount : option num;
  s_cash : option num;
  s_online : option num;
  s_security_money : option num;
  s_remark : text;
  s_profile_image_url : text;
  s_status : status
}.

Record assignment : Type := mkAssignment {
  sa_id : Z;
  sa_seat_id : Z;
  sa_shift_id : Z;
  sa_student_id : Z
}.

Record history_row : Type := mkHistory {
  h_id : Z;
  h_student_id : Z;
  h_name : text;
  h_email : text;
  h_phone : text;
  h_address : text;
  h_membership_start : date;
  h_membership_end : date;
  h_status : status;
  h_total_fee : option num;
  h_amount_paid : option num;
  h_due_amount : option num;
  h_cash : option num;
  h_online : option num;
  h_security_money : option num;
  h_remark : text;
  h_seat_id : option Z;
  h_shift_id : option Z;
  h_branch_id : option Z;
  h_changed_at : Z
}.

Record db : Type := mkDb {
  students : list student;
  seats : list Z;
  schedules : list Z;
  seat_assignments : list assignment;
  student_membership_history : list history_row
}.

(** The serial sequences behind the [id] columns.  A sequence is not
    rolled back with the transaction that drew from it. *)
Record seqs : Type := mkSeqs {
  next_student_id : Z;
  next_assignment_id : Z;
  next_history_id : Z
}.

(** How node-postgres hands a numeric column to JavaScript: [NULL] as
    [null], a value as its decimal string. *)
Definition col (c : option num) : jsval :=
  match c with
  | None => JNull
  | Some n => JText n
  end.

(** An integer parameter: [NaN] is refused by the server. *)
Definition pg_int (n : num) : option Z :=
  match n with
  | Fin z => Some z
  | NaN => None
  end.

(** An integer parameter that may be [null]. *)
Definition pg_int_null (n : option num) : option (option Z) :=
  match n with
  | None => Some None
  | Some NaN => None
  | Some (Fin z) => Some (Some z)
  end.

(** ** Statements

    One constructor per SQL text of the route; the index is the type of
    [result.rows] (or [unit] where the result is not read). *)

(** The parameters of [INSERT INTO students] and of the [UPDATE students]
    of PUT (which has no [profile_image_url] column and ignores
    [v_profile_image_url]). *)
Record student_values : Type := mkValues {
  v_name : text;
  v_email : text;
  v_phone : text;
  v_address : text;
  v_branch_id : option num;
  v_membership_start : date;
  v_membership_end : date;
  v_total_fee : num;
  v_amount_paid : num;
  v_due_amount : num;
  v_cash : num;
  v_online : num;
  v_security_money : num;
  v_remark : text;
  v_profile_image_url : text;
  v_status : status
}.

(** The parameters of the [UPDATE students] of renew. *)
Record renew_values : Type := mkRenew {
  r_membership_start : date;
  r_membership_end : date;
  r_email : text;
  r_phone : text;
  r_branch_id : option num;
  r_total_fee : num;
  r_amount_paid : num;
  r_due_amount : num;
  r_cash : num;
  r_online : num;
  r_security_money : num;
  r_remark : text
}.

(** The snapshot columns of [student_membership_history]. *)
Record history_values : Type := mkSnapshot {
  hv_name : text;
  hv_email : text;
  hv_phone : text;
  hv_address : text;
  hv_membership_start : date;
  hv_membership_end : date;
  hv_status : status;
  hv_total_fee : option num;
  hv_amount_paid : option num;
  hv_due_amount : option num;
  hv_cash : option num;
  hv_online : option num;
  hv_security_money : option num;
  hv_remark : text;
  hv_seat_id : option num;
  hv_shift_id : option num;
  hv_branch_id : option num
}.

Inductive sql : Type -> Type :=
| BEGIN : sql unit
| COMMIT : sql unit
| ROLLBACK : sql unit
  (* SELECT 1 FROM seats WHERE id = $1 *)
| SelectSeat (seat : num) : sql (list unit)
  (* SELECT 1 FROM schedules WHERE id = $1 *)
| SelectSchedule (shift : num) : sql (list unit)
  (* SELECT 1 FROM seat_assignments WHERE seat_id = $1 AND shift_id = $2 *)
| SelectAssignment (seat shift : num) : sql (list unit)
  (* ... AND student_id != $3 *)
| SelectAssignmentOther (seat shift id : num) : sql (list unit)
  (* SELECT ... FROM students WHERE id = $1 *)
| SelectStudent (id : num) : sql (list student)
  (* INSERT INTO students (...) VALUES (...) RETURNING * *)
| InsertStudent (v : student_values) : sql (list student)
  (* UPDATE students SET ... WHERE id = $16 RETURNING * *)
| UpdateStudent (v : student_values) (id : num) : sql (list student)
  (* UPDATE students SET ..., status = 'active', email = COALESCE($3, email), ... *)
| RenewStudent (v : renew_values) (id : num) : sql (list student)
  (* DELETE FROM students WHERE id = $1 RETURNING * *)
| DeleteStudent (id : num) : sql (list student)
  (* INSERT INTO seat_assignments (seat_id, shift_id, student_id) VALUES ($1, $2, $3) *)
| InsertAssignment (seat shift student : num) : sql unit
  (* DELETE FROM seat_assignments WHERE student_id = $1 *)
| DeleteAssignments (id : num) : sql unit
  (* INSERT INTO student_membership_history (...) VALUES (..., NOW()) *)
| InsertHistory (student : Z) (v : history_values) : sql unit
  (* SELECT id FROM student_membership_history WHERE student_id = $1
     ORDER BY changed_at DESC LIMIT 1 *)
| SelectLatestHistory (id : num) : sql (list Z)
  (* UPDATE student_membership_history SET ..., changed_at = NOW() WHERE id = $18 *)
| UpdateHistory (v : history_values) (hid : Z) : sql unit
  (* DELETE FROM student_membership_history WHERE student_id = $1 *)
| DeleteHistory (id : num) : sql unit.

Definition with_students (d : db) (l : list student) : db :=
  mkDb l (seats d) (schedules d) (seat_assignments d) (student_membership_history d).

Definition with_assignments (d : db) (l : list assignment) : db :=
  mkDb (students d) (seats d) (schedules d) l (student_membership_history d).

Definition with_history (d : db) (l : list history_row) : db :=
  mkDb (students d) (seats d) (schedules d) (seat_assignments d) l.

Definition has_id (i : Z) (s : student) : bool := s_id s =? i.

Definition of_student (i : Z) (a : assignment) : bool := sa_student_id a =? i.

Definition history_of (i : Z) (h : history_row) : bool := h_student_id h =? i.

Definition at_seat_shift (seat shift : Z) (a : assignment) : bool :=
  (sa_seat_id a =? seat) && (sa_shift_id a =? shift).

Definition inserted_student (i : Z) (b : option Z) (v : student_values) : student :=
  mkStudent i (v_name v) (v_email v) (v_phone v) (v_address v) b
    (v_membership_start v) (v_membership_end v)
    (Some (v_total_fee v)) (Some (v_amount_paid v)) (Some (v_due_amount v))
    (Some (v_cash v)) (Some (v_online v)) (Some (v_security_money v))
    (v_remark v) (v_profile_image_url v) (v_status v).

Definition updated_student (b : option Z) (v : student_values) (s : student) : student :=
  mkStudent (s_id s) (v_name v) (v_email v) (v_phone v) (v_address v) b
    (v_membership_start v) (v_membership_end v)
    (Some (v_total_fee v)) (Some (v_amount_paid v)) (Some (v_due_amount v))
    (Some (v_cash v)) (Some (v_online v)) (Some (v_security_money v))
    (v_remark v) (s_profile_image_url s) (v_status v).

(** [COALESCE(p, c)] *)
Definition coalesce {A} (p c : option A) : option A :=
  match p with Some _ => p | None => c end.

Definition renewed_student (b : option Z) (v : renew_values) (s : student) : student :=
  mkStudent (s_id s) (s_name s) (coalesce (r_email v) (s_email s))
    (coalesce (r_phone v) (s_phone s)) (s_address s) (coalesce b (s_branch_id s))
    (r_membership_start v) (r_membership_end v)
    (Some (r_total_fee v)) (Some (r_amount_paid v)) (Some (r_due_amount v))
    (Some (r_cash v)) (Some (r_online v)) (Some (r_security_money v))
    (r_remark v) (s_profile_image_url s) active.

Definition snapshot_row (hid student : Z) (seat shift branch : option Z)
    (now : Z) (v : history_values) : history_row :=
  mkHistory hid student (hv_name v) (hv_email v) (hv_phone v) (hv_address v)
    (hv_membership_start v) (hv_membership_end v) (hv_status v)
    (hv_total_fee v) (hv_amount_paid v) (hv_due_amount v)
    (hv_cash v) (hv_online v) (hv_security_money v) (hv_remark v)
    seat shift branch now.

(** [ORDER BY changed_at DESC LIMIT 1]: the row with the greatest
    [changed_at]; among equal stamps the first in table order. *)
Fixpoint latest_from (best : history_row) (l : list history_row) : history_row :=
  match l with
  | [] => best
  | h :: l' =>
      latest_from (if h_changed_at best <? h_changed_at h then h else best) l'
  end.

Definition latest (l : list history_row) : list history_row :=
  match l with
  | [] => []
  | h :: l' => [latest_from h l']
  end.

Definition map_if {A} (p : A -> bool) (f : A -> A) (l : list A) : list A :=
  map (fun x => if p x then f x else x) l.

Definition bind_opt {A B} (o : option A) (f : A -> option B) : option B :=
  match o with Some a => f a | None => None end.

Notation "x <- o ;; k" := (bind_opt o (fun x => k))
  (at level 61, o at next level, right associativity).

(** The effect of one statement on the database it runs against; [None]
    is an error raised by the server.  [now] is what [NOW()] returns. *)
Definition exec {T} (q : sql T) (now : Z) (sq : seqs) (d : db)
  : option (T * seqs * db) :=
  match q in sql T return option (T * seqs * db) with
  | BEGIN => Some (tt, sq, d)
  | COMMIT => Some (tt, sq, d)
  | ROLLBACK => Some (tt, sq, d)
  | SelectSeat seat =>
      i <- pg_int seat ;;
      Some (map (fun _ => tt) (filter (Z.eqb i) (seats d)), sq, d)
  | SelectSchedule shift =>
      i <- pg_int shift ;;
      Some (map (fun _ => tt) (filter (Z.eqb i) (schedules d)), sq, d)
  | SelectAssignment seat shift =>
      i <- pg_int seat ;;
      j <- pg_int shift ;;
      Some (map (fun _ => tt) (filter (at_seat_shift i j) (seat_assignments d)), sq, d)
  | SelectAssignmentOther seat shift id =>
      i <- pg_int seat ;;
      j <- pg_int shift ;;
      k <- pg_int id ;;
      Some (map (fun _ => tt)
              (filter (fun a => at_seat_shift i j a && negb (of_student k a))
                 (seat_assignments d)), sq, d)
  | SelectStudent id =>
      i <- pg_int id ;;
      Some (filter (has_id i) (students d), sq, d)
  | InsertStudent v =>
      b <- pg_int_null (v_branch_id v) ;;
      let row := inserted_student (next_student_id sq) b v in
      Some ([row],
            mkSeqs (next_student_id sq + 1) (next_assignment_id sq) (next_history_id sq),
            with_students d (students d ++ [row]))
  | UpdateStudent v id =>
      b <- pg_int_null (v_branch_id v) ;;
      i <- pg_int id ;;
      Some (map (updated_student b v) (filter (has_id i) (students d)), sq,
            with_students d (map_if (has_id i) (updated_student b v) (students d)))
  | RenewStudent v id =>
      b <- pg_int_null (r_branch_id v) ;;
      i <- pg_int id ;;
      Some (map (renewed_student b v) (filter (has_id i) (students d)), sq,
            with_students d (map_if (has_id i) (renewed_student b v) (students d)))
  | DeleteStudent id =>
      i <- pg_int id ;;
      Some (filter (has_id i) (students d), sq,
            with_students d (filter (fun s => negb (has_id i s)) (students d)))
  | InsertAssignment seat shift student =>
      i <- pg_int seat ;;
      j <- pg_int shift ;;
      k <- pg_int student ;;
      Some (tt,
            mkSeqs (next_student_id sq) (next_assignment_id sq + 1) (next_history_id sq),
            with_assignments d
              (seat_assignments d ++ [mkAssignment (next_assignment_id sq) i j k]))
  | DeleteAssignments id =>
      i <- pg_int id ;;
      Some (tt, sq,
            with_assignments d
              (filter (fun a => negb (of_student i a)) (seat_assignments d)))
  | InsertHistory student v =>
      seat <- pg_int_null (hv_seat_id v) ;;
      shift <- pg_int_null (hv_shift_id v) ;;
      branch <- pg_int_null (hv_branch_id v) ;;
      Some (tt,
            mkSeqs (next_student_id sq) (next_assignment_id sq) (next_history_id sq + 1),
            with_history d
              (student_membership_history d ++
               [snapshot_row (next_history_id sq) student seat shift branch now v]))
  | SelectLatestHistory id =>
      i <- pg_int id ;;
      Some (map h_id (latest (filter (history_of i) (student_membership_history d))),
            sq, d)
  | UpdateHistory v hid =>
      seat <- pg_int_null (hv_seat_id v) ;;
      shift <- pg_int_null (hv_shift_id v) ;;
      branch <- pg_int_null (hv_branch_id v) ;;
      Some (tt, sq,
            with_history d
              (map_if (fun h => h_id h =? hid)
                 (fun h => snapshot_row (h_id h) (h_student_id h) seat shift branch now v)
                 (student_membership_history d)))
  | DeleteHistory id =>
      i <- pg_int id ;;
      Some (tt, sq,
            with_history d
              (filter (fun h => negb (history_of i h)) (student_membership_history d)))
  end.

(** ** Responses *)

Inductive message : Type :=
| MissingFields          (* Required fields missing (...) *)
| DatesRequired          (* membership_start and membership_end are required *)
| BadTotalFee            (* Total fee must be a valid non-negative number *)
| BadAmountPaid
| BadCash
| BadOnline
| BadSecurityMoney
| SeatNotFound (seat : num)     (* Seat with ID ... does not exist *)
| ShiftNotFound (shift : num)   (* Shift with ID ... does not exist *)
| SeatTaken (shift : num)       (* Seat is already assigned for shift ... *)
| StudentNotFound
| NoHistory              (* No membership history found for this student *)
| ServerError.

(** The JSON body: a message, or the student row the statement returned
    (its numeric and date formatting is presentation and is left out). *)
Inductive payload : Type :=
| Message (m : message)
| StudentRow (s : student).

Record response : Type := mkResponse {
  code : Z;
  content : payload
}.

(** ** The connection pool *)

(** [client.query] on the connection checked out by the handler, or
    [pool.query] on whichever idle connection the pool picks. *)
Inductive via : Type := Client | Pool.

Inductive kind : Type := KBegin | KCommit | KRollback | KRead | KWrite.

Definition kind_of {T} (q : sql T) : kind :=
  match q with
  | BEGIN => KBegin
  | COMMIT => KCommit
  | ROLLBACK => KRollback
  | SelectSeat _ | SelectSchedule _ | SelectAssignment _ _
  | SelectAssignmentOther _ _ _ | SelectStudent _ | SelectLatestHistory _ => KRead
  | _ => KWrite
  end.

Inductive event : Type :=
| Connect
| Release
| Issued (c : via) (k : kind) (ok : bool)
| Sent (r : response).

(** [committed] is what every other connection sees; [tx] is the working
    copy of the transaction open on the handler's client, if any. *)
Record world : Type := mkWorld {
  committed : db;
  tx : option db;
  serials : seqs;
  issued : nat;
  log : list event;
  in_use : nat
}.

Definition note (e : event) (w : world) : world :=
  mkWorld (committed w) (tx w) (serials w) (issued w) (log w ++ [e]) (in_use w).

Definition tick (w : world) : world :=
  mkWorld (committed w) (tx w) (serials w) (S (issued w)) (log w) (in_use w).

(** The database a statement runs against. *)
Definition view (c : via) (w : world) : db :=
  match c, tx w with
  | Client, Some d => d
  | _, _ => committed w
  end.

(** Where its effect lands: in the open transaction, or, in autocommit
    mode, directly in the committed state. *)
Definition store (c : via) (d : db) (sq : seqs) (w : world) : world :=
  match c, tx w with
  | Client, Some _ => mkWorld (committed w) (Some d) sq (issued w) (log w) (in_use w)
  | _, _ => mkWorld d (tx w) sq (issued w) (log w) (in_use w)
  end.

Definition control (c : via) (k : kind) (w : world) : world :=
  match c, k with
  | Client, KBegin =>
      match tx w with
      | None => mkWorld (committed w) (Some (committed w)) (serials w) (issued w) (log w) (in_use w)
      | Some _ => w
      end
  | Client, KCommit =>
      match tx w with
      | Some d => mkWorld d None (serials w) (issued w) (log w) (in_use w)
      | None => w
      end
  | Client, KRollback =>
      mkWorld (committed w) None (serials w) (issued w) (log w) (in_use w)
  | _, _ => w
  end.

(** One [await ...query(...)].  [faults n] says that the [n]-th query of
    the run is lost to a driver or server failure; a query that is lost,
    or that the server refuses, has no effect and rejects. *)
Definition step {T} (faults : nat -> bool) (now : Z) (c : via) (q : sql T)
    (w : world) : option T * world :=
  if faults (issued w) then (None, note (Issued c (kind_of q) false) (tick w))
  else
    match exec q now (serials w) (view c w) with
    | None => (None, note (Issued c (kind_of q) false) (tick w))
    | Some (v, sq, d) =>
        (Some v,
         control c (kind_of q) (store c d sq (note (Issued c (kind_of q) true) (tick w))))
    end.

(** ** Handler bodies

    The body of a [try] block in continuation style: it ends by sending a
    response ([return res.status(..).json(..)]) or by an exception; every
    query may reject, which is an exception too. *)
Inductive prog : Type :=
| Respond (r : response)
| Throw
| Query {T : Type} (c : via) (q : sql T) (k : T -> prog).

Inductive outcome : Type :=
| Responded (r : response)
| Thrown.

Fixpoint run (faults : nat -> bool) (now : Z) (p : prog) (w : world)
  : outcome * world :=
  match p with
  | Respond r => (Responded r, note (Sent r) w)
  | Throw => (Thrown, w)
  | Query c q k =>
      match step faults now c q w with
      | (Some v, w') => run faults now (k v) w'
      | (None, w') => (Thrown, w')
      end
  end.

(** [try { body } catch (err) { handler }] *)
Definition try_catch (faults : nat -> bool) (now : Z) (body handler : prog)
    (w : world) : outcome * world :=
  match run faults now body w with
  | (Thrown, w') => run faults now handler w'
  | r => r
  end.

(** [const client = await pool.connect(); try { .. } finally { client.release() }];
    the pool always has a connection to give. *)
Definition with_client (route : world -> outcome * world) (w : world)
  : outcome * world :=
  let w1 := note Connect
              (mkWorld (committed w) (tx w) (serials w) (issued w) (log w) (S (in_use w))) in
  let (o, w2) := route w1 in
  (o, note Release
        (mkWorld (committed w2) (tx w2) (serials w2) (issued w2) (log w2) (pred (in_use w2)))).

(** [for (const x of l) { body }] where the body may return early. *)
Fixpoint for_each {A} (l : list A) (body : A -> prog -> prog) (k : prog) : prog :=
  match l with
  | [] => k
  | x :: l' => body x (for_each l' body k)
  end.

(** ** Requests *)

Record body : Type := mkBody {
  name : text;
  email : text;
  phone : text;
  address : text;
  branch_id : jsval;
  membership_start : date;
  membership_end : date;
  total_fee : jsval;
  amount_paid : jsval;
  shift_ids : option (list jsval);   (* [None]: absent or not an array *)
  seat_id : jsval;
  cash : jsval;
  online : jsval;
  security_money : jsval;
  remark : text;
  profile_image_url : text
}.

(** [seat_id ? parseInt(seat_id, 10) : null] *)
Definition seatIdNum (b : body) : option num :=
  if truthy (seat_id b) then Some (parseInt (seat_id b)) else None.

(** [shift_ids && Array.isArray(shift_ids) ? shift_ids.map(id => parseInt(id, 10)) : []] *)
Definition shiftIdsNum (b : body) : list num :=
  match shift_ids b with
  | Some l => map parseInt l
  | None => []
  end.

(** [seatIdNum && shiftIdsNum.length > 0]: the seat when the test holds. *)
Definition seat_and_shifts (seat : option num) (shifts : list num) : option num :=
  match seat, shifts with
  | Some (Fin z), _ :: _ => if z =? 0 then None else Some (Fin z)
  | _, _ => None
  end.

(** [isNaN(x) || x < 0] *)
Definition invalid (x : num) : bool := isNaN x || num_lt x (Fin 0).

(** [new Date(membership_end) < new Date() ? 'expired' : 'active'] *)
Definition status_at_write (membership_end : date) (now : Z) : status :=
  if num_lt (Date_of membership_end) (Fin now) then expired else active.

(** [CURRENT_DATE] *)
Definition CURRENT_DATE (now : Z) : Z := now / msPerDay.

(** [CASE WHEN s.membership_end < CURRENT_DATE THEN 'expired' ELSE 'active' END]
    of [withCalculatedStatus] and of the other read queries. *)
Definition withCalculatedStatus (s : student) (now : Z) : status :=
  match s_membership_end s with
  | Some d => if d <? CURRENT_DATE now then expired else active
  | None => active
  end.

Definition reply (c : Z) (m : message) : response := mkResponse c (Message m).

(** [await client.query('ROLLBACK'); return res.status(c).json(..)] *)
Definition rollback_reply (c : Z) (m : message) : prog :=
  Query Client ROLLBACK (fun _ => Respond (reply c m)).

(** The loop that checks that every shift exists. *)
Definition check_shifts (shifts : list num) (k : prog) : prog :=
  for_each shifts
    (fun shiftId next =>
       Query Client (SelectSchedule shiftId) (fun rows =>
       match rows with
       | [] => rollback_reply 400 (ShiftNotFound shiftId)
       | _ :: _ => next
       end)) k.

(** The loop that looks for an assignment of the seat in each shift;
    [find] is the [SELECT] and [reject] the early return. *)
Definition check_conflicts (c : via) (find : num -> sql (list unit))
    (reject : message -> prog) (shifts : list num) (k : prog) : prog :=
  for_each shifts
    (fun shiftId next =>
       Query c (find shiftId) (fun rows =>
       match rows with
       | [] => next
       | _ :: _ => reject (SeatTaken shiftId)
       end)) k.

(** The loop that inserts one assignment per shift and remembers the
    first shift: [if (!firstShiftId) firstShiftId = shiftId]. *)
Fixpoint insert_assignments (c : via) (seat student : num) (shifts : list num)
    (firstShiftId : option num) (k : option num -> prog) : prog :=
  match shifts with
  | [] => k firstShiftId
  | shiftId :: rest =>
      Query c (InsertAssignment seat shiftId student) (fun _ =>
      insert_assignments c seat student rest
        (if truthy_id firstShiftId then firstShiftId else Some shiftId) k)
  end.

(** *** POST / *)

Definition post_body (now : Z) (b : body) : prog :=
  Query Client BEGIN (fun _ =>
  if negb (truthy_text (name b)) || negb (truthy (branch_id b))
     || negb (truthy_date (membership_start b)) || negb (truthy_date (membership_end b))
  then rollback_reply 400 MissingFields
  else
  let branchIdNum := parseInt (branch_id b) in
  let feeValue := parseFloat (jor (total_fee b) (JNum (Fin 0))) in
  let paidValue := parseFloat (jor (amount_paid b) (JNum (Fin 0))) in
  if invalid feeValue then rollback_reply 400 BadTotalFee else
  if invalid paidValue then rollback_reply 400 BadAmountPaid else
  let cashValue := if is_undefined (cash b) then Fin 0 else parseFloat (cash b) in
  let onlineValue := if is_undefined (online b) then Fin 0 else parseFloat (online b) in
  let securityMoneyValue :=
    if is_undefined (security_money b) then Fin 0 else parseFloat (security_money b) in
  if invalid cashValue then rollback_reply 400 BadCash else
  if invalid onlineValue then rollback_reply 400 BadOnline else
  if invalid securityMoneyValue then rollback_reply 400 BadSecurityMoney else
  let dueAmount := num_sub feeValue paidValue in
  let insert :=
    let status := status_at_write (membership_end b) now in
    Query Client
      (InsertStudent
         (mkValues (name b) (email b) (phone b) (address b) (Some branchIdNum)
            (membership_start b) (membership_end b)
            feeValue paidValue dueAmount cashValue onlineValue securityMoneyValue
            (or_null (remark b)) (or_null (profile_image_url b)) status))
      (fun rows =>
       match rows with
       | [] => Throw
       | student :: _ =>
           let history firstShiftId :=
             Query Client
               (InsertHistory (s_id student)
                  (mkSnapshot (s_name student) (s_email student) (s_phone student)
                     (s_address student)
                     (s_membership_start student) (s_membership_end student)
                     (s_status student)
                     (s_total_fee student) (s_amount_paid student) (s_due_amount student)
                     (s_cash student) (s_online student) (s_security_money student)
                     (or_empty (s_remark student))
                     (seatIdNum b) firstShiftId (Some branchIdNum)))
               (fun _ =>
                Query Client COMMIT (fun _ =>
                Respond (mkResponse 201 (StudentRow student)))) in
           match seat_and_shifts (seatIdNum b) (shiftIdsNum b) with
           | Some seat =>
               insert_assignments Client seat (Fin (s_id student)) (shiftIdsNum b)
                 None history
           | None => history None
           end
       end) in
  match seat_and_shifts (seatIdNum b) (shiftIdsNum b) with
  | Some seat =>
      Query Client (SelectSeat seat) (fun rows =>
      match rows with
      | [] => rollback_reply 400 (SeatNotFound seat)
      | _ :: _ =>
          check_shifts (shiftIdsNum b)
            (check_conflicts Client (SelectAssignment seat) (rollback_reply 400)
               (shiftIdsNum b) insert)
      end)
  | None => insert
  end).

Definition post_student (faults : nat -> bool) (now : Z) (b : body)
  : world -> outcome * world :=
  with_client
    (try_catch faults now (post_body now b) (rollback_reply 500 ServerError)).

(** *** PUT /:id *)

Definition put_body (now : Z) (id_param : jsval) (b : body) : prog :=
  Query Client BEGIN (fun _ =>
  let id := parseInt id_param in
  if negb (truthy_text (name b)) || negb (truthy_text (email b))
     || negb (truthy_text (phone b)) || negb (truthy_text (address b))
     || negb (truthy (branch_id b))
     || negb (truthy_date (membership_start b)) || negb (truthy_date (membership_end b))
  then rollback_reply 400 MissingFields
  else
  let branchIdNum := if truthy (branch_id b) then Some (parseInt (branch_id b)) else None in
  Query Client (SelectStudent id) (fun rows =>
  match rows with
  | [] => rollback_reply 404 StudentNotFound
  | currentStudent :: _ =>
  let keep (field : jsval) (stored : option num) :=
    if supplied field then parseFloat field
    else parseFloat (jor (col stored) (JNum (Fin 0))) in
  let totalFeeValue := keep (total_fee b) (s_total_fee currentStudent) in
  let amountPaidValue := keep (amount_paid b) (s_amount_paid currentStudent) in
  let cashValue := keep (cash b) (s_cash currentStudent) in
  let onlineValue := keep (online b) (s_online currentStudent) in
  let securityMoneyValue := keep (security_money b) (s_security_money currentStudent) in
  if invalid totalFeeValue then rollback_reply 400 BadTotalFee else
  if invalid amountPaidValue then rollback_reply 400 BadAmountPaid else
  if invalid cashValue then rollback_reply 400 BadCash else
  if invalid onlineValue then rollback_reply 400 BadOnline else
  if invalid securityMoneyValue then rollback_reply 400 BadSecurityMoney else
  let dueAmountValue := num_sub totalFeeValue amountPaidValue in
  let update :=
    let status := status_at_write (membership_end b) now in
    Query Client
      (UpdateStudent
         (mkValues (name b) (email b) (phone b) (address b) branchIdNum
            (membership_start b) (membership_end b)
            totalFeeValue amountPaidValue dueAmountValue
            cashValue onlineValue securityMoneyValue
            (or_null (remark b)) None status) id)
      (fun rows =>
       match rows with
       | [] => rollback_reply 404 StudentNotFound
       | updatedStudent :: _ =>
           let history firstShiftId :=
             Query Client (SelectLatestHistory id) (fun rows =>
             match rows with
             | [] => rollback_reply 404 NoHistory
             | historyId :: _ =>
                 Query Client
                   (UpdateHistory
                      (mkSnapshot (name b) (email b) (phone b) (address b)
                         (membership_start b) (membership_end b) status
                         (Some totalFeeValue) (Some amountPaidValue) (Some dueAmountValue)
                         (Some cashValue) (Some onlineValue) (Some securityMoneyValue)
                         (or_empty (remark b))
                         (seatIdNum b) firstShiftId branchIdNum)
                      historyId)
                   (fun _ =>
                    Query Client COMMIT (fun _ =>
                    Respond (mkResponse 200 (StudentRow updatedStudent))))
             end) in
           match seat_and_shifts (seatIdNum b) (shiftIdsNum b) with
           | Some seat =>
               Query Client (DeleteAssignments id) (fun _ =>
               insert_assignments Client seat id (shiftIdsNum b) None history)
           | None =>
               Query Client (DeleteAssignments id) (fun _ => history None)
           end
       end) in
  match seat_and_shifts (seatIdNum b) (shiftIdsNum b) with
  | Some seat =>
      Query Client (SelectSeat seat) (fun rows =>
      match rows with
      | [] => rollback_reply 400 (SeatNotFound seat)
      | _ :: _ =>
          check_shifts (shiftIdsNum b)
            (check_conflicts Client (fun shiftId => SelectAssignmentOther seat shiftId id)
               (rollback_reply 400) (shiftIdsNum b) update)
      end)
  | None => update
  end
  end)).

Definition put_student (faults : nat -> bool) (now : Z) (id_param : jsval) (b : body)
  : world -> outcome * world :=
  with_client
    (try_catch faults now (put_body now id_param b) (rollback_reply 500 ServerError)).

(** *** DELETE /:id *)

Definition delete_body (id_param : jsval) : prog :=
  let id := parseInt id_param in
  Query Pool (DeleteAssignments id) (fun _ =>
  Query Pool (DeleteHistory id) (fun _ =>
  Query Pool (DeleteStudent id) (fun rows =>
  match rows with
  | [] => Respond (reply 404 StudentNotFound)
  | s :: _ => Respond (mkResponse 200 (StudentRow s))
  end))).

Definition delete_student (faults : nat -> bool) (now : Z) (id_param : jsval)
  : world -> outcome * world :=
  try_catch faults now (delete_body id_param) (Respond (reply 500 ServerError)).

(** *** POST /:id/renew *)

Definition renew_body (id_param : jsval) (b : body) : prog :=
  let id := parseInt id_param in
  if negb (truthy_date (membership_start b)) || negb (truthy_date (membership_end b))
  then Respond (reply 400 DatesRequired)
  else
  let branchIdNum := if truthy (branch_id b) then Some (parseInt (branch_id b)) else None in
  Query Pool (SelectStudent id) (fun rows =>
  match rows with
  | [] => Respond (reply 404 StudentNotFound)
  | old :: _ =>
  let feeValue :=
    parseFloat (jor (jor (total_fee b) (col (s_total_fee old))) (JNum (Fin 0))) in
  if invalid feeValue then Respond (reply 400 BadTotalFee) else
  let cashValue := parseFloat (jor (cash b) (JNum (Fin 0))) in
  let onlineValue := parseFloat (jor (online b) (JNum (Fin 0))) in
  let securityMoneyValue :=
    parseFloat (jor (jor (security_money b) (col (s_security_money old))) (JNum (Fin 0))) in
  if invalid cashValue then Respond (reply 400 BadCash) else
  if invalid onlineValue then Respond (reply 400 BadOnline) else
  if invalid securityMoneyValue then Respond (reply 400 BadSecurityMoney) else
  let amount_paid := num_add cashValue onlineValue in
  let due := num_sub feeValue amount_paid in
  let update :=
    Query Pool
      (RenewStudent
         (mkRenew (membership_start b) (membership_end b) (email b) (phone b) branchIdNum
            feeValue amount_paid due cashValue onlineValue securityMoneyValue
            (or_null (remark b))) id)
      (fun rows =>
       let history firstShiftId :=
         match rows with
         | [] => Throw
         | updated :: _ =>
             Query Pool
               (InsertHistory (s_id updated)
                  (mkSnapshot (s_name updated) (s_email updated) (s_phone updated)
                     (s_address updated)
                     (s_membership_start updated) (s_membership_end updated)
                     (s_status updated)
                     (s_total_fee updated) (s_amount_paid updated) (s_due_amount updated)
                     (s_cash updated) (s_online updated) (s_security_money updated)
                     (or_empty (s_remark updated))
                     (seatIdNum b) firstShiftId branchIdNum))
               (fun _ => Respond (mkResponse 200 (StudentRow updated)))
         end in
       match seat_and_shifts (seatIdNum b) (shiftIdsNum b) with
       | Some seat =>
           Query Pool (DeleteAssignments id) (fun _ =>
           insert_assignments Pool seat id (shiftIdsNum b) None history)
       | None => history None
       end) in
  match seat_and_shifts (seatIdNum b) (shiftIdsNum b) with
  | Some seat =>
      check_conflicts Pool (fun shiftId => SelectAssignmentOther seat shiftId id)
        (fun m => Respond (reply 400 m)) (shiftIdsNum b) update
  | None => update
  end
  end).

Definition renew_student (faults : nat -> bool) (now : Z) (id_param : jsval) (b : body)
  : world -> outcome * world :=
  try_catch faults now (renew_body id_param b) (Respond (reply 500 ServerError)).

(** ** The fault-free course of a body

    When no query fails, the statements of a body take effect one after
    the other on a single database; [course] is that composition.  It is
    related to [run] below, where the connection and its faults are. *)
Fixpoint course (now : Z) (p : prog) (sq : seqs) (d : db) : option (response * db) :=
  match p with
  | Respond r => Some (r, d)
  | Throw => None
  | Query _ q k =>
      match exec q now sq d with
      | Some (v, sq', d') => course now (k v) sq' d'
      | None => None
      end
  end.

Definition succeeded (r : response) : bool := (code r =? 200) || (code r =? 201).

Definition is_data (k : kind) : bool :=
  match k with KRead | KWrite => true | _ => false end.

(** Bodies written for an open transaction: statements on the client,
    closed either by ROLLBACK and an error response or by COMMIT and a
    success response. *)
Inductive closes_tx : prog -> Prop :=
| ct_throw : closes_tx Throw
| ct_rollback (r : response) :
    succeeded r = false ->
    closes_tx (Query Client ROLLBACK (fun _ => Respond r))
| ct_commit (r : response) :
    succeeded r = true ->
    closes_tx (Query Client COMMIT (fun _ => Respond r))
| ct_data (T : Type) (q : sql T) (k : T -> prog) :
    is_data (kind_of q) = true ->
    (forall v, closes_tx (k v)) ->
    closes_tx (Query Client q k).

(** Bodies that never open a transaction: every statement goes through
    the pool and is committed on its own. *)
Inductive autocommits : prog -> Prop :=
| ac_respond (r : response) : autocommits (Respond r)
| ac_throw : autocommits Throw
| ac_query (T : Type) (q : sql T) (k : T -> prog) :
    is_data (kind_of q) = true ->
    (forall v, autocommits (k v)) ->
    autocommits (Query Pool q k).

(** ** Vocabulary of the statements below *)

(** Two databases that differ at most in [seat_assignments]. *)
Definition same_but_assignments (d d1 : db) : Prop :=
  students d1 = students d /\ seats d1 = seats d /\ schedules d1 = schedules d /\
  student_membership_history d1 = student_membership_history d.

(** The rows the insert loop appends: one per shift, in order. *)
Definition assigned_rows (seat student : Z) (rows : list assignment)
    (shifts : list num) : Prop :=
  Forall2 (fun a s => sa_seat_id a = seat /\ s = Fin (sa_shift_id a) /\
                      sa_student_id a = student) rows shifts.

(** [rows[0]] of [SELECT * FROM students WHERE id = i]. *)
Definition student_by_id (i : Z) (d : db) : option student :=
  hd_error (filter (has_id i) (students d)).



(** No query is lost. *)
Definition no_faults : nat -> bool := fun _ => false.

(** What every read endpoint reports for a numeric column:
    [parseFloat(student.total_fee || 0)]. *)
Definition reported (c : option num) : num := parseFloat (jor (col c) (JNum (Fin 0))).



(** The events of a route that never touches a transaction: statements
    through the pool and responses. *)
Definition untransacted (e : event) : bool :=
  match e with
  | Issued Pool k _ => is_data k
  | Sent _ => true
  | _ => false
  end.

(** The seat is taken in the shift by a student other than [i]. *)
Definition taken_by_other (seat shift i : Z) (d : db) : Prop :=
  filter (fun a => at_seat_shift seat shift a && negb (of_student i a))
    (seat_assignments d) <> [].

(** The seat is taken in the shift, by whichever student. *)
Definition taken (seat shift : Z) (d : db) : Prop :=
  filter (at_seat_shift seat shift) (seat_assignments d) <> [].

(** ** A small library, to exercise the statements *)

Definition asha : student :=
  mkStudent 1 (Some "Asha"%string) (Some "asha@example.org"%string)
    (Some "9000000001"%string) (Some "12 Lake Road"%string) (Some 1)
    (Some 19640) (Some 19670)
    (Some (Fin 1500)) (Some (Fin 1000)) (Some (Fin 500))
    (Some (Fin 1000)) (Some (Fin 0)) (Some (Fin 200))
    None None active.

Definition asha_enrolled : history_row :=
  mkHistory 1 1 (Some "Asha"%string) (Some "asha@example.org"%string)
    (Some "9000000001"%string) (Some "12 Lake Road"%string)
    (Some 19640) (Some 19670) active
    (Some (Fin 1500)) (Some (Fin 1000)) (Some (Fin 500))
    (Some (Fin 1000)) (Some (Fin 0)) (Some (Fin 200))
    (Some EmptyString) (Some 10) (Some 1) (Some 1) 1696900000000.

(** Seats 10 and 11, shifts 1 and 2; Asha holds seat 10 in shift 1. *)
Definition sample_db : db :=
  mkDb [asha] [10; 11] [1; 2] [mkAssignment 1 10 1 1] [asha_enrolled].

Definition sample_world : world :=
  mkWorld sample_db None (mkSeqs 2 2 2) 0 [] 0.

(** 2023-11-14T22:13:20Z, day 19675. *)
Definition sample_now : Z := 1700000000000.

Definition no_body : body :=
  mkBody None None None None JUndefined None None JUndefined JUndefined None
    JUndefined JUndefined JUndefined JUndefined None None.

Definition with_dates (b : body) (from to : Z) : body :=
  mkBody (name b) (email b) (phone b) (address b) (branch_id b) (Some from) (Some to)
    (total_fee b) (amount_paid b) (shift_ids b) (seat_id b) (cash b) (online b)
    (security_money b) (remark b) (profile_image_url b).

Definition with_seat (b : body) (seat : jsval) (shifts : list jsval) : body :=
  mkBody (name b) (email b) (phone b) (address b) (branch_id b)
    (membership_start b) (membership_end b)
    (total_fee b) (amount_paid b) (Some shifts) seat (cash b) (online b)
    (security_money b) (remark b) (profile_image_url b).

Definition with_money (b : body) (fee paid cash_ online_ security : jsval) : body :=
  mkBody (name b) (email b) (phone b) (address b) (branch_id b)
    (membership_start b) (membership_end b)
    fee paid (shift_ids b) (seat_id b) cash_ online_ security
    (remark b) (profile_image_url b).

Definition with_person (b : body) (n e p a : string) (branch : jsval) : body :=
  mkBody (Some n) (Some e) (Some p) (Some a) branch
    (membership_start b) (membership_end b)
    (total_fee b) (amount_paid b) (shift_ids b) (seat_id b) (cash b) (online b)
    (security_money b) (remark b) (profile_image_url b).

(** A renewal for a period that is already over, fee and security
    deposit sent as the number 0. *)
Definition renew_past : body :=
  with_money (with_dates no_body 19000 19030)
    (JNum (Fin 0)) JUndefined (JNum (Fin 500)) JUndefined (JNum (Fin 0)).

(** A new student who pays 1200 on a fee of 1000 and asks for seat 11
    in shift 2. *)
Definition bela : body :=
  with_seat
    (with_money
       (with_dates
          (with_person no_body "Bela" "bela@example.org" "9000000002" "4 Hill Street"
             (JNum (Fin 1)))
          19675 19705)
       (JNum (Fin 1000)) (JNum (Fin 1200)) JUndefined JUndefined JUndefined)
    (JNum (Fin 11)) [JNum (Fin 2)].

(** The same student, membership ending on the day of the request. *)
Definition bela_last_day : body := with_dates bela 19645 19675.

(** The same student asking for Asha's seat in shifts 2 and 1. *)
Definition bela_on_asha_seat : body :=
  with_seat bela (JNum (Fin 10)) [JNum (Fin 2); JNum (Fin 1)].

(** An edit of Asha that carries no usable monetary field and an empty
    list of shifts. *)
Definition asha_edit : body :=
  with_seat
    (with_money
       (with_dates
          (with_person no_body "Asha" "asha@example.org" "9000000001" "14 Lake Road"
             (JText (Fin 1)))
          19640 19700)
       JUndefined JNull JEmpty JUndefined JNull)
    (JNum (Fin 10)) [].


(** A renewal whose [seat_id] is the string "abc". *)
Definition renew_bad_seat : body :=
  with_seat (with_dates no_body 19700 19730) (JText NaN) [JNum (Fin 2)].

(** A renewal onto seat 99, which does not exist, in shift 2. *)
Definition renew_missing_seat : body :=
  with_seat (with_dates no_body 19700 19730) (JNum (Fin 99)) [JNum (Fin 2)].

(** An edit of Asha onto seat 99 in shift 2. *)
Definition edit_missing_seat : body :=
  with_seat asha_edit (JNum (Fin 99)) [JNum (Fin 2)].

(** A renewal onto seat 11 in shift 77, which does not exist. *)
Definition renew_missing_shift : body :=
  with_seat (with_dates no_body 19700 19730) (JNum (Fin 11)) [JNum (Fin 77)].

(** An edit of Asha onto seat 11 in shift 77. *)
Definition edit_missing_shift : body :=
  with_seat asha_edit (JNum (Fin 11)) [JNum (Fin 77)].

(** An assignment without its serial id. *)
Definition triple (a : assignment) : Z * Z * Z :=
  (sa_seat_id a, sa_shift_id a, sa_student_id a).

(** The third query of the request is lost. *)
Definition third_query_fails : nat -> bool := fun n => Nat.eqb n 2.

(** ** Reasoning along a body

    [along Inv Q now p sq d]: when the statements of [p] are run one
    after the other from database [d], whatever they return, [Inv] holds
    of the database after each of them, and a response [r] sent from
    database [d'] satisfies [Q r d'].  Nothing is said of the statements
    the server refuses: the body stops there. *)
Fixpoint along (Inv : db -> Prop) (Q : response -> db -> Prop) (now : Z) (p : prog)
    (sq : seqs) (d : db) : Prop :=
  match p with
  | Respond r => Q r d
  | Throw => True
  | Query _ q k =>
      forall v sq' d', exec q now sq d = Some (v, sq', d') ->
        Inv d' /\ along Inv Q now (k v) sq' d'
  end.

(** ** Vocabulary of the further statements *)

(** No seat is held in the same shift by two different students. *)
Definition exclusive (d : db) : Prop :=
  forall a a', In a (seat_assignments d) -> In a' (seat_assignments d) ->
    sa_seat_id a = sa_seat_id a' -> sa_shift_id a = sa_shift_id a' ->
    sa_student_id a = sa_student_id a'.

(** The pairs of [seat] with one of [shifts] are held by [student] alone. *)
Definition reserved (seat student : Z) (shifts : list num) (d : db) : Prop :=
  forall a, In a (seat_assignments d) -> sa_seat_id a = seat ->
    In (Fin (sa_shift_id a)) shifts -> sa_student_id a = student.

(** The rows of every student but [i] are the same in [d] and [d']. *)
Definition same_but_student (i : Z) (d d' : db) : Prop :=
  filter (fun s => negb (has_id i s)) (students d')
  = filter (fun s => negb (has_id i s)) (students d) /\
  filter (fun a => negb (of_student i a)) (seat_assignments d')
  = filter (fun a => negb (of_student i a)) (seat_assignments d) /\
  filter (fun h => negb (history_of i h)) (student_membership_history d')
  = filter (fun h => negb (history_of i h)) (student_membership_history d) /\
  seats d' = seats d /\ schedules d' = schedules d.

(** The database without any row of student [i]. *)
Definition purged (i : Z) (d : db) : db :=
  mkDb (filter (fun s => negb (has_id i s)) (students d)) (seats d) (schedules d)
    (filter (fun a => negb (of_student i a)) (seat_assignments d))
    (filter (fun h => negb (history_of i h)) (student_membership_history d)).

(** No row of any table carries student id [i]. *)
Definition unused_id (i : Z) (d : db) : Prop :=
  filter (has_id i) (students d) = [] /\
  filter (of_student i) (seat_assignments d) = [] /\
  filter (history_of i) (student_membership_history d) = [].


(** The parameters renew computes for its UPDATE of the row [old]. *)
Definition renewal (b : body) (old : student) : renew_values :=
  mkRenew (membership_start b) (membership_end b) (email b) (phone b)
    (if truthy (branch_id b) then Some (parseInt (branch_id b)) else None)
    (parseFloat (jor (jor (total_fee b) (col (s_total_fee old))) (JNum (Fin 0))))
    (num_add (parseFloat (jor (cash b) (JNum (Fin 0))))
       (parseFloat (jor (online b) (JNum (Fin 0)))))
    (num_sub (parseFloat (jor (jor (total_fee b) (col (s_total_fee old))) (JNum (Fin 0))))
       (num_add (parseFloat (jor (cash b) (JNum (Fin 0))))
          (parseFloat (jor (online b) (JNum (Fin 0))))))
    (parseFloat (jor (cash b) (JNum (Fin 0))))
    (parseFloat (jor (online b) (JNum (Fin 0))))
    (parseFloat (jor (jor (security_money b) (col (s_security_money old))) (JNum (Fin 0))))
    (or_null (remark b)).

(** A stored amount that is a number and not negative. *)
Definition amount_ok (c : option num) : bool :=
  match c with
  | Some n => negb (invalid n)
  | None => false
  end.

Definition valid_amounts (s : student) : bool :=
  amount_ok (s_total_fee s) && amount_ok (s_amount_paid s) && amount_ok (s_cash s)
  && amount_ok (s_online s) && amount_ok (s_security_money s).

(** A history row that is a snapshot of a student row taken at [now]. *)
Definition snapshot_of (s : student) (now : Z) (h : history_row) : Prop :=
  h_student_id h = s_id s /\ h_name h = s_name s /\ h_email h = s_email s /\
  h_phone h = s_phone s /\ h_address h = s_address s /\
  h_membership_start h = s_membership_start s /\
  h_membership_end h = s_membership_end s /\ h_status h = s_status s /\
  h_total_fee h = s_total_fee s /\ h_amount_paid h = s_amount_paid s /\
  h_due_amount h = s_due_amount s /\ h_cash h = s_cash s /\
  h_online h = s_online s /\ h_security_money h = s_security_money s /\
  h_remark h = or_empty (s_remark s) /\ h_changed_at h = now.

(** What a refusal of create, with status [c] and message [m], says
    about the request and the database it was checked against. *)
Definition create_refusal (b : body) (d : db) (c : Z) (m : message) : Prop :=
  c = 400 /\
  match m with
  | MissingFields =>
      truthy_text (name b) && truthy (branch_id b)
      && truthy_date (membership_start b) && truthy_date (membership_end b) = false
  | BadTotalFee => invalid (parseFloat (jor (total_fee b) (JNum (Fin 0)))) = true
  | BadAmountPaid => invalid (parseFloat (jor (amount_paid b) (JNum (Fin 0)))) = true
  | BadCash =>
      invalid (if is_undefined (cash b) then Fin 0 else parseFloat (cash b)) = true
  | BadOnline =>
      invalid (if is_undefined (online b) then Fin 0 else parseFloat (online b)) = true
  | BadSecurityMoney =>
      invalid (if is_undefined (security_money b) then Fin 0
               else parseFloat (security_money b)) = true
  | SeatNotFound s =>
      exists z, seat_and_shifts (seatIdNum b) (shiftIdsNum b) = Some (Fin z) /\
                s = Fin z /\ ~ In z (seats d)
  | ShiftNotFound s =>
      exists j, s = Fin j /\ In s (shiftIdsNum b) /\ ~ In j (schedules d)
  | SeatTaken s =>
      exists z j, seat_and_shifts (seatIdNum b) (shiftIdsNum b) = Some (Fin z) /\
                  s = Fin j /\ In s (shiftIdsNum b) /\ taken z j d
  | DatesRequired | StudentNotFound | NoHistory | ServerError => False
  end.


(** The same for renew of the student [id]. *)
Definition renew_refusal (id : num) (b : body) (d : db) (c : Z) (m : message) : Prop :=
  match m with
  | DatesRequired =>
      c = 400 /\
      truthy_date (membership_start b) && truthy_date (membership_end b) = false
  | StudentNotFound => c = 404 /\ exists i, id = Fin i /\ student_by_id i d = None
  | BadTotalFee =>
      c = 400 /\ exists i old, id = Fin i /\ student_by_id i d = Some old /\
        invalid (parseFloat (jor (jor (total_fee b) (col (s_total_fee old)))
                               (JNum (Fin 0)))) = true
  | BadCash => c = 400 /\ invalid (parseFloat (jor (cash b) (JNum (Fin 0)))) = true
  | BadOnline => c = 400 /\ invalid (parseFloat (jor (online b) (JNum (Fin 0)))) = true
  | BadSecurityMoney =>
      c = 400 /\ exists i old, id = Fin i /\ student_by_id i d = Some old /\
        invalid (parseFloat (jor (jor (security_money b) (col (s_security_money old)))
                               (JNum (Fin 0)))) = true
  | SeatTaken s =>
      c = 400 /\
      exists i z j, id = Fin i /\
                    seat_and_shifts (seatIdNum b) (shiftIdsNum b) = Some (Fin z) /\
                    s = Fin j /\ In s (shiftIdsNum b) /\ taken_by_other z j i d
  | MissingFields | BadAmountPaid | SeatNotFound _ | ShiftNotFound _
  | NoHistory | ServerError => False
  end.

(** ** Reads

    The GET handlers send one or two SELECTs through the pool and shape
    the rows they get.  A read sees the committed database.  The order
    of rows that compare equal under an ORDER BY is not fixed by SQL; the
    model keeps them in table order. *)

(** The columns of [seats], [schedules] and [branches] that only the
    reads show, as (id, value) rows in table order. *)
Record labels : Type := mkLabels {
  seat_numbers : list (Z * text);
  shift_titles : list (Z * text);
  branch_names : list (Z * text)
}.

(** [res.json(a)], or [res.status(c).json({ message })]. *)
Inductive reading (A : Type) : Type :=
| Json (a : A)
| Refusal (c : Z) (message : string).

Arguments Json {A} a.
Arguments Refusal {A} c message.

(** One [await pool.query(..)] of a read handler, the [n]-th of its
    request: [rows] is what the server answers, [None] when it refuses a
    parameter; a lost query rejects. *)
Definition pool_query {A} (faults : nat -> bool) (n : nat) (rows : option A) : option A :=
  if faults n then None else rows.

(** [branchId ? parseInt(branchId, 10) : null] *)
Definition branchIdNum (branchId : jsval) : option num :=
  if truthy branchId then Some (parseInt branchId) else None.

(** [if (branchIdNum) query += ' AND s.branch_id = $n']: the condition
    the query ends up with. *)
Definition in_branch (branch : option num) (s : student) : bool :=
  if truthy_id branch then
    match branch, s_branch_id s with
    | Some (Fin z), Some sb => sb =? z
    | _, _ => false
    end
  else true.

(** [s.membership_end >= CURRENT_DATE] *)
Definition not_ended (now : Z) (s : student) : bool :=
  match s_membership_end s with
  | Some e => CURRENT_DATE now <=? e
  | None => false
  end.

(** [s.membership_end < CURRENT_DATE] *)
Definition ended (now : Z) (s : student) : bool :=
  match s_membership_end s with
  | Some e => e <? CURRENT_DATE now
  | None => false
  end.

(** [const t = new Date(); t.setDate(t.getDate() + 30)], in milliseconds. *)
Definition thirtyDaysFromNow (now : Z) : Z := now + 30 * msPerDay.

(** [s.membership_end <= $1], the parameter being a point in time and
    the column midnight of its day. *)
Definition ends_by (t : Z) (s : student) : bool :=
  match s_membership_end s with
  | Some e => e * msPerDay <=? t
  | None => false
  end.

(** [ORDER BY]: a stable insertion sort by [le]. *)
Fixpoint insert_by {A} (le : A -> A -> bool) (x : A) (l : list A) : list A :=
  match l with
  | [] => [x]
  | y :: l' => if le x y then x :: l else y :: insert_by le x l'
  end.

Definition order_by {A} (le : A -> A -> bool) (l : list A) : list A :=
  fold_right (insert_by le) [] l.

(** Ascending dates, NULL last. *)
Definition date_le (a b : date) : bool :=
  match a, b with
  | Some x, Some y => x <=? y
  | _, None => true
  | None, Some _ => false
  end.

(** [new Date(x).toISOString().split('T')[0]] as a day number;
    [new Date(null)] is 1970-01-01. *)
Definition iso_day (x : date) : Z :=
  match x with
  | Some day => day
  | None => 0
  end.

(** The object the list handlers and GET /:id build from a row:
    [j_row] is the row as selected, whose [status] key holds the
    computed [j_status]; the other fields are the overrides. *)
Record student_json : Type := mkJson {
  j_row : student;
  j_status : status;
  j_membership_start : Z;
  j_membership_end : Z;
  j_total_fee : num;
  j_amount_paid : num;
  j_due_amount : num;
  j_cash : num;
  j_online : num;
  j_security_money : num;
  j_remark : text
}.

Definition shaped (now : Z) (s : student) : student_json :=
  mkJson s (withCalculatedStatus s now)
    (iso_day (s_membership_start s)) (iso_day (s_membership_end s))
    (reported (s_total_fee s)) (reported (s_amount_paid s)) (reported (s_due_amount s))
    (reported (s_cash s)) (reported (s_online s)) (reported (s_security_money s))
    (or_empty (s_remark s)).

(** *** GET /active, /expired, /expiring-soon

    [name_le] is the order of the database collation on names. *)

Definition get_active (faults : nat -> bool) (name_le : text -> text -> bool) (now : Z)
    (branchId : jsval) (d : db) : reading (list student_json) :=
  let branch := branchIdNum branchId in
  match pool_query faults 0
          (Some (order_by (fun s t => name_le (s_name s) (s_name t))
                   (filter (fun s => not_ended now s && in_branch branch s) (students d))))
  with
  | Some rows => Json (map (shaped now) rows)
  | None => Refusal 500 "Server error"
  end.

Definition get_expired (faults : nat -> bool) (name_le : text -> text -> bool) (now : Z)
    (branchId : jsval) (d : db) : reading (list student_json) :=
  let branch := branchIdNum branchId in
  match pool_query faults 0
          (Some (order_by (fun s t => name_le (s_name s) (s_name t))
                   (filter (fun s => ended now s && in_branch branch s) (students d))))
  with
  | Some rows => Json (map (shaped now) rows)
  | None => Refusal 500 "Server error"
  end.

Definition get_expiring_soon (faults : nat -> bool) (now : Z)
    (branchId : jsval) (d : db) : reading (list student_json) :=
  let branch := branchIdNum branchId in
  match pool_query faults 0
          (Some (order_by (fun s t => date_le (s_membership_end s) (s_membership_end t))
                   (filter (fun s => not_ended now s && ends_by (thirtyDaysFromNow now) s
                                     && in_branch branch s) (students d))))
  with
  | Some rows => Json (map (shaped now) rows)
  | None => Refusal 500 "Server error"
  end.

(** *** GET /:id *)

(** [x LEFT JOIN t ON key = t.id], the joined column: one row per match,
    or a single NULL. *)
Definition left_join (key : option Z) (t : list (Z * text)) : list text :=
  match key with
  | None => [None]
  | Some i =>
      match filter (fun r => fst r =? i) t with
      | [] => [None]
      | matches => map snd matches
      end
  end.

Record assignment_json : Type := mkAssignmentJson {
  aj_seat_id : Z;
  aj_shift_id : Z;
  aj_seat_number : text;
  aj_shift_title : text
}.

Record student_detail : Type := mkDetail {
  sd_student : student_json;
  sd_branch_name : text;
  sd_assignments : list assignment_json
}.

Definition get_student (faults : nat -> bool) (lb : labels) (now : Z)
    (id_param : jsval) (d : db) : reading student_detail :=
  let id := parseInt id_param in
  match pool_query faults 0
          (i <- pg_int id ;;
           Some (flat_map
                   (fun s => map (fun b => (s, b))
                               (left_join (s_branch_id s) (branch_names lb)))
                   (filter (has_id i) (students d))))
  with
  | None => Refusal 500 "Server error"
  | Some [] => Refusal 404 "Student not found"
  | Some ((studentData, branch_name) :: _) =>
      match pool_query faults 1
              (i <- pg_int id ;;
               Some (flat_map
                       (fun a =>
                          flat_map
                            (fun seat_number =>
                               map (mkAssignmentJson (sa_seat_id a) (sa_shift_id a)
                                      seat_number)
                                 (left_join (Some (sa_shift_id a)) (shift_titles lb)))
                            (left_join (Some (sa_seat_id a)) (seat_numbers lb)))
                       (filter (of_student i) (seat_assignments d))))
      with
      | None => Refusal 500 "Server error"
      | Some assignments => Json (mkDetail (shaped now studentData) branch_name assignments)
      end
  end.

(** *** GET /shift/:shiftId *)

Record shift_row : Type := mkShiftRow {
  sr_id : Z;
  sr_name : text;
  sr_email : text;
  sr_phone : text;
  sr_membership_end : date;
  sr_status : status
}.

(** [column ILIKE pattern]; NULL matches nothing. *)
Definition text_ilike (ilike : string -> string -> bool) (pattern : string) (column : text)
  : bool :=
  match column with
  | Some value => ilike value pattern
  | None => false
  end.

(** [ilike value pattern] is the ILIKE of the database. *)
Definition get_shift_students (faults : nat -> bool) (name_le : text -> text -> bool)
    (ilike : string -> string -> bool) (now : Z)
    (shiftId : jsval) (search statusFilter : text) (d : db) : reading (list shift_row) :=
  let shiftIdNum := parseInt shiftId in
  if isNaN shiftIdNum then Refusal 400 "Invalid Shift ID" else
  let searched (s : student) :=
    if truthy_text search then
      match search with
      | Some word =>
          let pattern := ("%" ++ word ++ "%")%string in
          text_ilike ilike pattern (s_name s) || text_ilike ilike pattern (s_phone s)
      | None => true
      end
    else true in
  let filtered (s : student) :=
    match statusFilter with
    | Some word =>
        if negb (String.eqb word EmptyString) && negb (String.eqb word "all") then
          if String.eqb word "active" then not_ended now s
          else if String.eqb word "expired" then ended now s
          else true
        else true
    | None => true
    end in
  match pool_query faults 0
          (j <- pg_int shiftIdNum ;;
           Some (order_by (fun s t => name_le (s_name s) (s_name t))
                   (filter (fun s => searched s && filtered s)
                      (flat_map
                         (fun s => map (fun _ => s)
                                     (filter (fun a => of_student (s_id s) a
                                                       && (sa_shift_id a =? j))
                                        (seat_assignments d)))
                         (students d)))))
  with
  | Some rows =>
      Json (map (fun s => mkShiftRow (s_id s) (s_name s) (s_email s) (s_phone s)
                            (s_membership_end s) (withCalculatedStatus s now)) rows)
  | None => Refusal 500 "Server error"
  end.

(** ** The edit form

    [handleSubmit] of the EditStudentForm component, which sends PUT /:id:
    the checks it makes on the form and the payload it hands to
    [api.updateStudent].  A form string is a string of code units, all
    below 256 here; the number fields of the form are strings too and are
    [jsval]s as in the requests. *)

(** The code units below 256 that [\s] and [trim] treat as white space:
    TAB, LF, VT, FF, CR, SP and NBSP. *)
Definition is_space (c : Ascii.ascii) : bool :=
  let n := Ascii.nat_of_ascii c in
  (Nat.leb 9 n && Nat.leb n 13) || Nat.eqb n 32 || Nat.eqb n 160.

(** The characters [@] and [.] *)
Definition at_char : Ascii.ascii := Ascii.ascii_of_nat 64.

Definition dot_char : Ascii.ascii := Ascii.ascii_of_nat 46.

(** [!s.trim()] *)
Definition blank (s : string) : bool := forallb is_space (list_ascii_of_string s).

(** [[^\s@]] *)
Definition plain (c : Ascii.ascii) : bool :=
  negb (is_space c) && negb (Ascii.eqb c at_char).


(** The part of [s] before its first [@] and the part after it. *)
Fixpoint at_sign (s : list Ascii.ascii) : option (list Ascii.ascii * list Ascii.ascii) :=
  match s with
  | [] => None
  | c :: rest =>
      if Ascii.eqb c at_char then Some ([], rest)
      else match at_sign rest with
           | Some (a, d) => Some (c :: a, d)
           | None => None
           end
  end.

(** [emailRegex.test(email)]: a non-empty local part without white space,
    one [@], and a domain without white space that has a dot which is
    neither its first nor its last character. *)
Definition validateEmail (email : string) : bool :=
  match at_sign (list_ascii_of_string email) with
  | Some (a, d) =>
      negb (Nat.eqb (List.length a) 0) && forallb plain a && forallb plain d
      && existsb (fun c => Ascii.eqb c dot_char) (removelast (tl d))
  | None => false
  end.

Record FormData : Type := mkForm {
  f_name : string;
  f_email : string;
  f_phone : string;
  f_address : string;
  f_branchId : option num;
  f_membershipStart : date;
  f_membershipEnd : date;
  f_shiftId : jsval;
  f_seatId : option num;
  f_totalFee : jsval;
  f_cash : jsval;
  f_online : jsval;
  f_securityMoney : jsval;
  f_remark : string
}.

Record UpdateStudentPayload : Type := mkPayload {
  p_name : string;
  p_email : string;
  p_phone : string;
  p_address : string;
  p_branchId : option num;
  p_membershipStart : date;
  p_membershipEnd : date;
  p_totalFee : num;
  p_amountPaid : num;
  p_shiftIds : list num;
  p_seatId : option num;
  p_cash : num;
  p_online : num;
  p_securityMoney : num;
  p_remark : string
}.

(** [toast.error(..); return], or [api.updateStudent(studentId, payload)]. *)
Inductive submission : Type :=
| Toast (message : string)
| Submit (payload : UpdateStudentPayload).

(** [parseFloat(x) || 0] *)
Definition parsed_or_zero (x : jsval) : num :=
  parseFloat (jor (JNum (parseFloat x)) (JNum (Fin 0))).

(** [a >= b] on numbers; a comparison with [NaN] is false. *)
Definition num_ge (a b : num) : bool :=
  match a, b with
  | Fin x, Fin y => y <=? x
  | _, _ => false
  end.

(** [shifts] are the ids of the schedules the form has loaded. *)
Definition handleSubmit (formData : FormData) (shifts : list Z) : submission :=
  if blank (f_name formData) then Toast "Name is required"%string else
  if blank (f_email formData) then Toast "Email is required"%string else
  if negb (validateEmail (f_email formData))
  then Toast "Please enter a valid email address"%string else
  if blank (f_phone formData) then Toast "Phone number is required"%string else
  if blank (f_address formData) then Toast "Address is required"%string else
  if negb (truthy_id (f_branchId formData)) then Toast "Branch is required"%string else
  if negb (truthy_date (f_membershipStart formData))
     || negb (truthy_date (f_membershipEnd formData))
  then Toast "Membership dates are required"%string else
  if num_ge (Date_of (f_membershipStart formData)) (Date_of (f_membershipEnd formData))
  then Toast "Membership End date must be after Membership Start date"%string else
  let totalFeeValue := parseFloat (f_totalFee formData) in
  let cashValue := parsed_or_zero (f_cash formData) in
  let onlineValue := parsed_or_zero (f_online formData) in
  let securityMoneyValue := parsed_or_zero (f_securityMoney formData) in
  let amountPaidValue := num_add cashValue onlineValue in
  if invalid totalFeeValue then Toast "Total Fee must be a non-negative number"%string else
  if num_lt cashValue (Fin 0) then Toast "Cash Payment must be a non-negative number"%string else
  if num_lt onlineValue (Fin 0)
  then Toast "Online Payment must be a non-negative number"%string else
  if num_lt securityMoneyValue (Fin 0)
  then Toast "Security Money must be a non-negative number"%string else
  let shiftId :=
    if truthy (f_shiftId formData) then Some (parseInt (f_shiftId formData)) else None in
  if negb (truthy_id shiftId)
     || negb (existsb (fun id => match shiftId with
                                 | Some (Fin z) => id =? z
                                 | _ => false
                                 end) shifts)
  then Toast "Please select a valid shift"%string else
  Submit
    (mkPayload (f_name formData) (f_email formData) (f_phone formData)
       (f_address formData) (f_branchId formData)
       (f_membershipStart formData) (f_membershipEnd formData)
       totalFeeValue amountPaidValue
       (match shiftId with Some s => [s] | None => [] end)
       (f_seatId formData) cashValue onlineValue securityMoneyValue
       (f_remark formData)).

(** The amounts the form shows while it is edited. *)
Definition totalAmountPaid (formData : FormData) : num :=
  num_add (parsed_or_zero (f_cash formData)) (parsed_or_zero (f_online formData)).

Definition dueAmount (formData : FormData) : num :=
  num_sub (parsed_or_zero (f_totalFee formData)) (totalAmountPaid formData).

(** ** The renew dialog

    The renew dialog of the ExpiredMemberships page, which sends
    POST /:id/renew: the state [handleRenewClick] opens the dialog with
    and what [handleRenewSubmit] does with the state.  The two dates of
    the dialog, today and a month from today, are taken as given. *)

(** A row of the expired list as the page holds it; the optional fields
    may be [undefined]. *)
Record Student : Type := mkListed {
  ls_id : Z;
  ls_name : string;
  ls_email : text;
  ls_phone : text;
  ls_shiftId : option num;
  ls_seatId : option num;
  ls_totalFee : option num;
  ls_securityMoney : option num;
  ls_remark : text
}.

Record dialog : Type := mkDialog {
  selectedStudent : option Student;
  startDate : date;
  endDate : date;
  emailInput : string;
  phoneInput : string;
  selectedShift : option num;           (* [null], or the [value] of the option *)
  selectedSeat : option (option num);   (* [null], or an option whose [value] may be [null] *)
  totalFee : jsval;
  cashInput : jsval;                    (* the state variables [cash], [online], *)
  onlineInput : jsval;                  (* [securityMoney] and [remark] *)
  securityMoneyInput : jsval;
  remarkInput : string
}.

(** [t || ''] as a string *)
Definition or_blank (t : text) : string :=
  match or_empty t with
  | Some s => s
  | None => EmptyString
  end.

(** [n ? n.toString() : ''] *)
Definition shown (n : option num) : jsval :=
  match n with
  | Some x => if truthy_id n then JText x else JEmpty
  | None => JEmpty
  end.

Definition handleRenewClick (student : Student) (today in_a_month : Z) : dialog :=
  mkDialog (Some student) (Some today) (Some in_a_month)
    (or_blank (ls_email student)) (or_blank (ls_phone student))
    (if truthy_id (ls_shiftId student) then ls_shiftId student else None)
    (if truthy_id (ls_seatId student) then Some (ls_seatId student) else None)
    (shown (ls_totalFee student)) JEmpty JEmpty
    (shown (ls_securityMoney student)) (or_blank (ls_remark student)).

Fixpoint drop_spaces (l : list Ascii.ascii) : list Ascii.ascii :=
  match l with
  | [] => []
  | c :: rest => if is_space c then drop_spaces rest else l
  end.

(** [s.trim()] *)
Definition trim (s : string) : string :=
  string_of_list_ascii
    (rev (drop_spaces (rev (drop_spaces (list_ascii_of_string s))))).

Record RenewPayload : Type := mkRenewPayload {
  rp_membershipStart : date;
  rp_membershipEnd : date;
  rp_email : string;
  rp_phone : string;
  rp_shiftIds : list num;
  rp_seatId : jsval;
  rp_totalFee : num;
  rp_cash : num;
  rp_online : num;
  rp_securityMoney : num;
  rp_remark : text
}.

(** [toast.error(..); return], or [api.renewStudent(id, payload)]. *)
Inductive renewal_request : Type :=
| Refused (message : string)
| Renew (id : Z) (payload : RenewPayload).

Definition handleRenewSubmit (st : dialog) : renewal_request :=
  match selectedStudent st, selectedShift st with
  | Some student, Some shift =>
      if negb (truthy_date (startDate st)) || negb (truthy_date (endDate st))
         || String.eqb (emailInput st) EmptyString
         || String.eqb (phoneInput st) EmptyString
         || negb (truthy (totalFee st))
      then Refused "Please fill all required fields"%string
      else
        Renew (ls_id student)
          (mkRenewPayload (startDate st) (endDate st) (emailInput st) (phoneInput st)
             [shift]
             (match selectedSeat st with
              | Some (Some seat) => JNum seat
              | Some None => JNull
              | None => JUndefined
              end)
             (parseFloat (totalFee st))
             (parsed_or_zero (cashInput st)) (parsed_or_zero (onlineInput st))
             (parsed_or_zero (securityMoneyInput st))
             (if String.eqb (trim (remarkInput st)) EmptyString then None
              else Some (trim (remarkInput st))))
  | _, _ => Refused "Please fill all required fields"%string
  end.

(** The amounts the dialog shows. *)
Definition paid (st : dialog) : num :=
  num_add (parsed_or_zero (cashInput st)) (parsed_or_zero (onlineInput st)).

Definition due (st : dialog) : num :=
  num_sub (parsed_or_zero (totalFee st)) (paid st).

(** ** More of the small library *)

(** Seat and shift labels and the one branch of the sample library. *)
Definition sample_labels : labels :=
  mkLabels [(10, Some "A1"%string); (11, Some "A2"%string)]
    [(1, Some "Morning"%string); (2, Some "Evening"%string)]
    [(1, Some "Main"%string)].

(** Names in the order of their lengths, NULL last: enough of a
    collation for the sample library. *)
Definition by_length (a b : text) : bool :=
  match a, b with
  | Some x, Some y => Nat.leb (String.length x) (String.length y)
  | _, None => true
  | None, Some _ => false
  end.

(** A second student, who holds seat 11 in shift 1 until day 19690. *)
Definition chitra : student :=
  mkStudent 2 (Some "Chitra"%string) (Some "chitra@example.org"%string)
    (Some "9000000003"%string) (Some "7 Mill Lane"%string) (Some 1)
    (Some 19660) (Some 19690)
    (Some (Fin 1200)) (Some (Fin 1200)) (Some (Fin 0))
    (Some (Fin 200)) (Some (Fin 1000)) (Some (Fin 0))
    (Some "evening only"%string) None active.

Definition chitra_enrolled : history_row :=
  mkHistory 2 2 (Some "Chitra"%string) (Some "chitra@example.org"%string)
    (Some "9000000003"%string) (Some "7 Mill Lane"%string)
    (Some 19660) (Some 19690) active
    (Some (Fin 1200)) (Some (Fin 1200)) (Some (Fin 0))
    (Some (Fin 200)) (Some (Fin 1000)) (Some (Fin 0))
    (Some "evening only"%string) (Some 11) (Some 1) (Some 1) 1698600000000.

(** A student of another branch whose row has no dates and no amounts. *)
Definition dev : student :=
  mkStudent 3 (Some "Dev"%string) None None None (Some 2)
    None None None None None None None None None None active.

Definition library : db :=
  mkDb [asha; chitra; dev] [10; 11] [1; 2]
    [mkAssignment 1 10 1 1; mkAssignment 2 11 1 2]
    [asha_enrolled; chitra_enrolled].

Definition library_world : world :=
  mkWorld library None (mkSeqs 4 3 3) 0 [] 0.

(** Asha moves to seat 11 in shift 2 and pays 300 more. *)
Definition asha_moves : body :=
  with_seat
    (with_money
       (with_dates
          (with_person no_body "Asha" "asha@example.org" "9000000001" "12 Lake Road"
             (JText (Fin 1)))
          19640 19700)
       JUndefined (JText (Fin 1300)) JUndefined JUndefined JUndefined)
    (JNum (Fin 11)) [JNum (Fin 2)].

(** Asha asks for Chitra's seat in shifts 2 and 1. *)
Definition asha_on_chitra_seat : body :=
  with_seat asha_moves (JNum (Fin 11)) [JNum (Fin 2); JNum (Fin 1)].

(** Asha renews for thirty days on seat 10 in both shifts, paying 500 in
    cash; no fee is sent. *)
Definition asha_renews : body :=
  with_seat
    (with_money (with_dates no_body 19676 19706)
       JUndefined JUndefined (JText (Fin 500)) JUndefined JUndefined)
    (JNum (Fin 10)) [JNum (Fin 1); JNum (Fin 2)].

(** The same renewal without a seat and with a new phone number. *)
Definition asha_renews_by_phone : body :=
  mkBody None None (Some "9000000009"%string) None JUndefined (Some 19676) (Some 19706)
    JUndefined JUndefined None JUndefined (JText (Fin 500)) JUndefined JUndefined None None.

(** The fifth query of the request is lost. *)
Definition fifth_query_fails : nat -> bool := fun n => Nat.eqb n 4.



(** Asha as the expired list shows her. *)
Definition asha_listed : Student :=
  mkListed 1 "Asha"%string (Some "asha@example.org"%string) (Some "9000000001"%string)
    (Some (Fin 1)) (Some (Fin 10)) (Some (Fin 1500)) (Some (Fin 200)) None.

(** * Properties *)

(** ** One query *)

Lemma step_inv (T : Type) (faults : nat -> bool) (now : Z) (c : via) (q : sql T)
    (w w1 : world) (res : option T) :
  step faults now c q w = (res, w1) ->
  (res = None /\ w1 = note (Issued c (kind_of q) false) (tick w)) \/
  (exists v sq d,
      res = Some v /\ faults (issued w) = false /\
      exec q now (serials w) (view c w) = Some (v, sq, d) /\
      w1 = control c (kind_of q)
             (store c d sq (note (Issued c (kind_of q) true) (tick w)))).
Proof.
  unfold step. intros H.
  destruct (faults (issued w)) eqn:Hf.
  - left. inversion H. auto.
  - destruct (exec q now (serials w) (view c w)) as [[[v sq] d]|] eqn:He.
    + right. exists v, sq, d. inversion H. auto.
    + left. inversion H. auto.
Qed.


Lemma control_data (c : via) (k : kind) (w : world) :
  is_data k = true -> control c k w = w.
Proof. destruct c, k; simpl; intros; congruence. Qed.

(** A statement inside the open transaction works on the working copy. *)
Lemma step_in_tx (T : Type) (faults : nat -> bool) (now : Z) (q : sql T)
    (w w1 : world) (d0 : db) (v : T) :
  tx w = Some d0 ->
  is_data (kind_of q) = true ->
  step faults now Client q w = (Some v, w1) ->
  exists sq d,
    exec q now (serials w) d0 = Some (v, sq, d) /\
    tx w1 = Some d /\ serials w1 = sq /\
    committed w1 = committed w /\ in_use w1 = in_use w /\
    log w1 = log w ++ [Issued Client (kind_of q) true].
Proof.
  intros Htx Hk H. apply step_inv in H.
  destruct H as [[H _]|(v' & sq & d & Hv & _ & He & ->)]; [discriminate|].
  inversion Hv; subst v'. rewrite (control_data _ _ _ Hk).
  unfold view in He. simpl in He. rewrite Htx in He.
  exists sq, d. unfold store. simpl. rewrite Htx. simpl. repeat split; auto.
Qed.

(** A statement through the pool works on the committed state. *)
Lemma step_pool (T : Type) (faults : nat -> bool) (now : Z) (q : sql T)
    (w w1 : world) (v : T) :
  is_data (kind_of q) = true ->
  step faults now Pool q w = (Some v, w1) ->
  exists sq d,
    exec q now (serials w) (committed w) = Some (v, sq, d) /\
    committed w1 = d /\ serials w1 = sq /\ tx w1 = tx w /\ in_use w1 = in_use w.
Proof.
  intros Hk H. apply step_inv in H.
  destruct H as [[H _]|(v' & sq & d & Hv & _ & He & ->)]; [discriminate|].
  inversion Hv; subst v'. rewrite (control_data _ _ _ Hk).
  exists sq, d. simpl. repeat split; auto.
Qed.

(** A query that rejects changes neither the committed state nor the
    transaction. *)
Lemma step_rejects (T : Type) (faults : nat -> bool) (now : Z) (c : via) (q : sql T)
    (w w1 : world) :
  step faults now c q w = (None, w1) ->
  committed w1 = committed w /\ tx w1 = tx w /\ in_use w1 = in_use w /\
  serials w1 = serials w.
Proof.
  intros H. apply step_inv in H.
  destruct H as [[_ ->]|(v' & sq & d & Hv & _)]; [|discriminate].
  simpl. repeat split; auto.
Qed.

(** ** Bodies inside a transaction *)

(** What a transaction-closing body does when it is started with a
    transaction open on working copy [d]: a response is the response of
    the fault-free course of the body; nothing reaches the committed
    state unless COMMIT went through, and then it is the result of that
    course; every other response comes right after a ROLLBACK. *)
Lemma closes_tx_run (faults : nat -> bool) (now : Z) (p : prog) :
  closes_tx p ->
  forall (w w' : world) (d : db) (o : outcome),
    tx w = Some d ->
    run faults now p w = (o, w') ->
    in_use w' = in_use w /\
    match o with
    | Responded r =>
        tx w' = None /\
        exists l df,
          course now p (serials w) d = Some (r, df) /\
          if succeeded r
          then committed w' = df /\
               log w' = log w ++ l ++ [Issued Client KCommit true; Sent r]
          else committed w' = committed w /\
               log w' = log w ++ l ++ [Issued Client KRollback true; Sent r]
    | Thrown => committed w' = committed w /\ tx w' <> None
    end.
Proof.
  induction 1 as [|r Hr|r Hr|T q k Hk Hbody IH]; intros w w' d o Htx Hrun; simpl in Hrun.
  - inversion Hrun; subst. rewrite Htx. repeat split; congruence.
  - destruct (step faults now Client ROLLBACK w) as [[[]|] w1] eqn:Hs.
    + apply step_inv in Hs.
      destruct Hs as [[Hs _]|(v & sq & d1 & _ & _ & He & ->)]; [discriminate|].
      inversion Hrun; subst o w'; clear Hrun.
      unfold store; simpl; rewrite Htx; simpl.
      repeat split. exists [], d. split; [reflexivity|].
      rewrite Hr. simpl. rewrite <- app_assoc. auto.
    + apply step_rejects in Hs. destruct Hs as (Hc & Ht & Hu & _).
      inversion Hrun; subst o w'. rewrite Ht, Htx. repeat split; congruence.
  - destruct (step faults now Client COMMIT w) as [[[]|] w1] eqn:Hs.
    + apply step_inv in Hs.
      destruct Hs as [[Hs _]|(v & sq & d1 & _ & _ & He & ->)]; [discriminate|].
      inversion Hrun; subst o w'; clear Hrun.
      unfold view in He; simpl in He; rewrite Htx in He. inversion He; subst sq d1.
      unfold store; simpl; rewrite Htx; simpl.
      repeat split. exists [], d. split; [reflexivity|].
      rewrite Hr. simpl. rewrite <- app_assoc. auto.
    + apply step_rejects in Hs. destruct Hs as (Hc & Ht & Hu & _).
      inversion Hrun; subst o w'. rewrite Ht, Htx. repeat split; congruence.
  - destruct (step faults now Client q w) as [[v|] w1] eqn:Hs.
    + destruct (step_in_tx _ _ _ _ _ _ _ _ Htx Hk Hs)
        as (sq & d1 & He & Ht1 & Hsq & Hc1 & Hu1 & Hl1).
      destruct (IH v w1 w' d1 o Ht1 Hrun) as [Hu Ho].
      split; [congruence|].
      destruct o as [r|].
      * destruct Ho as [Ht (l & df & Hco & Ho)]. split; [exact Ht|].
        exists (Issued Client (kind_of q) true :: l), df.
        cbn [course]. rewrite He. rewrite Hsq in Hco. split; [exact Hco|].
        rewrite Hl1 in Ho.
        destruct (succeeded r); rewrite <- app_assoc in Ho; simpl in Ho;
          [exact Ho | rewrite <- Hc1; exact Ho].
      * destruct Ho as [Hc Ht]. split; congruence.
    + apply step_rejects in Hs. destruct Hs as (Hc & Ht & Hu & _).
      inversion Hrun; subst o w'. rewrite Ht, Htx. repeat split; congruence.
Qed.

Lemma step_log (T : Type) (faults : nat -> bool) (now : Z) (c : via) (q : sql T)
    (w w1 : world) (res : option T) :
  step faults now c q w = (res, w1) ->
  exists ok, log w1 = log w ++ [Issued c (kind_of q) ok].
Proof.
  intros H. apply step_inv in H.
  destruct H as [[_ ->]|(v & sq & d & _ & _ & _ & ->)].
  - exists false. reflexivity.
  - exists true. unfold control, store.
    destruct c, (kind_of q); simpl; destruct (tx w); reflexivity.
Qed.

(** The log only grows. *)
Lemma run_log (faults : nat -> bool) (now : Z) (p : prog) :
  forall (w w' : world) (o : outcome),
    run faults now p w = (o, w') -> exists l, log w' = log w ++ l.
Proof.
  induction p as [r| |T c q k IH]; intros w w' o H; simpl in H.
  - inversion H; subst. exists [Sent r]. reflexivity.
  - inversion H; subst. exists []. rewrite app_nil_r. reflexivity.
  - destruct (step faults now c q w) as [[v|] w1] eqn:Hs;
      destruct (step_log _ _ _ _ _ _ _ _ Hs) as [ok Hl].
    + destruct (IH v _ _ _ H) as [l Hl']. exists (Issued c (kind_of q) ok :: l).
      rewrite Hl', Hl, <- app_assoc. reflexivity.
    + inversion H; subst. eauto.
Qed.

(** The [catch] block of the transactional routes. *)
Lemma catch_rollback (faults : nat -> bool) (now : Z) (w w' : world) (o : outcome) :
  run faults now (rollback_reply 500 ServerError) w = (o, w') ->
  in_use w' = in_use w /\ committed w' = committed w /\
  match o with
  | Responded r =>
      tx w' = None /\ succeeded r = false /\
      log w' = log w ++ [Issued Client KRollback true; Sent r]
  | Thrown => True
  end.
Proof.
  intros H. simpl in H.
  destruct (step faults now Client ROLLBACK w) as [[[]|] w1] eqn:Hs.
  - apply step_inv in Hs.
    destruct Hs as [[Hs _]|(v & sq & d1 & _ & _ & He & ->)]; [discriminate|].
    inversion H; subst o w'; clear H.
    unfold view in He; simpl in He. unfold store; simpl.
    destruct (tx w); inversion He; subst; simpl; rewrite <- app_assoc;
      repeat split; reflexivity.
  - apply step_rejects in Hs. destruct Hs as (Hc1 & Ht1 & Hu1 & _).
    inversion H; subst o w'. repeat split; assumption.
Qed.
(** The same for a whole route of the shape
    [connect; try { BEGIN; body } catch { ROLLBACK; 500 } finally { release }]:
    a response is either that of the fault-free course of the body or the
    500 of the [catch] block. *)
Lemma tx_route (faults : nat -> bool) (now : Z) (k : unit -> prog)
    (w w' : world) (o : outcome) :
  closes_tx (k tt) ->
  tx w = None ->
  with_client
    (try_catch faults now (Query Client BEGIN k) (rollback_reply 500 ServerError)) w
  = (o, w') ->
  in_use w' = in_use w /\
  match o with
  | Responded r =>
      tx w' = None /\
      (r = reply 500 ServerError \/
       exists df, course now (k tt) (serials w) (committed w) = Some (r, df) /\
                  (succeeded r = true -> committed w' = df)) /\
      exists l,
        if succeeded r
        then log w' = log w ++ Connect :: l ++
                        [Issued Client KCommit true; Sent r; Release]
        else committed w' = committed w /\
             log w' = log w ++ Connect :: l ++
                        [Issued Client KRollback true; Sent r; Release]
  | Thrown => committed w' = committed w
  end.
Proof.
  intros Hk Htx H. unfold with_client in H.
  set (w1 := note Connect _) in H.
  destruct (try_catch faults now (Query Client BEGIN k)
              (rollback_reply 500 ServerError) w1) as [o2 w2] eqn:Ht.
  inversion H; subst o2 w'; clear H. simpl.
  unfold try_catch in Ht.
  destruct (run faults now (Query Client BEGIN k) w1) as [ob wc] eqn:Hr.
  destruct (run_log _ _ _ _ _ _ Hr) as [l0 Hl0].
  assert (Hl1 : log w1 = log w ++ [Connect]) by reflexivity.
  assert (Hcatch : forall r, run faults now (rollback_reply 500 ServerError) wc
                             = (Responded r, w2) -> r = reply 500 ServerError).
  { intros r Hc. simpl in Hc.
    destruct (step faults now Client ROLLBACK wc) as [[[]|] wd]; inversion Hc; reflexivity. }
  simpl in Hr.
  destruct (step faults now Client BEGIN w1) as [[[]|] wb] eqn:Hs.
  - apply step_inv in Hs.
    destruct Hs as [[Hs _]|(v & sq & d1 & _ & _ & He & Hwb)]; [discriminate|].
    unfold view in He; simpl in He; rewrite Htx in He. inversion He; subst sq d1; clear He.
    unfold store, control in Hwb; simpl in Hwb; rewrite Htx in Hwb; simpl in Hwb.
    assert (Htb : tx wb = Some (committed w)) by (subst wb; reflexivity).
    destruct (closes_tx_run faults now _ Hk _ _ _ _ Htb Hr) as [Hu Ho].
    assert (Hlb : log wb = log w ++ [Connect; Issued Client KBegin true]).
    { subst wb. simpl. rewrite <- app_assoc. reflexivity. }
    assert (Hsb : serials wb = serials w) by (subst wb; reflexivity).
    assert (Hcb : committed wb = committed w) by (subst wb; reflexivity).
    assert (Hub : in_use wb = S (in_use w)) by (subst wb; reflexivity).
    destruct ob as [r|].
    + inversion Ht; subst o w2; clear Ht.
      split; [rewrite Hu, Hub; reflexivity|].
      destruct Ho as [Ht2 (l & df & Hco & Ho)]. split; [exact Ht2|].
      rewrite Hsb in Hco. rewrite Hlb in Ho.
      split.
      * right. exists df. split; [exact Hco|].
        intros Hsu. rewrite Hsu in Ho. exact (proj1 Ho).
      * exists (Issued Client KBegin true :: l).
        destruct (succeeded r); destruct Ho as [Hc Hlo].
        -- rewrite Hlo. repeat (rewrite <- app_assoc; simpl). reflexivity.
        -- split; [congruence|].
           rewrite Hlo. repeat (rewrite <- app_assoc; simpl). reflexivity.
    + destruct Ho as [Hco _].
      destruct (catch_rollback _ _ _ _ _ Ht) as (Hu2 & Hc2 & Ho2).
      split; [rewrite Hu2, Hu, Hub; reflexivity|].
      destruct o as [r|]; [|congruence].
      destruct Ho2 as (Ht2 & Hs2 & Hl2). split; [exact Ht2|].
      split; [left; exact (Hcatch r Ht)|].
      rewrite Hs2. exists l0. split; [congruence|].
      rewrite Hl2, Hl0, Hl1. repeat (rewrite <- app_assoc; simpl). reflexivity.
  - inversion Hr; subst ob wc; clear Hr.
    apply step_rejects in Hs. destruct Hs as (Hc1 & Ht1 & Hu1 & _).
    destruct (catch_rollback _ _ _ _ _ Ht) as (Hu2 & Hc2 & Ho2).
    split; [rewrite Hu2, Hu1; reflexivity|].
    destruct o as [r|]; [|rewrite Hc2, Hc1; reflexivity].
    destruct Ho2 as (Ht2 & Hs2 & Hl2). split; [exact Ht2|].
    split; [left; exact (Hcatch r Ht)|].
    rewrite Hs2. exists l0. split; [rewrite Hc2, Hc1; reflexivity|].
    rewrite Hl2, Hl0, Hl1. repeat (rewrite <- app_assoc; simpl). reflexivity.
Qed.

(** ** Bodies without a transaction *)

(** A body that goes through the pool commits statement by statement:
    whenever it responds, the committed state is the course of the body
    so far, whatever the response says. *)
Lemma autocommits_run (faults : nat -> bool) (now : Z) (p : prog) :
  autocommits p ->
  forall (w w' : world) (r : response),
    run faults now p w = (Responded r, w') ->
    course now p (serials w) (committed w) = Some (r, committed w') /\
    tx w' = tx w.
Proof.
  induction 1 as [r0| |T q k Hk Hbody IH]; intros w w' r Hrun; simpl in Hrun.
  - inversion Hrun; subst. simpl. split; reflexivity.
  - discriminate.
  - destruct (step faults now Pool q w) as [[v|] w1] eqn:Hs; [|discriminate].
    destruct (step_pool _ _ _ _ _ _ _ Hk Hs) as (sq & d & He & Hc & Hsq & Ht & _).
    destruct (IH v _ _ _ Hrun) as (Hco & Ht').
    cbn [course]. rewrite He. rewrite Hc, Hsq in Hco.
    split; [exact Hco|congruence].
Qed.

(** ** The transactional routes are well bracketed *)

Lemma closes_check_shifts (shifts : list num) (k : prog) :
  closes_tx k -> closes_tx (check_shifts shifts k).
Proof.
  intros Hk. unfold check_shifts. induction shifts as [|s l IH]; simpl.
  - exact Hk.
  - apply ct_data; [reflexivity|]. intros [|u rows].
    + apply ct_rollback. reflexivity.
    + exact IH.
Qed.

Lemma closes_check_conflicts (find : num -> sql (list unit))
    (shifts : list num) (k : prog) :
  (forall s, is_data (kind_of (find s)) = true) ->
  closes_tx k ->
  closes_tx (check_conflicts Client find (rollback_reply 400) shifts k).
Proof.
  intros Hf Hk. unfold check_conflicts. induction shifts as [|s l IH]; simpl.
  - exact Hk.
  - apply ct_data; [apply Hf|]. intros [|u rows].
    + exact IH.
    + apply ct_rollback. reflexivity.
Qed.

Lemma closes_insert_assignments (seat student : num) (shifts : list num)
    (k : option num -> prog) :
  (forall f, closes_tx (k f)) ->
  forall first, closes_tx (insert_assignments Client seat student shifts first k).
Proof.
  intros Hk. induction shifts as [|s l IH]; intros first; simpl.
  - apply Hk.
  - apply ct_data; [reflexivity|]. intros _. apply IH.
Qed.

Ltac close_tx :=
  repeat first
    [ apply ct_throw
    | apply ct_rollback; reflexivity
    | apply ct_commit; reflexivity
    | apply closes_check_shifts
    | apply closes_check_conflicts; [intros; reflexivity|]
    | apply closes_insert_assignments; intros
    | apply ct_data; [reflexivity|intros]
    | match goal with
      | |- closes_tx (if ?c then _ else _) => destruct c
      | |- closes_tx (match ?x with _ => _ end) => destruct x
      end ].

Lemma post_body_closes (now : Z) (b : body) :
  exists k, post_body now b = Query Client BEGIN k /\ closes_tx (k tt).
Proof.
  eexists. split; [reflexivity|]. cbv beta zeta. unfold rollback_reply. close_tx.
Qed.

Lemma put_body_closes (now : Z) (id_param : jsval) (b : body) :
  exists k, put_body now id_param b = Query Client BEGIN k /\ closes_tx (k tt).
Proof.
  eexists. split; [reflexivity|]. cbv beta zeta. unfold rollback_reply. close_tx.
Qed.

Lemma renew_body_autocommits (id_param : jsval) (b : body) :
  autocommits (renew_body id_param b).
Proof.
  assert (Hc : forall find shifts k,
             (forall s, is_data (kind_of (find s)) = true) -> autocommits k ->
             autocommits (check_conflicts Pool find
                            (fun m => Respond (reply 400 m)) shifts k)).
  { intros find shifts k Hf Hk. unfold check_conflicts.
    induction shifts as [|s l IH]; simpl; [exact Hk|].
    apply ac_query; [apply Hf|]. intros [|u rows]; [exact IH|constructor]. }
  assert (Hi : forall seat student shifts k,
             (forall f, autocommits (k f)) ->
             forall first, autocommits (insert_assignments Pool seat student shifts first k)).
  { intros seat student shifts k Hk. induction shifts as [|s l IH]; intros first; simpl.
    - apply Hk.
    - apply ac_query; [reflexivity|]. intros _. apply IH. }
  unfold renew_body. cbv beta zeta.
  repeat first
    [ apply ac_respond | apply ac_throw
    | apply Hc; [intros; reflexivity|]
    | apply Hi; intros
    | apply ac_query; [reflexivity|intros]
    | match goal with
      | |- autocommits (if ?c then _ else _) => destruct c
      | |- autocommits (match ?x with _ => _ end) => destruct x
      end ].
Qed.

Lemma delete_body_autocommits (id_param : jsval) : autocommits (delete_body id_param).
Proof.
  unfold delete_body. cbv beta zeta.
  repeat first
    [ apply ac_respond
    | apply ac_query; [reflexivity|intros]
    | match goal with
      | |- autocommits (match ?x with _ => _ end) => destruct x
      end ].
Qed.

(** ** The loops, along a fault-free course *)

(** A course that does not end in the shift check found every shift. *)
Lemma course_past_check_shifts (now : Z) (shifts : list num) (k : prog)
    (sq : seqs) (d d' : db) (r : response) :
  course now (check_shifts shifts k) sq d = Some (r, d') ->
  (forall s, r <> reply 400 (ShiftNotFound s)) ->
  course now k sq d = Some (r, d') /\
  Forall (fun s => exists i, s = Fin i /\ In i (schedules d)) shifts.
Proof.
  unfold check_shifts. induction shifts as [|s l IH]; simpl; intros H Hr.
  - split; [exact H|constructor].
  - destruct s as [|i]; simpl in H; [discriminate|].
    destruct (filter (Z.eqb i) (schedules d)) as [|x rows] eqn:Hf; simpl in H.
    + inversion H; subst. exfalso. eapply Hr. reflexivity.
    + destruct (IH H Hr) as [Hk Hall]. split; [exact Hk|].
      constructor; [|exact Hall]. exists i. split; [reflexivity|].
      assert (Hin : In x (filter (Z.eqb i) (schedules d))) by (rewrite Hf; left; reflexivity).
      apply filter_In in Hin. destruct Hin as [Hin Heq].
      apply Z.eqb_eq in Heq. subst x. exact Hin.
Qed.

Lemma course_check_shifts (now : Z) (shifts : list num) (k : prog)
    (sq : seqs) (d d' : db) (r : response) :
  course now (check_shifts shifts k) sq d = Some (r, d') ->
  succeeded r = true ->
  course now k sq d = Some (r, d') /\
  Forall (fun s => exists i, s = Fin i /\ In i (schedules d)) shifts.
Proof.
  intros H Hr. apply course_past_check_shifts; [exact H|].
  intros s ->. discriminate.
Qed.

(** A course that does not end in the conflict check of POST found no
    assignment of the seat in any of the shifts. *)
Lemma course_past_conflicts_any (now : Z) (c : via) (seat : Z)
    (reject : message -> prog) (shifts : list num) (k : prog)
    (sq : seqs) (d d' : db) (r : response) :
  (forall m r0 d0, course now (reject m) sq d = Some (r0, d0) -> r0 <> r) ->
  course now (check_conflicts c (SelectAssignment (Fin seat)) reject shifts k) sq d
  = Some (r, d') ->
  course now k sq d = Some (r, d') /\
  Forall (fun s => exists j, s = Fin j /\
                   filter (at_seat_shift seat j) (seat_assignments d) = []) shifts.
Proof.
  intros Hrej. unfold check_conflicts. induction shifts as [|s l IH]; simpl; intros H.
  - split; [exact H|constructor].
  - destruct s as [|j]; simpl in H; [discriminate|].
    destruct (filter (at_seat_shift seat j) (seat_assignments d)) as [|x rows] eqn:Hf;
      simpl in H.
    + destruct (IH H) as [Hk Hall]. split; [exact Hk|].
      constructor; [|exact Hall]. exists j. auto.
    + apply Hrej in H. congruence.
Qed.

(** A course that does not end in the conflict check of PUT and renew
    found no assignment of the seat, in any of the shifts, to another
    student. *)
Lemma course_past_conflicts_other (now : Z) (c : via) (seat id : Z)
    (reject : message -> prog) (shifts : list num) (k : prog)
    (sq : seqs) (d d' : db) (r : response) :
  (forall m r0 d0, course now (reject m) sq d = Some (r0, d0) -> r0 <> r) ->
  course now
    (check_conflicts c (fun shiftId => SelectAssignmentOther (Fin seat) shiftId (Fin id))
       reject shifts k) sq d
  = Some (r, d') ->
  course now k sq d = Some (r, d') /\
  Forall (fun s => exists j, s = Fin j /\
                   filter (fun a => at_seat_shift seat j a && negb (of_student id a))
                     (seat_assignments d) = []) shifts.
Proof.
  intros Hrej. unfold check_conflicts. induction shifts as [|s l IH]; simpl; intros H.
  - split; [exact H|constructor].
  - destruct s as [|j]; simpl in H; [discriminate|].
    destruct (filter (fun a => at_seat_shift seat j a && negb (of_student id a))
                (seat_assignments d)) as [|x rows] eqn:Hf; simpl in H.
    + destruct (IH H) as [Hk Hall]. split; [exact Hk|].
      constructor; [|exact Hall]. exists j. auto.
    + apply Hrej in H. congruence.
Qed.

Lemma course_check_conflicts_any (now : Z) (c : via) (seat : Z)
    (reject : message -> prog) (shifts : list num) (k : prog)
    (sq : seqs) (d d' : db) (r : response) :
  (forall m r0 d0, course now (reject m) sq d = Some (r0, d0) -> succeeded r0 = false) ->
  course now (check_conflicts c (SelectAssignment (Fin seat)) reject shifts k) sq d
  = Some (r, d') ->
  succeeded r = true ->
  course now k sq d = Some (r, d') /\
  Forall (fun s => exists j, s = Fin j /\
                   filter (at_seat_shift seat j) (seat_assignments d) = []) shifts.
Proof.
  intros Hrej H Hr. eapply course_past_conflicts_any; [|exact H].
  intros m r0 d0 Hm ->. apply Hrej in Hm. congruence.
Qed.

Lemma course_check_conflicts_other (now : Z) (c : via) (seat id : Z)
    (reject : message -> prog) (shifts : list num) (k : prog)
    (sq : seqs) (d d' : db) (r : response) :
  (forall m r0 d0, course now (reject m) sq d = Some (r0, d0) -> succeeded r0 = false) ->
  course now
    (check_conflicts c (fun shiftId => SelectAssignmentOther (Fin seat) shiftId (Fin id))
       reject shifts k) sq d
  = Some (r, d') ->
  succeeded r = true ->
  course now k sq d = Some (r, d') /\
  Forall (fun s => exists j, s = Fin j /\
                   filter (fun a => at_seat_shift seat j a && negb (of_student id a))
                     (seat_assignments d) = []) shifts.
Proof.
  intros Hrej H Hr. eapply course_past_conflicts_other; [|exact H].
  intros m r0 d0 Hm ->. apply Hrej in Hm. congruence.
Qed.

Lemma course_insert_assignments (now : Z) (c : via) (seat student : Z)
    (shifts : list num) (k : option num -> prog) :
  forall (first : option num) (sq : seqs) (d d' : db) (r : response),
    course now (insert_assignments c (Fin seat) (Fin student) shifts first k) sq d
    = Some (r, d') ->
    exists first' sq1 d1 rows,
      course now (k first') sq1 d1 = Some (r, d') /\
      same_but_assignments d d1 /\
      seat_assignments d1 = seat_assignments d ++ rows /\
      assigned_rows seat student rows shifts /\
      next_history_id sq1 = next_history_id sq /\
      next_student_id sq1 = next_student_id sq.
Proof.
  induction shifts as [|s l IH]; intros first sq d d' r H; simpl in H.
  - exists first, sq, d, []. rewrite app_nil_r.
    repeat split; auto. constructor.
  - destruct s as [|j]; simpl in H; [discriminate|].
    apply IH in H.
    destruct H as (first' & sq1 & d1 & rows & Hk & Hsame & Hsa & Hrows & Hh & Hs).
    exists first', sq1, d1, (mkAssignment (next_assignment_id sq) seat j student :: rows).
    simpl in *. rewrite Hsa, <- app_assoc. simpl.
    repeat split; try (destruct Hsame as (? & ? & ? & ?); assumption); auto.
    constructor; [simpl; auto|exact Hrows].
Qed.

(** ** Small facts about the statements *)

Lemma filter_map_if {A : Type} (p : A -> bool) (f : A -> A) (l : list A) :
  (forall x, p (f x) = p x) ->
  filter p (map_if p f l) = map f (filter p l).
Proof.
  intros Hp. unfold map_if. induction l as [|x l IH]; simpl; [reflexivity|].
  destruct (p x) eqn:Hx.
  - rewrite Hp, Hx. simpl. rewrite IH. reflexivity.
  - rewrite Hx. exact IH.
Qed.

Lemma succeeded_200 (r : response) : code r = 200 -> succeeded r = true.
Proof. unfold succeeded. intros ->. reflexivity. Qed.

Lemma succeeded_201 (r : response) : code r = 201 -> succeeded r = true.
Proof. unfold succeeded. intros ->. reflexivity. Qed.

Lemma seat_and_shifts_Some (seat : option num) (shifts : list num) (s : num) :
  seat_and_shifts seat shifts = Some s ->
  exists z, s = Fin z /\ z <> 0 /\ seat = Some (Fin z) /\ shifts <> [].
Proof.
  unfold seat_and_shifts. destruct seat as [[|z]|]; try discriminate.
  destruct shifts; try discriminate.
  destruct (Z.eqb_spec z 0); try discriminate.
  intros H. inversion H; subst. exists z. repeat split; auto. discriminate.
Qed.

Lemma exec_InsertHistory (now : Z) (student : Z) (v : history_values)
    (sq sq' : seqs) (d d' : db) (u : unit) :
  exec (InsertHistory student v) now sq d = Some (u, sq', d') ->
  students d' = students d /\ seat_assignments d' = seat_assignments d /\
  exists row, student_membership_history d' = student_membership_history d ++ [row] /\
              h_student_id row = student.
Proof.
  cbn [exec]. 
  destruct (pg_int_null (hv_seat_id v)); [|discriminate].
  destruct (pg_int_null (hv_shift_id v)); [|discriminate].
  destruct (pg_int_null (hv_branch_id v)); [|discriminate].
  cbn [bind_opt]. intros H; inversion H; subst. simpl.
  repeat split. eexists. split; reflexivity.
Qed.

Lemma renew_course (now : Z) (id_param : jsval) (b : body)
    (sq : seqs) (d d' : db) (r : response) :
  course now (renew_body id_param b) sq d = Some (r, d') ->
  succeeded r = true ->
  exists i old rest bid,
    parseInt id_param = Fin i /\
    filter (has_id i) (students d) = old :: rest /\
    let feeValue :=
      parseFloat (jor (jor (total_fee b) (col (s_total_fee old))) (JNum (Fin 0))) in
    let cashValue := parseFloat (jor (cash b) (JNum (Fin 0))) in
    let onlineValue := parseFloat (jor (online b) (JNum (Fin 0))) in
    let securityMoneyValue :=
      parseFloat (jor (jor (security_money b) (col (s_security_money old)))
                    (JNum (Fin 0))) in
    let v := mkRenew (membership_start b) (membership_end b) (email b) (phone b)
               (if truthy (branch_id b) then Some (parseInt (branch_id b)) else None)
               feeValue (num_add cashValue onlineValue)
               (num_sub feeValue (num_add cashValue onlineValue))
               cashValue onlineValue securityMoneyValue (or_null (remark b)) in
    students d' = map_if (has_id i) (renewed_student bid v) (students d) /\
    r = mkResponse 200 (StudentRow (renewed_student bid v old)) /\
    forall z, seat_and_shifts (seatIdNum b) (shiftIdsNum b) = Some (Fin z) ->
      Forall (fun s => exists j, s = Fin j /\
                filter (fun a => at_seat_shift z j a && negb (of_student i a))
                  (seat_assignments d) = []) (shiftIdsNum b).
Proof.
  unfold renew_body. cbv zeta. intros H Hr.
  destruct (negb (truthy_date (membership_start b)) || negb (truthy_date (membership_end b))).
  { inversion H; subst. discriminate. }
  cbn [course] in H.
  destruct (parseInt id_param) as [|i] eqn:Hid; [discriminate|].
  unfold exec at 1 in H. cbn [pg_int bind_opt] in H.
  destruct (filter (has_id i) (students d)) as [|old rest] eqn:Hold.
  { inversion H; subst. discriminate. }
  exists i, old, rest.
  repeat match type of H with
  | course _ (if ?c then Respond _ else _) _ _ = _ =>
      destruct c; [inversion H; subst; discriminate|]
  end.
  match type of H with context [RenewStudent ?v _] => set (vv := v) in * end.
  match type of H with context [Query Pool (RenewStudent vv (Fin i)) ?k] =>
    remember k as K eqn:HeqK
  end.
  assert (HK : forall rows sq0 d0,
             course now (K rows) sq0 d0 = Some (r, d') ->
             exists updated more, rows = updated :: more /\
               students d' = students d0 /\ r = mkResponse 200 (StudentRow updated)).
  { subst K. intros rows sq0 d0 Hk. cbv beta in Hk.
    destruct (seat_and_shifts (seatIdNum b) (shiftIdsNum b)) as [seat|] eqn:Hss.
    + destruct (seat_and_shifts_Some _ _ _ Hss) as (z & -> & _).
      cbn [course exec pg_int bind_opt] in Hk.
      apply course_insert_assignments in Hk.
      destruct Hk as (first' & sq1 & d1 & ins & Hk & Hsame & _).
      destruct rows as [|updated more]; [discriminate|].
      exists updated, more. split; [reflexivity|].
      cbn [course] in Hk.
      destruct (exec (InsertHistory (s_id updated) _) now sq1 d1) as [[[u sq2] d2]|] eqn:He;
        [|discriminate].
      inversion Hk; subst r d'. split; [|reflexivity].
      apply exec_InsertHistory in He. destruct He as [Hst _].
      rewrite Hst. destruct Hsame as (Hs1 & _). rewrite Hs1. reflexivity.
    + destruct rows as [|updated more]; [discriminate|].
      exists updated, more. split; [reflexivity|].
      cbn [course] in Hk.
      destruct (exec (InsertHistory (s_id updated) _) now sq0 d0) as [[[u sq2] d2]|] eqn:He;
        [|discriminate].
      inversion Hk; subst r d'. split; [|reflexivity].
      apply exec_InsertHistory in He. destruct He as [Hst _]. exact Hst. }
  clear HeqK.
  assert (Hupd : course now (Query Pool (RenewStudent vv (Fin i)) K) sq d = Some (r, d') /\
                 forall z, seat_and_shifts (seatIdNum b) (shiftIdsNum b) = Some (Fin z) ->
                   Forall (fun s => exists j, s = Fin j /\
                             filter (fun a => at_seat_shift z j a && negb (of_student i a))
                               (seat_assignments d) = []) (shiftIdsNum b)).
  { destruct (seat_and_shifts (seatIdNum b) (shiftIdsNum b)) as [seat|] eqn:Hss.
    + destruct (seat_and_shifts_Some _ _ _ Hss) as (z & -> & _).
      apply course_check_conflicts_other in H;
        [|intros m r0 d0 Hm; inversion Hm; reflexivity|exact Hr].
      split; [exact (proj1 H)|].
      intros z' Hz. inversion Hz; subst z'. exact (proj2 H).
    + split; [exact H|discriminate]. }
  clear H. destruct Hupd as [Hupd Hfree].
  cbn [course] in Hupd.
  destruct (exec (RenewStudent vv (Fin i)) now sq d) as [[[rows sq1] d1]|] eqn:He; [|discriminate].
  cbn [exec pg_int bind_opt] in He.
  destruct (pg_int_null (r_branch_id vv)) as [bid|] eqn:Hb; [|discriminate].
  cbn [bind_opt] in He. inversion He; subst rows sq1 d1; clear He.
  exists bid.
  destruct (HK _ _ _ Hupd) as (updated & more & Hrows & Hst & Hresp).
  rewrite Hold in Hrows. simpl in Hrows. inversion Hrows; subst updated more.
  repeat split; auto.
Qed.

(** A renew that answers with success has run its fault-free course on
    the committed state. *)
Lemma renew_student_course (faults : nat -> bool) (now : Z) (id_param : jsval) (b : body)
    (w w' : world) (r : response) :
  renew_student faults now id_param b w = (Responded r, w') ->
  succeeded r = true ->
  course now (renew_body id_param b) (serials w) (committed w) = Some (r, committed w').
Proof.
  unfold renew_student, try_catch. intros H Hr.
  destruct (run faults now (renew_body id_param b) w) as [[r0|] w2] eqn:Hrun.
  - inversion H; subst r0 w2.
    exact (proj1 (autocommits_run faults now _ (renew_body_autocommits id_param b) _ _ _ Hrun)).
  - simpl in H. inversion H; subst r. discriminate.
Qed.

(** ** The fault-free course of create and update *)

Lemma course_query (now : Z) (T : Type) (c : via) (q : sql T) (k : T -> prog)
    (sq : seqs) (d d' : db) (r : response) :
  course now (Query c q k) sq d = Some (r, d') ->
  exists v sq1 d1,
    exec q now sq d = Some (v, sq1, d1) /\ course now (k v) sq1 d1 = Some (r, d').
Proof.
  cbn [course]. destruct (exec q now sq d) as [[[v sq1] d1]|]; [|discriminate].
  intros H. exists v, sq1, d1. split; [reflexivity|exact H].
Qed.

Lemma exec_UpdateHistory (now : Z) (hid : Z) (v : history_values)
    (sq sq' : seqs) (d d' : db) (u : unit) :
  exec (UpdateHistory v hid) now sq d = Some (u, sq', d') ->
  students d' = students d /\ seat_assignments d' = seat_assignments d /\
  exists seat shift branch,
    student_membership_history d' =
      map_if (fun x => h_id x =? hid)
        (fun x => snapshot_row (h_id x) (h_student_id x) seat shift branch now v)
        (student_membership_history d).
Proof.
  cbn [exec].
  destruct (pg_int_null (hv_seat_id v)) as [seat|]; [|discriminate].
  destruct (pg_int_null (hv_shift_id v)) as [shift|]; [|discriminate].
  destruct (pg_int_null (hv_branch_id v)) as [branch|]; [|discriminate].
  cbn [bind_opt]. intros H; inversion H; subst. simpl.
  repeat split. exists seat, shift, branch. reflexivity.
Qed.

Lemma invalid_false (x : num) :
  invalid x = false -> exists z, x = Fin z /\ 0 <= z.
Proof.
  unfold invalid. destruct x as [|z]; simpl; [discriminate|].
  intros H. exists z. split; [reflexivity|]. apply Z.ltb_ge. exact H.
Qed.

Lemma post_student_course (faults : nat -> bool) (now : Z) (b : body)
    (w w' : world) (r : response) :
  tx w = None ->
  post_student faults now b w = (Responded r, w') ->
  succeeded r = true ->
  course now (post_body now b) (serials w) (committed w) = Some (r, committed w').
Proof.
  intros Htx H Hr. unfold post_student in H.
  destruct (post_body_closes now b) as (k & Heq & Hk).
  rewrite Heq in *. apply tx_route in H; [|exact Hk|exact Htx].
  destruct H as (_ & _ & [->|(df & Hco & Hdf)] & _); [discriminate|].
  cbn [course exec]. rewrite (Hdf Hr). exact Hco.
Qed.

Lemma put_student_course (faults : nat -> bool) (now : Z) (id_param : jsval) (b : body)
    (w w' : world) (r : response) :
  tx w = None ->
  put_student faults now id_param b w = (Responded r, w') ->
  succeeded r = true ->
  course now (put_body now id_param b) (serials w) (committed w)
  = Some (r, committed w').
Proof.
  intros Htx H Hr. unfold put_student in H.
  destruct (put_body_closes now id_param b) as (k & Heq & Hk).
  rewrite Heq in *. apply tx_route in H; [|exact Hk|exact Htx].
  destruct H as (_ & _ & [->|(df & Hco & Hdf)] & _); [discriminate|].
  cbn [course exec]. rewrite (Hdf Hr). exact Hco.
Qed.

Lemma post_course (now : Z) (b : body) (sq : seqs) (d d' : db) (r : response) :
  course now (post_body now b) sq d = Some (r, d') ->
  succeeded r = true ->
  exists bid rows hrow,
    let feeValue := parseFloat (jor (total_fee b) (JNum (Fin 0))) in
    let paidValue := parseFloat (jor (amount_paid b) (JNum (Fin 0))) in
    let cashValue := if is_undefined (cash b) then Fin 0 else parseFloat (cash b) in
    let onlineValue := if is_undefined (online b) then Fin 0 else parseFloat (online b) in
    let securityMoneyValue :=
      if is_undefined (security_money b) then Fin 0 else parseFloat (security_money b) in
    let row :=
      inserted_student (next_student_id sq) bid
        (mkValues (name b) (email b) (phone b) (address b) (Some (parseInt (branch_id b)))
           (membership_start b) (membership_end b)
           feeValue paidValue (num_sub feeValue paidValue)
           cashValue onlineValue securityMoneyValue
           (or_null (remark b)) (or_null (profile_image_url b))
           (status_at_write (membership_end b) now)) in
    invalid feeValue = false /\ invalid paidValue = false /\
    invalid cashValue = false /\ invalid onlineValue = false /\
    invalid securityMoneyValue = false /\
    r = mkResponse 201 (StudentRow row) /\
    students d' = students d ++ [row] /\
    seat_assignments d' = seat_assignments d ++ rows /\
    match seat_and_shifts (seatIdNum b) (shiftIdsNum b) with
    | Some seat =>
        exists z, seat = Fin z /\
          assigned_rows z (next_student_id sq) rows (shiftIdsNum b) /\
          Forall (fun s => exists j, s = Fin j /\
                           filter (at_seat_shift z j) (seat_assignments d) = [])
            (shiftIdsNum b)
    | None => rows = []
    end /\
    student_membership_history d' = student_membership_history d ++ [hrow] /\
    h_student_id hrow = next_student_id sq.
Proof.
  unfold post_body. cbv zeta. intros H Hr.
  cbn [course exec] in H.
  destruct (negb (truthy_text (name b)) || negb (truthy (branch_id b))
            || negb (truthy_date (membership_start b))
            || negb (truthy_date (membership_end b))).
  { cbn in H. inversion H; subst. discriminate. }
  unfold rollback_reply in H.
  repeat match type of H with
  | course _ (if ?c then Query Client ROLLBACK _ else _) _ _ = _ =>
      let E := fresh "Hv" in
      destruct c eqn:E; [cbn in H; inversion H; subst; discriminate|]
  end.
  match type of H with context [Query Client (InsertStudent ?v) ?k] =>
    set (vv := v) in *; remember k as K eqn:HeqK
  end.
  assert (Hins : course now (Query Client (InsertStudent vv) K) sq d = Some (r, d') /\
                 forall z, seat_and_shifts (seatIdNum b) (shiftIdsNum b) = Some (Fin z) ->
                   Forall (fun s => exists j, s = Fin j /\
                             filter (at_seat_shift z j) (seat_assignments d) = [])
                     (shiftIdsNum b)).
  { destruct (seat_and_shifts (seatIdNum b) (shiftIdsNum b)) as [seat|] eqn:Hss;
      [|split; [exact H|discriminate]].
    destruct (seat_and_shifts_Some _ _ _ Hss) as (z & -> & _).
    cbn [course exec pg_int bind_opt] in H.
    destruct (map (fun _ : Z => tt) (filter (Z.eqb z) (seats d))); cbn in H.
    - inversion H; subst. discriminate.
    - apply course_check_shifts in H; [|exact Hr]. destruct H as [H _].
      apply course_check_conflicts_any in H; [| |exact Hr].
      + split; [exact (proj1 H)|]. intros z' Hz. inversion Hz; subst z'. exact (proj2 H).
      + intros m r0 d0 Hm. cbn in Hm. inversion Hm. reflexivity. }
  clear H. destruct Hins as [Hins Hfree]. cbn [course exec] in Hins.
  destruct (pg_int_null (v_branch_id vv)) as [bid|] eqn:Hb; [|discriminate].
  cbn [bind_opt] in Hins. subst K.
  exists bid.
  destruct (seat_and_shifts (seatIdNum b) (shiftIdsNum b)) as [seat|] eqn:Hss.
  - destruct (seat_and_shifts_Some _ _ _ Hss) as (z & -> & _).
    apply course_insert_assignments in Hins.
    destruct Hins as (first' & sq1 & d1 & rows & Hk & Hsame & Hsa & Hrows & Hh & Hs).
    destruct Hsame as (Hst & _ & _ & Hhi).
    cbn [course] in Hk.
    destruct (exec (InsertHistory _ _) now sq1 d1) as [[[u sq2] d2]|] eqn:He;
      [|discriminate].
    apply exec_InsertHistory in He. destruct He as (Hst2 & Hsa2 & hrow & Hhi2 & Hhid).
    cbn [course exec] in Hk. inversion Hk; subst r d'; clear Hk.
    exists rows, hrow. cbv zeta.
    repeat split; try assumption.
    + rewrite Hst2, Hst. reflexivity.
    + rewrite Hsa2, Hsa. reflexivity.
    + exists z. split; [reflexivity|]. split; [exact Hrows|]. apply Hfree. reflexivity.
    + rewrite Hhi2, Hhi. reflexivity.
  - cbn [course] in Hins.
    destruct (exec (InsertHistory _ _) now _ _) as [[[u sq2] d2]|] eqn:He;
      [|discriminate].
    apply exec_InsertHistory in He. destruct He as (Hst2 & Hsa2 & hrow & Hhi2 & Hhid).
    cbn [course exec] in Hins. inversion Hins; subst r d'; clear Hins.
    exists [], hrow. cbv zeta.
    repeat split; try assumption.
    + rewrite Hsa2. simpl. rewrite app_nil_r. reflexivity.
Qed.

Lemma put_course (now : Z) (id_param : jsval) (b : body)
    (sq : seqs) (d d' : db) (r : response) :
  course now (put_body now id_param b) sq d = Some (r, d') ->
  succeeded r = true ->
  exists i cur rest bid rows h hs seat shift branch firstShiftId,
    parseInt id_param = Fin i /\
    filter (has_id i) (students d) = cur :: rest /\
    filter (history_of i) (student_membership_history d) = h :: hs /\
    let keep (field : jsval) (stored : option num) :=
      if supplied field then parseFloat field
      else parseFloat (jor (col stored) (JNum (Fin 0))) in
    let totalFeeValue := keep (total_fee b) (s_total_fee cur) in
    let amountPaidValue := keep (amount_paid b) (s_amount_paid cur) in
    let cashValue := keep (cash b) (s_cash cur) in
    let onlineValue := keep (online b) (s_online cur) in
    let securityMoneyValue := keep (security_money b) (s_security_money cur) in
    let branchIdNum :=
      if truthy (branch_id b) then Some (parseInt (branch_id b)) else None in
    let status := status_at_write (membership_end b) now in
    let v :=
      mkValues (name b) (email b) (phone b) (address b) branchIdNum
        (membership_start b) (membership_end b)
        totalFeeValue amountPaidValue (num_sub totalFeeValue amountPaidValue)
        cashValue onlineValue securityMoneyValue
        (or_null (remark b)) None status in
    let hv :=
      mkSnapshot (name b) (email b) (phone b) (address b)
        (membership_start b) (membership_end b) status
        (Some totalFeeValue) (Some amountPaidValue)
        (Some (num_sub totalFeeValue amountPaidValue))
        (Some cashValue) (Some onlineValue) (Some securityMoneyValue)
        (or_empty (remark b)) (seatIdNum b) firstShiftId branchIdNum in
    invalid totalFeeValue = false /\ invalid amountPaidValue = false /\
    invalid cashValue = false /\ invalid onlineValue = false /\
    invalid securityMoneyValue = false /\
    r = mkResponse 200 (StudentRow (updated_student bid v cur)) /\
    students d' = map_if (has_id i) (updated_student bid v) (students d) /\
    seat_assignments d' =
      filter (fun a => negb (of_student i a)) (seat_assignments d) ++ rows /\
    match seat_and_shifts (seatIdNum b) (shiftIdsNum b) with
    | Some s => exists z, s = Fin z /\ assigned_rows z i rows (shiftIdsNum b)
    | None => rows = []
    end /\
    student_membership_history d' =
      map_if (fun x => h_id x =? h_id (latest_from h hs))
        (fun x => snapshot_row (h_id x) (h_student_id x) seat shift branch now hv)
        (student_membership_history d).
Proof.
  unfold put_body. cbv zeta. intros H Hr.
  cbn [course exec] in H. unfold rollback_reply in H.
  match type of H with
  | course _ (if ?c then Query Client ROLLBACK _ else _) _ _ = _ =>
      destruct c; [cbn in H; inversion H; subst; discriminate|]
  end.
  cbn [course] in H.
  destruct (parseInt id_param) as [|i] eqn:Hid; [discriminate|].
  cbn [exec pg_int bind_opt] in H.
  destruct (filter (has_id i) (students d)) as [|cur rest] eqn:Hcur.
  { cbn in H. inversion H; subst. discriminate. }
  repeat match type of H with
  | course _ (if ?c then Query Client ROLLBACK _ else _) _ _ = _ =>
      let E := fresh "Hv" in
      destruct c eqn:E; [cbn in H; inversion H; subst; discriminate|]
  end.
  match type of H with context [Query Client (UpdateStudent ?v _) ?k] =>
    set (vv := v) in *; remember k as K eqn:HeqK
  end.
  assert (Hupd : course now (Query Client (UpdateStudent vv (Fin i)) K) sq d = Some (r, d')).
  { destruct (seat_and_shifts (seatIdNum b) (shiftIdsNum b)) as [seat|] eqn:Hss;
      [|exact H].
    destruct (seat_and_shifts_Some _ _ _ Hss) as (z & -> & _).
    cbn [course exec pg_int bind_opt] in H.
    destruct (map (fun _ : Z => tt) (filter (Z.eqb z) (seats d))); cbn in H.
    - inversion H; subst. discriminate.
    - apply course_check_shifts in H; [|exact Hr]. destruct H as [H _].
      apply course_check_conflicts_other in H; [exact (proj1 H)| |exact Hr].
      intros m r0 d0 Hm. cbn in Hm. inversion Hm. reflexivity. }
  clear H. cbn [course exec] in Hupd.
  destruct (pg_int_null (v_branch_id vv)) as [bid|] eqn:Hb; [|discriminate].
  cbn [bind_opt pg_int] in Hupd. subst K. rewrite Hcur in Hupd.
  cbn [map] in Hupd.
  exists i, cur, rest, bid.
  match type of Hupd with
  | context [insert_assignments Client _ (Fin i) (shiftIdsNum b) None ?k] =>
      set (KH := k) in *
  end.
  assert (HKH : forall first sq0 d0,
             course now (KH first) sq0 d0 = Some (r, d') ->
             exists h hs seat shift branch,
               filter (history_of i) (student_membership_history d0) = h :: hs /\
               students d' = students d0 /\
               seat_assignments d' = seat_assignments d0 /\
               r = mkResponse 200 (StudentRow (updated_student bid vv cur)) /\
               student_membership_history d' =
                 map_if (fun x => h_id x =? h_id (latest_from h hs))
                   (fun x => snapshot_row (h_id x) (h_student_id x) seat shift branch now
                      (mkSnapshot (name b) (email b) (phone b) (address b)
                         (membership_start b) (membership_end b) (v_status vv)
                         (Some (v_total_fee vv)) (Some (v_amount_paid vv))
                         (Some (v_due_amount vv))
                         (Some (v_cash vv)) (Some (v_online vv))
                         (Some (v_security_money vv))
                         (or_empty (remark b)) (seatIdNum b) first (v_branch_id vv)))
                   (student_membership_history d0)).
  { intros first sq0 d0 Hk. unfold KH in Hk. cbn [course exec pg_int bind_opt] in Hk.
    destruct (filter (history_of i) (student_membership_history d0)) as [|h hs] eqn:Hh.
    - cbn in Hk. inversion Hk; subst. discriminate.
    - cbn [latest map course] in Hk.
      destruct (exec (UpdateHistory _ _) now sq0 d0) as [[[u sq2] d2]|] eqn:He;
        [|discriminate].
      apply exec_UpdateHistory in He.
      destruct He as (Hst & Hsa & seat & shift & branch & Hhi).
      cbn [course exec] in Hk. inversion Hk; subst r d'; clear Hk.
      exists h, hs, seat, shift, branch. repeat split; assumption. }
  destruct (seat_and_shifts (seatIdNum b) (shiftIdsNum b)) as [seat0|] eqn:Hss.
  - destruct (seat_and_shifts_Some _ _ _ Hss) as (z & -> & _).
    cbn [course exec pg_int bind_opt] in Hupd.
    apply course_insert_assignments in Hupd.
    destruct Hupd as (first' & sq1 & d1 & rows & Hk & Hsame & Hsa & Hrows & _).
    destruct Hsame as (Hst & _ & _ & Hhi).
    destruct (HKH _ _ _ Hk) as (h & hs & seat & shift & branch & Hh & Hst2 & Hsa2 & Hresp & Hhi2).
    exists rows, h, hs, seat, shift, branch, first'. cbv beta zeta.
    rewrite Hhi in Hh, Hhi2. simpl in Hh, Hhi2.
    repeat split; try assumption.
    + rewrite Hst2, Hst. reflexivity.
    + rewrite Hsa2, Hsa. reflexivity.
    + exists z. split; [reflexivity|exact Hrows].
  - apply course_query in Hupd. destruct Hupd as (u & sq1 & d1 & He & Hk).
    cbn [exec pg_int bind_opt] in He. inversion He; subst u sq1 d1; clear He.
    destruct (HKH None _ _ Hk) as (h & hs & seat & shift & branch & Hh & Hst2 & Hsa2 & Hresp & Hhi2).
    exists [], h, hs, seat, shift, branch, None. cbv beta zeta.
    simpl in Hh, Hhi2, Hst2, Hsa2.
    repeat split; try assumption.
    rewrite app_nil_r. exact Hsa2.
Qed.


(** ** Renew *)

(** C3.  Every successful renew stores status 'active' for the student,
    whatever [membership_end] the request carries and whatever the
    current time is: the stored end date is the requested one and the
    status does not depend on it. *)
Theorem renew_sets_status_active (faults : nat -> bool) (now : Z) (id_param : jsval)
    (b : body) (w w' : world) (r : response) :
  renew_student faults now id_param b w = (Responded r, w') ->
  code r = 200 ->
  exists i s,
    parseInt id_param = Fin i /\
    content r = StudentRow s /\
    student_by_id i (committed w') = Some s /\
    s_membership_end s = membership_end b /\
    s_status s = active /\
    Forall (fun s' => s_status s' = active)
      (filter (has_id i) (students (committed w'))).
Proof.
  intros H Hc.
  pose proof (renew_student_course _ _ _ _ _ _ _ H (succeeded_200 _ Hc)) as Hco.
  destruct (renew_course _ _ _ _ _ _ _ Hco (succeeded_200 _ Hc))
    as (i & old & rest & bid & Hid & Hold & Hst & Hr & _).
  cbv zeta in Hst, Hr.
  exists i. eexists. split; [exact Hid|]. split; [rewrite Hr; reflexivity|].
  unfold student_by_id. rewrite Hst. simpl students.
  rewrite filter_map_if by reflexivity. rewrite Hold. simpl.
  repeat split.
  constructor; [reflexivity|].
  apply Forall_forall. intros s' Hin. apply in_map_iff in Hin.
  destruct Hin as (x & <- & _). reflexivity.
Qed.


Lemma renew_sets_status_active_witness :
  exists r w',
    renew_student no_faults sample_now (JText (Fin 1)) renew_past sample_world
    = (Responded r, w') /\
    code r = 200 /\
    status_at_write (membership_end renew_past) sample_now = expired /\
    exists i s,
      parseInt (JText (Fin 1)) = Fin i /\
      content r = StudentRow s /\
      student_by_id i (committed w') = Some s /\
      s_membership_end s = membership_end renew_past /\
      s_status s = active /\
      Forall (fun s' => s_status s' = active)
        (filter (has_id i) (students (committed w'))).
Proof.
  eexists. eexists.
  split; [cbv; reflexivity|].
  split; [reflexivity|].
  split; [reflexivity|].
  eapply (renew_sets_status_active no_faults sample_now (JText (Fin 1)) renew_past
            sample_world).
  - cbv. reflexivity.
  - reflexivity.
Defined.

(** C9.  In renew a falsy [total_fee] (the number 0, the empty string,
    null, undefined) does not reach the row: for a student whose stored
    fee is positive the stored fee is written back, not zero; the same
    for [security_money]. *)
Theorem renew_falsy_amount_falls_back (faults : nat -> bool) (now : Z) (id_param : jsval)
    (b : body) (w w' : world) (r : response) (i : Z) (old : student) :
  renew_student faults now id_param b w = (Responded r, w') ->
  code r = 200 ->
  parseInt id_param = Fin i ->
  student_by_id i (committed w) = Some old ->
  exists s,
    student_by_id i (committed w') = Some s /\
    (forall v, truthy (total_fee b) = false -> s_total_fee old = Some (Fin v) -> 0 < v ->
               s_total_fee s = Some (Fin v) /\ s_total_fee s <> Some (Fin 0)) /\
    (forall v, truthy (security_money b) = false ->
               s_security_money old = Some (Fin v) -> 0 < v ->
               s_security_money s = Some (Fin v) /\ s_security_money s <> Some (Fin 0)).
Proof.
  intros H Hc Hi Hby.
  pose proof (renew_student_course _ _ _ _ _ _ _ H (succeeded_200 _ Hc)) as Hco.
  destruct (renew_course _ _ _ _ _ _ _ Hco (succeeded_200 _ Hc))
    as (i' & old' & rest & bid & Hid & Hold & Hst & Hr & _).
  cbv zeta in Hst, Hr.
  rewrite Hi in Hid. inversion Hid; subst i'.
  unfold student_by_id in Hby. rewrite Hold in Hby. simpl in Hby.
  inversion Hby; subst old'.
  eexists. split.
  - unfold student_by_id. rewrite Hst. simpl students.
    rewrite filter_map_if by reflexivity. rewrite Hold. reflexivity.
  - split; intros v Hf Hv Hpos; simpl; rewrite Hv; unfold jor; rewrite Hf; simpl;
      (split; [reflexivity|intros E; inversion E; lia]).
Qed.

Lemma renew_falsy_amount_falls_back_witness :
  exists r w',
    renew_student no_faults sample_now (JText (Fin 1)) renew_past sample_world
    = (Responded r, w') /\
    total_fee renew_past = JNum (Fin 0) /\
    security_money renew_past = JNum (Fin 0) /\
    exists s,
      student_by_id 1 (committed w') = Some s /\
      s_total_fee s = Some (Fin 1500) /\ s_security_money s = Some (Fin 200).
Proof.
  eexists. eexists.
  split; [cbv; reflexivity|].
  split; [reflexivity|].
  split; [reflexivity|].
  destruct (renew_falsy_amount_falls_back no_faults sample_now (JText (Fin 1)) renew_past
              sample_world _ _ 1 asha eq_refl eq_refl eq_refl eq_refl)
    as (s & Hs & Hfee & Hsec).
  exists s.
  split; [exact Hs|].
  split.
  - apply (Hfee 1500); [reflexivity|reflexivity|lia].
  - apply (Hsec 200); [reflexivity|reflexivity|lia].
Defined.

(** ** Create *)

Lemma in_map_if_first {A : Type} (p : A -> bool) (f : A -> A) (l rest : list A) (x : A) :
  filter p l = x :: rest -> In (f x) (map_if p f l).
Proof.
  intros H.
  assert (Hin : In x (filter p l)) by (rewrite H; left; reflexivity).
  apply filter_In in Hin. destruct Hin as [Hin Hp].
  unfold map_if. apply in_map_iff. exists x. rewrite Hp. auto.
Qed.



(** The overpaid request above is stored with a negative due amount. *)
Example create_overpaid_due_is_negative :
  map s_due_amount
    (students (committed (snd (post_student no_faults sample_now bela sample_world))))
  = [Some (Fin 500); Some (Fin (-200))].
Proof. vm_compute. reflexivity. Qed.









(** The response of that request names shift 1, the one Asha holds. *)
Example create_on_taken_seat_names_the_shift :
  fst (post_student no_faults sample_now bela_on_asha_seat sample_world)
  = Responded (reply 400 (SeatTaken (Fin 1))).
Proof. vm_compute. reflexivity. Qed.

(** ** Update *)




Lemma filter_none {A : Type} (p : A -> bool) (l : list A) :
  filter p (filter (fun x => negb (p x)) l) = [].
Proof.
  induction l as [|x l IH]; simpl; [reflexivity|].
  destruct (p x) eqn:Hx; simpl; [exact IH|]. rewrite Hx. exact IH.
Qed.

Lemma filter_twice {A : Type} (p : A -> bool) (l : list A) :
  filter p (filter p l) = filter p l.
Proof.
  induction l as [|x l IH]; simpl; [reflexivity|].
  destruct (p x) eqn:Hx; simpl; [rewrite Hx, IH; reflexivity|exact IH].
Qed.

Lemma assigned_rows_of_student (seat student : Z) (rows : list assignment)
    (shifts : list num) :
  assigned_rows seat student rows shifts ->
  filter (of_student student) rows = rows /\
  filter (fun a => negb (of_student student a)) rows = [].
Proof.
  induction 1 as [|a s rows shifts (Hs & _ & Hst) _ IH]; simpl; [auto|].
  assert (E : of_student student a = true) by (unfold of_student; rewrite Hst; apply Z.eqb_refl).
  rewrite E. simpl. destruct IH as [-> ->]. auto.
Qed.









(** ** Status at write time and at read time *)

(** C10.  On the last day of a membership the two derivations disagree:
    a create or an update that succeeds at any instant after midnight
    (UTC) of the day that equals [membership_end] stores status
    'expired', while the [CASE] of the read queries classifies the very
    same row as 'active' at that instant. *)
Theorem write_status_differs_from_read_status (faults : nat -> bool) (now : Z) (b : body)
    (w w' : world) (r : response) (day : Z) :
  tx w = None ->
  membership_end b = Some day ->
  day = CURRENT_DATE now ->
  now mod msPerDay <> 0 ->
  (post_student faults now b w = (Responded r, w') -> code r = 201 ->
   exists s, content r = StudentRow s /\ In s (students (committed w')) /\
             s_membership_end s = Some day /\
             s_status s = expired /\ withCalculatedStatus s now = active) /\
  (forall id_param,
     put_student faults now id_param b w = (Responded r, w') -> code r = 200 ->
     exists s, content r = StudentRow s /\ In s (students (committed w')) /\
               s_membership_end s = Some day /\
               s_status s = expired /\ withCalculatedStatus s now = active).
Proof.
  intros Htx Hend Hday Hmid.
  assert (Hw : status_at_write (Some day) now = expired).
  { unfold status_at_write, Date_of, num_lt.
    assert (day * msPerDay < now); [|destruct (Z.ltb_spec (day * msPerDay) now); [reflexivity|lia]].
    subst day. unfold CURRENT_DATE.
    pose proof (Z.div_mod now msPerDay ltac:(unfold msPerDay; lia)) as E.
    pose proof (Z.mod_pos_bound now msPerDay ltac:(unfold msPerDay; lia)).
    lia. }
  assert (Hrd : forall s, s_membership_end s = Some day -> withCalculatedStatus s now = active).
  { intros s Hs. unfold withCalculatedStatus. rewrite Hs, Hday.
    rewrite Z.ltb_irrefl. reflexivity. }
  split.
  - intros H Hc.
    pose proof (post_student_course _ _ _ _ _ _ Htx H (succeeded_201 _ Hc)) as Hco.
    destruct (post_course _ _ _ _ _ _ Hco (succeeded_201 _ Hc))
      as (bid & rows & hrow & _ & _ & _ & _ & _ & Hr & Hst & _).
    cbv zeta in *. eexists.
    split; [rewrite Hr; reflexivity|].
    split; [rewrite Hst; apply in_or_app; right; left; reflexivity|].
    split; [simpl; exact Hend|].
    split; [simpl; rewrite Hend; exact Hw|].
    apply Hrd. simpl. exact Hend.
  - intros id_param H Hc.
    pose proof (put_student_course _ _ _ _ _ _ _ Htx H (succeeded_200 _ Hc)) as Hco.
    destruct (put_course _ _ _ _ _ _ _ Hco (succeeded_200 _ Hc))
      as (i & cur & rest & bid & rows & h & hs & seat & shift & branch & first &
          Hid & Hcur & Hh & _ & _ & _ & _ & _ & Hr & Hst & _).
    cbv beta zeta in *. eexists.
    split; [rewrite Hr; reflexivity|].
    split; [rewrite Hst; eapply in_map_if_first; exact Hcur|].
    split; [simpl; exact Hend|].
    split; [simpl; rewrite Hend; exact Hw|].
    apply Hrd. simpl. exact Hend.
Qed.

Lemma write_status_differs_from_read_status_witness :
  exists r w',
    membership_end bela_last_day = Some (CURRENT_DATE sample_now) /\
    sample_now mod msPerDay <> 0 /\
    post_student no_faults sample_now bela_last_day sample_world = (Responded r, w') /\
    code r = 201 /\
    exists s, content r = StudentRow s /\ In s (students (committed w')) /\
              s_membership_end s = Some 19675 /\
              s_status s = expired /\ withCalculatedStatus s sample_now = active.
Proof.
  eexists. eexists.
  split; [reflexivity|].
  split; [vm_compute; discriminate|].
  split; [cbv; reflexivity|].
  split; [reflexivity|].
  assert (Hmid : sample_now mod msPerDay <> 0) by (vm_compute; discriminate).
  apply (proj1 (write_status_differs_from_read_status no_faults sample_now bela_last_day
                  sample_world _ _ 19675 eq_refl eq_refl eq_refl Hmid)).
  - cbv. reflexivity.
  - reflexivity.
Defined.

(** ** The routes without a transaction *)

(** The transactional routes, for comparison: whatever fails, create and
    update leave the committed database alone unless they answer with
    success, they answer an error only after a ROLLBACK, and they give
    the connection back. *)
Lemma post_student_is_atomic (faults : nat -> bool) (now : Z) (b : body)
    (w w' : world) (o : outcome) :
  tx w = None ->
  post_student faults now b w = (o, w') ->
  in_use w' = in_use w /\
  match o with
  | Responded r =>
      exists l,
        if succeeded r
        then log w' = log w ++ Connect :: l ++
                        [Issued Client KCommit true; Sent r; Release]
        else committed w' = committed w /\
             log w' = log w ++ Connect :: l ++
                        [Issued Client KRollback true; Sent r; Release]
  | Thrown => committed w' = committed w
  end.
Proof.
  intros Htx H. unfold post_student in H.
  destruct (post_body_closes now b) as (k & Heq & Hk).
  rewrite Heq in H. apply tx_route in H; [|exact Hk|exact Htx].
  destruct H as [Hu Ho]. split; [exact Hu|].
  destruct o as [r|]; [|exact Ho]. exact (proj2 (proj2 Ho)).
Qed.

Lemma put_student_is_atomic (faults : nat -> bool) (now : Z) (id_param : jsval) (b : body)
    (w w' : world) (o : outcome) :
  tx w = None ->
  put_student faults now id_param b w = (o, w') ->
  in_use w' = in_use w /\
  match o with
  | Responded r =>
      exists l,
        if succeeded r
        then log w' = log w ++ Connect :: l ++
                        [Issued Client KCommit true; Sent r; Release]
        else committed w' = committed w /\
             log w' = log w ++ Connect :: l ++
                        [Issued Client KRollback true; Sent r; Release]
  | Thrown => committed w' = committed w
  end.
Proof.
  intros Htx H. unfold put_student in H.
  destruct (put_body_closes now id_param b) as (k & Heq & Hk).
  rewrite Heq in H. apply tx_route in H; [|exact Hk|exact Htx].
  destruct H as [Hu Ho]. split; [exact Hu|].
  destruct o as [r|]; [|exact Ho]. exact (proj2 (proj2 Ho)).
Qed.

Lemma autocommits_log (faults : nat -> bool) (now : Z) (p : prog) :
  autocommits p ->
  forall (w w' : world) (o : outcome),
    run faults now p w = (o, w') ->
    exists l, log w' = log w ++ l /\ forallb untransacted l = true.
Proof.
  induction 1 as [r0| |T q k Hk Hbody IH]; intros w w' o Hrun; simpl in Hrun.
  - inversion Hrun; subst. exists [Sent r0]. split; reflexivity.
  - inversion Hrun; subst. exists []. rewrite app_nil_r. split; reflexivity.
  - destruct (step faults now Pool q w) as [[v|] w1] eqn:Hs;
      destruct (step_log _ _ _ _ _ _ _ _ Hs) as [ok Hl].
    + destruct (IH v _ _ _ Hrun) as (l & Hl' & Hall).
      exists (Issued Pool (kind_of q) ok :: l). split.
      * rewrite Hl', Hl, <- app_assoc. reflexivity.
      * simpl. rewrite Hk, Hall. reflexivity.
    + inversion Hrun; subst. exists [Issued Pool (kind_of q) ok]. split; [exact Hl|].
      simpl. rewrite Hk. reflexivity.
Qed.

Lemma pool_route_log (faults : nat -> bool) (now : Z) (p : prog) (r500 : response)
    (w w' : world) (o : outcome) :
  autocommits p ->
  try_catch faults now p (Respond r500) w = (o, w') ->
  exists l, log w' = log w ++ l /\ forallb untransacted l = true.
Proof.
  intros Hp H. unfold try_catch in H.
  destruct (run faults now p w) as [[r|] w2] eqn:Hrun;
    destruct (autocommits_log faults now p Hp _ _ _ Hrun) as (l & Hl & Hall).
  - inversion H; subst. eauto.
  - simpl in H. inversion H; subst. exists (l ++ [Sent r500]). split.
    + simpl. rewrite Hl, <- app_assoc. reflexivity.
    + rewrite forallb_app, Hall. reflexivity.
Qed.

(** Renew and delete never check out a client and never issue BEGIN,
    COMMIT or ROLLBACK, whatever the request and whatever fails. *)
Lemma renew_student_has_no_transaction (faults : nat -> bool) (now : Z)
    (id_param : jsval) (b : body) (w w' : world) (o : outcome) :
  renew_student faults now id_param b w = (o, w') ->
  exists l, log w' = log w ++ l /\ forallb untransacted l = true.
Proof.
  intros H. exact (pool_route_log _ _ _ _ _ _ _ (renew_body_autocommits id_param b) H).
Qed.

Lemma delete_student_has_no_transaction (faults : nat -> bool) (now : Z)
    (id_param : jsval) (w w' : world) (o : outcome) :
  delete_student faults now id_param w = (o, w') ->
  exists l, log w' = log w ++ l /\ forallb untransacted l = true.
Proof.
  intros H. exact (pool_route_log _ _ _ _ _ _ _ (delete_body_autocommits id_param) H).
Qed.

(** C1.  Renew and delete do not do what create and update do: they
    never check out a client, never issue BEGIN, COMMIT or ROLLBACK, and
    an error in the middle leaves the statements already run committed.
    A renewal whose [seat_id] is "abc" answers 500 after the student row
    has been rewritten and before the history row is written; a delete
    whose third query is lost answers 500 after the student's seat
    assignments and history are gone, the student still being there. *)
Theorem renew_and_delete_leave_partial_writes :
  let renewed :=
    renew_student no_faults sample_now (JText (Fin 1)) renew_bad_seat sample_world in
  let deleted :=
    delete_student third_query_fails sample_now (JText (Fin 1)) sample_world in
  (fst renewed = Responded (reply 500 ServerError) /\
   log (snd renewed) =
     [Issued Pool KRead true; Issued Pool KWrite true; Issued Pool KWrite false;
      Sent (reply 500 ServerError)] /\
   map s_membership_end (students (committed sample_world)) = [Some 19670] /\
   map s_membership_end (students (committed (snd renewed))) = [Some 19730] /\
   student_membership_history (committed (snd renewed)) = [asha_enrolled]) /\
  (fst deleted = Responded (reply 500 ServerError) /\
   log (snd deleted) =
     [Issued Pool KWrite true; Issued Pool KWrite true; Issued Pool KWrite false;
      Sent (reply 500 ServerError)] /\
   students (committed (snd deleted)) = [asha] /\
   seat_assignments (committed (snd deleted)) = [] /\
   student_membership_history (committed (snd deleted)) = []).
Proof. vm_compute. repeat split; reflexivity. Qed.

(** The same lost query in an update changes nothing. *)
Example update_with_lost_query_changes_nothing :
  let updated :=
    put_student (fun n => Nat.eqb n 3) sample_now (JText (Fin 1)) asha_edit sample_world in
  fst updated = Responded (reply 500 ServerError) /\
  committed (snd updated) = committed sample_world.
Proof. vm_compute. split; reflexivity. Qed.

(** What renew does check: a seat taken in one of the shifts by another
    student is never renewed onto. *)
Lemma renew_rejects_conflicts (faults : nat -> bool) (now : Z) (id_param : jsval)
    (b : body) (w w' : world) (r : response) (i seat shift : Z) :
  renew_student faults now id_param b w = (Responded r, w') ->
  parseInt id_param = Fin i ->
  seat_and_shifts (seatIdNum b) (shiftIdsNum b) = Some (Fin seat) ->
  In (Fin shift) (shiftIdsNum b) ->
  taken_by_other seat shift i (committed w) ->
  succeeded r = false.
Proof.
  intros H Hi Hss Hin Htaken.
  destruct (succeeded r) eqn:Hr; [|reflexivity]. exfalso.
  pose proof (renew_student_course _ _ _ _ _ _ _ H Hr) as Hco.
  destruct (renew_course _ _ _ _ _ _ _ Hco Hr)
    as (i' & old & rest & bid & Hid & _ & _ & _ & Hfree).
  rewrite Hi in Hid. inversion Hid; subst i'.
  specialize (Hfree seat Hss). rewrite Forall_forall in Hfree.
  destruct (Hfree _ Hin) as (j & Ej & Hnone). inversion Ej; subst j.
  apply Htaken. exact Hnone.
Qed.

(** C2.  Renew does not check that the seat or the shifts exist, which
    update does: a renewal onto seat 99, or in shift 77, neither of which
    exists, answers 200 and writes the assignment, where the same seat
    and shift in an update are answered 400. *)
Theorem renew_accepts_missing_seat_and_shift :
  ~ In 99 (seats (committed sample_world)) /\
  ~ In 77 (schedules (committed sample_world)) /\
  (let renewed :=
     renew_student no_faults sample_now (JText (Fin 1)) renew_missing_seat sample_world in
   (exists s, fst renewed = Responded (mkResponse 200 (StudentRow s))) /\
   map triple (seat_assignments (committed (snd renewed))) = [(99, 2, 1)]) /\
  (let renewed :=
     renew_student no_faults sample_now (JText (Fin 1)) renew_missing_shift sample_world in
   (exists s, fst renewed = Responded (mkResponse 200 (StudentRow s))) /\
   map triple (seat_assignments (committed (snd renewed))) = [(11, 77, 1)]) /\
  fst (put_student no_faults sample_now (JText (Fin 1)) edit_missing_seat sample_world)
  = Responded (reply 400 (SeatNotFound (Fin 99))) /\
  fst (put_student no_faults sample_now (JText (Fin 1)) edit_missing_shift sample_world)
  = Responded (reply 400 (ShiftNotFound (Fin 77))).
Proof.
  split; [cbv; intuition discriminate|].
  split; [cbv; intuition discriminate|].
  vm_compute. repeat split; try reflexivity; eexists; reflexivity.
Qed.

(** * Further properties *)

(** ** Reasoning along a body *)

Lemma along_course (Inv : db -> Prop) (Q : response -> db -> Prop) (now : Z) (p : prog) :
  forall (sq : seqs) (d d' : db) (r : response),
    along Inv Q now p sq d -> course now p sq d = Some (r, d') -> Q r d'.
Proof.
  induction p as [r0| |T c q k IH]; intros sq d d' r Ha Hc; simpl in *.
  - inversion Hc; subst. exact Ha.
  - discriminate.
  - destruct (exec q now sq d) as [[[v sq1] d1]|] eqn:He; [|discriminate].
    destruct (Ha _ _ _ eq_refl) as [_ Hk]. exact (IH _ _ _ _ _ Hk Hc).
Qed.

(** In a body that goes through the pool, [Inv] holds of the committed
    database wherever the run stops. *)
Lemma along_run (Inv : db -> Prop) (Q : response -> db -> Prop)
    (faults : nat -> bool) (now : Z) (p : prog) :
  autocommits p ->
  forall (w w' : world) (o : outcome),
    Inv (committed w) ->
    along Inv Q now p (serials w) (committed w) ->
    run faults now p w = (o, w') ->
    Inv (committed w') /\
    match o with Responded r => Q r (committed w') | Thrown => True end.
Proof.
  induction 1 as [r0| |T q k Hk Hbody IH]; intros w w' o HI Ha Hrun; simpl in Hrun.
  - inversion Hrun; subst. simpl. split; [exact HI|exact Ha].
  - inversion Hrun; subst. split; [exact HI|exact I].
  - destruct (step faults now Pool q w) as [[v|] w1] eqn:Hs.
    + destruct (step_pool _ _ _ _ _ _ _ Hk Hs) as (sq & d & He & Hc & Hsq & _).
      simpl in Ha. destruct (Ha _ _ _ He) as [HI1 Ha1].
      apply (IH v w1 w' o); [rewrite Hc; exact HI1|rewrite Hc, Hsq; exact Ha1|exact Hrun].
    + apply step_rejects in Hs. destruct Hs as (Hc & _).
      inversion Hrun; subst. rewrite Hc. split; [exact HI|exact I].
Qed.

(** The routes of the shape [try { body } catch { 500 }]. *)
Lemma along_pool_route (Inv : db -> Prop) (Q : response -> db -> Prop)
    (faults : nat -> bool) (now : Z) (p : prog) (r500 : response)
    (w w' : world) (o : outcome) :
  autocommits p ->
  Inv (committed w) ->
  along Inv Q now p (serials w) (committed w) ->
  try_catch faults now p (Respond r500) w = (o, w') ->
  Inv (committed w') /\
  exists r, o = Responded r /\ (r = r500 \/ Q r (committed w')).
Proof.
  intros Hp HI Ha H. unfold try_catch in H.
  destruct (run faults now p w) as [[r|] w2] eqn:Hrun;
    destruct (along_run Inv Q faults now p Hp _ _ _ HI Ha Hrun) as [HI2 HQ].
  - inversion H; subst. split; [exact HI2|]. exists r. auto.
  - simpl in H. inversion H; subst. simpl. split; [exact HI2|]. exists r500. auto.
Qed.

(** The routes of the shape
    [connect; try { BEGIN; body } catch { ROLLBACK; 500 } finally { release }]:
    the committed database is the one before, unless the route answers
    with success, and then it is the end of the fault-free course. *)
Lemma tx_route_answer (faults : nat -> bool) (now : Z) (k : unit -> prog)
    (w w' : world) (o : outcome) :
  closes_tx (k tt) ->
  tx w = None ->
  with_client
    (try_catch faults now (Query Client BEGIN k) (rollback_reply 500 ServerError)) w
  = (o, w') ->
  match o with
  | Responded r =>
      (r = reply 500 ServerError /\ committed w' = committed w) \/
      exists df, course now (Query Client BEGIN k) (serials w) (committed w) = Some (r, df) /\
                 committed w' = if succeeded r then df else committed w
  | Thrown => committed w' = committed w
  end.
Proof.
  intros Hk Htx H. apply tx_route in H; [|exact Hk|exact Htx].
  destruct H as [_ H]. destruct o as [r|]; [|exact H].
  destruct H as (_ & [->|(df & Hco & Hdf)] & l & Hl).
  - left. split; [reflexivity|]. simpl in Hl. exact (proj1 Hl).
  - right. exists df. split; [exact Hco|].
    destruct (succeeded r); [apply Hdf; reflexivity|exact (proj1 Hl)].
Qed.

Lemma post_student_answer (faults : nat -> bool) (now : Z) (b : body)
    (w w' : world) (o : outcome) :
  tx w = None ->
  post_student faults now b w = (o, w') ->
  match o with
  | Responded r =>
      (r = reply 500 ServerError /\ committed w' = committed w) \/
      exists df, course now (post_body now b) (serials w) (committed w) = Some (r, df) /\
                 committed w' = if succeeded r then df else committed w
  | Thrown => committed w' = committed w
  end.
Proof.
  intros Htx H. unfold post_student in H.
  destruct (post_body_closes now b) as (k & Heq & Hk).
  rewrite Heq in *. exact (tx_route_answer _ _ _ _ _ _ Hk Htx H).
Qed.


Lemma along_rollback_reply (Inv : db -> Prop) (Q : response -> db -> Prop) (now : Z)
    (c : Z) (m : message) (sq : seqs) (d : db) :
  Inv d -> Q (reply c m) d -> along Inv Q now (rollback_reply c m) sq d.
Proof.
  intros HI HQ. simpl. intros v sq' d' H. inversion H; subst. split; assumption.
Qed.

(** The loop that checks the shifts leaves through its early return only
    at a shift that does not exist, and goes on only when all exist. *)
Lemma along_check_shifts (Inv : db -> Prop) (Q : response -> db -> Prop) (now : Z)
    (k : prog) (sq : seqs) (d : db) (shifts : list num) :
  Inv d ->
  (forall i, In (Fin i) shifts -> ~ In i (schedules d) ->
     Q (reply 400 (ShiftNotFound (Fin i))) d) ->
  (Forall (fun s => exists i, s = Fin i /\ In i (schedules d)) shifts ->
   along Inv Q now k sq d) ->
  along Inv Q now (check_shifts shifts k) sq d.
Proof.
  intros HI. unfold check_shifts.
  induction shifts as [|s l IH]; intros Hexit Hk; cbn [for_each along].
  - apply Hk. constructor.
  - intros v sq' d' He. destruct s as [|i]; simpl in He; [discriminate|].
    inversion He; subst v sq' d'; clear He. split; [exact HI|].
    destruct (filter (Z.eqb i) (schedules d)) as [|x rows] eqn:Hf; cbn [map].
    + apply along_rollback_reply; [exact HI|].
      apply Hexit; [left; reflexivity|].
      intros Hin. assert (Hx : In i (filter (Z.eqb i) (schedules d))).
      { apply filter_In. split; [exact Hin|apply Z.eqb_refl]. }
      rewrite Hf in Hx. exact Hx.
    + apply IH.
      * intros j Hj. apply Hexit. right. exact Hj.
      * intros Hall. apply Hk. constructor; [|exact Hall].
        exists i. split; [reflexivity|].
        assert (Hx : In x (filter (Z.eqb i) (schedules d))) by (rewrite Hf; left; reflexivity).
        apply filter_In in Hx. destruct Hx as [Hx E]. apply Z.eqb_eq in E. subst x. exact Hx.
Qed.

(** The loop that looks for conflicts: [free s] is what an empty answer
    of the SELECT for shift [s] means, [held s] a non-empty one. *)
Lemma along_check_conflicts (Inv : db -> Prop) (Q : response -> db -> Prop) (now : Z)
    (c : via) (find : num -> sql (list unit)) (reject : message -> prog)
    (free held : num -> Prop) (k : prog) (sq : seqs) (d : db) (shifts : list num) :
  Inv d ->
  (forall s v sq' d', exec (find s) now sq d = Some (v, sq', d') ->
     sq' = sq /\ d' = d /\ (v = [] -> free s) /\ (v <> [] -> held s)) ->
  (forall s, In s shifts -> held s -> along Inv Q now (reject (SeatTaken s)) sq d) ->
  (Forall free shifts -> along Inv Q now k sq d) ->
  along Inv Q now (check_conflicts c find reject shifts k) sq d.
Proof.
  intros HI Hfind. unfold check_conflicts.
  induction shifts as [|s l IH]; intros Hexit Hk; cbn [for_each along].
  - apply Hk. constructor.
  - intros v sq' d' He. destruct (Hfind _ _ _ _ He) as (-> & -> & Hfree & Hheld).
    split; [exact HI|].
    destruct v as [|x rows].
    + apply IH.
      * intros s' Hs'. apply Hexit. right. exact Hs'.
      * intros Hall. apply Hk. constructor; [|exact Hall]. apply Hfree. reflexivity.
    + apply Hexit; [left; reflexivity|]. apply Hheld. discriminate.
Qed.

(** The loop that inserts the assignments: [J done] is what holds of the
    database once the shifts [done] have got their row. *)
Lemma along_insert_assignments (Inv : db -> Prop) (Q : response -> db -> Prop) (now : Z)
    (c : via) (seat student : Z) (k : option num -> prog)
    (J : list num -> db -> Prop) (all : list num) :
  (forall done d, J done d -> Inv d) ->
  (forall done aid j d, In (Fin j) all -> J done d ->
     J (done ++ [Fin j])
       (with_assignments d (seat_assignments d ++ [mkAssignment aid seat j student]))) ->
  (forall first sq d, J all d -> along Inv Q now (k first) sq d) ->
  forall shifts done first sq d,
    all = done ++ shifts ->
    J done d ->
    along Inv Q now (insert_assignments c (Fin seat) (Fin student) shifts first k) sq d.
Proof.
  intros HJI Hins Hk.
  induction shifts as [|s l IH]; intros done first sq d Hall HJ;
    cbn [insert_assignments along].
  - apply Hk. rewrite Hall, app_nil_r. exact HJ.
  - intros v sq' d' He. destruct s as [|j]; simpl in He; [discriminate|].
    inversion He; subst v sq' d'; clear He.
    assert (HJ' : J (done ++ [Fin j])
                    (with_assignments d
                       (seat_assignments d ++
                        [mkAssignment (next_assignment_id sq) seat j student]))).
    { apply Hins; [|exact HJ]. rewrite Hall. apply in_or_app. right. left. reflexivity. }
    split; [exact (HJI _ _ HJ')|].
    apply (IH (done ++ [Fin j])); [|exact HJ']. rewrite Hall, <- app_assoc. reflexivity.
Qed.

Lemma find_other_spec (now : Z) (seat i : Z) (s : num) (v : list unit)
    (sq sq' : seqs) (d d' : db) :
  exec (SelectAssignmentOther (Fin seat) s (Fin i)) now sq d = Some (v, sq', d') ->
  sq' = sq /\ d' = d /\
  (v = [] -> exists j, s = Fin j /\
               filter (fun a => at_seat_shift seat j a && negb (of_student i a))
                 (seat_assignments d) = []) /\
  (v <> [] -> exists j, s = Fin j /\ taken_by_other seat j i d).
Proof.
  destruct s as [|j]; simpl; [discriminate|].
  intros H. inversion H; subst. repeat split.
  - intros E. exists j. split; [reflexivity|].
    destruct (filter _ (seat_assignments d')); [reflexivity|discriminate].
  - intros E. exists j. split; [reflexivity|]. unfold taken_by_other.
    intros Hf. apply E. rewrite Hf. reflexivity.
Qed.

Lemma find_any_spec (now : Z) (seat : Z) (s : num) (v : list unit)
    (sq sq' : seqs) (d d' : db) :
  exec (SelectAssignment (Fin seat) s) now sq d = Some (v, sq', d') ->
  sq' = sq /\ d' = d /\
  (v = [] -> exists j, s = Fin j /\
               filter (at_seat_shift seat j) (seat_assignments d) = []) /\
  (v <> [] -> exists j, s = Fin j /\ taken seat j d).
Proof.
  destruct s as [|j]; simpl; [discriminate|].
  intros H. inversion H; subst. repeat split.
  - intros E. exists j. split; [reflexivity|].
    destruct (filter _ (seat_assignments d')); [reflexivity|discriminate].
  - intros E. exists j. split; [reflexivity|]. unfold taken.
    intros Hf. apply E. rewrite Hf. reflexivity.
Qed.

Ltac exec_inv He :=
  cbn [exec pg_int bind_opt] in He;
  repeat match type of He with
         | context [pg_int_null ?x] =>
             destruct (pg_int_null x) eqn:?; cbn [bind_opt] in He
         end;
  try discriminate He;
  inversion He; subst; clear He.

(** ** Facts about the tables *)

Lemma filter_nil_not_in (i : Z) (l : list Z) : filter (Z.eqb i) l = [] -> ~ In i l.
Proof.
  intros Hf Hin. assert (Hx : In i (filter (Z.eqb i) l)).
  { apply filter_In. split; [exact Hin|apply Z.eqb_refl]. }
  rewrite Hf in Hx. exact Hx.
Qed.

Lemma filter_app_last {A : Type} (p : A -> bool) (l : list A) (x : A) :
  p x = false -> filter p (l ++ [x]) = filter p l.
Proof. intros Hx. rewrite filter_app. simpl. rewrite Hx. apply app_nil_r. Qed.

Lemma filter_not_map_if {A : Type} (p : A -> bool) (f : A -> A) (l : list A) :
  (forall x, p (f x) = p x) ->
  filter (fun x => negb (p x)) (map_if p f l) = filter (fun x => negb (p x)) l.
Proof.
  intros Hp. unfold map_if. induction l as [|x l IH]; simpl; [reflexivity|].
  destruct (p x) eqn:Hx.
  - rewrite Hp, Hx. simpl. exact IH.
  - rewrite Hx. simpl. rewrite IH. reflexivity.
Qed.

Lemma same_but_student_refl (i : Z) (d : db) : same_but_student i d d.
Proof. unfold same_but_student. repeat split. Qed.

Lemma exclusive_same (d d' : db) :
  seat_assignments d' = seat_assignments d -> exclusive d -> exclusive d'.
Proof. unfold exclusive. intros ->. auto. Qed.

Lemma exclusive_filter (p : assignment -> bool) (l : list assignment) (d d' : db) :
  seat_assignments d = l ->
  seat_assignments d' = filter p l ->
  exclusive d -> exclusive d'.
Proof.
  unfold exclusive. intros Hl Hl' H a a' Ha Ha'. rewrite Hl' in Ha, Ha'. rewrite Hl in H.
  apply filter_In in Ha, Ha'. apply H; tauto.
Qed.

Lemma reserved_insert (seat student : Z) (shifts : list num) (aid j : Z) (d : db) :
  In (Fin j) shifts ->
  exclusive d /\ reserved seat student shifts d ->
  exclusive (with_assignments d (seat_assignments d ++ [mkAssignment aid seat j student])) /\
  reserved seat student shifts
    (with_assignments d (seat_assignments d ++ [mkAssignment aid seat j student])).
Proof.
  intros Hj [He Hr]. split.
  - unfold exclusive. simpl. intros a a' Ha Ha' Hs Hf.
    apply in_app_or in Ha, Ha'.
    destruct Ha as [Ha|[<-|[]]], Ha' as [Ha'|[<-|[]]]; simpl in *.
    + apply He; assumption.
    + apply Hr; [exact Ha|exact Hs|rewrite Hf; exact Hj].
    + symmetry. apply Hr; [exact Ha'|congruence|rewrite <- Hf; exact Hj].
    + reflexivity.
  - unfold reserved. simpl. intros a Ha Hs Hin.
    apply in_app_or in Ha. destruct Ha as [Ha|[<-|[]]]; [|reflexivity].
    apply Hr; assumption.
Qed.

(** Once the rows of [i] are deleted, a pair that nobody else held is
    held by nobody. *)
Lemma reserved_after_delete (seat i : Z) (shifts : list num) (l : list assignment) :
  Forall (fun s => exists j, s = Fin j /\
            filter (fun a => at_seat_shift seat j a && negb (of_student i a)) l = []) shifts ->
  forall a, In a (filter (fun a => negb (of_student i a)) l) -> sa_seat_id a = seat ->
    In (Fin (sa_shift_id a)) shifts -> sa_student_id a = i.
Proof.
  intros Hfree a Ha Hs Hin. rewrite Forall_forall in Hfree.
  destruct (Hfree _ Hin) as (j & E & Hnone). inversion E; subst j.
  apply filter_In in Ha. destruct Ha as [Ha Hn]. exfalso.
  assert (Hx : In a (filter (fun a0 => at_seat_shift seat (sa_shift_id a) a0
                                       && negb (of_student i a0)) l)).
  { apply filter_In. split; [exact Ha|]. unfold at_seat_shift.
    rewrite Hs, !Z.eqb_refl, Hn. reflexivity. }
  rewrite Hnone in Hx. exact Hx.
Qed.

Lemma assigned_rows_snoc (seat student j : Z) (aid : Z) (rows : list assignment)
    (done : list num) :
  assigned_rows seat student rows done ->
  assigned_rows seat student (rows ++ [mkAssignment aid seat j student]) (done ++ [Fin j]).
Proof.
  unfold assigned_rows. intros H. apply Forall2_app; [exact H|].
  constructor; [|constructor]. simpl. auto.
Qed.

Lemma student_by_id_nil (i : Z) (d : db) :
  filter (has_id i) (students d) = [] -> student_by_id i d = None.
Proof. unfold student_by_id. intros ->. reflexivity. Qed.

Lemma student_by_id_cons (i : Z) (d : db) (s : student) (rest : list student) :
  filter (has_id i) (students d) = s :: rest ->
  student_by_id i d = Some s /\ has_id i s = true.
Proof.
  unfold student_by_id. intros H. rewrite H. split; [reflexivity|].
  assert (Hin : In s (filter (has_id i) (students d))) by (rewrite H; left; reflexivity).
  apply filter_In in Hin. tauto.
Qed.

(** ** DELETE /:id, statement by statement *)

Lemma delete_body_along (now : Z) (id_param : jsval) (i : Z) (sq : seqs) (d0 : db) :
  parseInt id_param = Fin i ->
  along (same_but_student i d0)
    (fun r d' =>
       d' = purged i d0 /\
       r = match student_by_id i d0 with
           | Some s => mkResponse 200 (StudentRow s)
           | None => reply 404 StudentNotFound
           end)
    now (delete_body id_param) sq d0.
Proof.
  intros Hid. unfold delete_body. cbv zeta. rewrite Hid.
  intros u sq1 d1 He. exec_inv He.
  split.
  { unfold same_but_student. simpl. rewrite filter_twice. repeat split. }
  intros u sq2 d2 He. exec_inv He.
  split.
  { unfold same_but_student. simpl. rewrite !filter_twice. repeat split. }
  intros rows sq3 d3 He. exec_inv He.
  split.
  { unfold same_but_student. simpl. rewrite !filter_twice. repeat split. }
  unfold student_by_id.
  destruct (filter (has_id i) (students d0)) as [|s rest]; simpl; split; reflexivity.
Qed.

Lemma unparsed_id_along (Inv : db -> Prop) (Q : response -> db -> Prop) (now : Z)
    (T : Type) (c : via) (q : sql T) (k : T -> prog) (sq : seqs) (d : db) :
  exec q now sq d = None -> along Inv Q now (Query c q k) sq d.
Proof. intros He v sq' d' H. rewrite He in H. discriminate. Qed.

(** ** POST /, statement by statement *)

Lemma post_body_along (now : Z) (b : body) (sq : seqs) (d0 : db) :
  along (fun _ => True)
    (fun r _ => match content r with
                | Message m => create_refusal b d0 (code r) m
                | StudentRow _ => code r = 201
                end)
    now (post_body now b) sq d0.
Proof.
  unfold post_body. cbv zeta. intros [] sq0 d He. exec_inv He. split; [exact I|].
  destruct (negb (truthy_text (name b)) || negb (truthy (branch_id b))
            || negb (truthy_date (membership_start b))
            || negb (truthy_date (membership_end b))) eqn:Hreq.
  { apply along_rollback_reply; [exact I|]. split; [reflexivity|].
    destruct (truthy_text (name b)), (truthy (branch_id b)),
      (truthy_date (membership_start b)), (truthy_date (membership_end b));
      try reflexivity; discriminate. }
  repeat match goal with
         | |- along _ _ _ (if ?c then rollback_reply _ _ else _) _ _ =>
             let E := fresh "Hv" in
             destruct c eqn:E;
             [apply along_rollback_reply; [exact I|split; [reflexivity|exact E]]|]
         end.
  match goal with |- context [Query Client (InsertStudent ?v) ?k] =>
    set (vv := v); set (K := k)
  end.
  assert (Hins : forall sq1,
             along (fun _ => True)
               (fun r _ => match content r with
                           | Message m => create_refusal b d (code r) m
                           | StudentRow _ => code r = 201
                           end)
               now (Query Client (InsertStudent vv) K) sq1 d).
  { intros sq1 rows sq2 d2 _. split; [exact I|]. subst K. cbv beta.
    destruct rows as [|student more]; [exact I|].
    match goal with |- context [InsertHistory _ (mkSnapshot _ _ _ _ _ _ _ _ _ _ _ _ _ _ ?s _ ?br)] =>
      assert (Hh : forall first sq3 d3,
                 along (fun _ => True)
                   (fun r _ => match content r with
                               | Message m => create_refusal b d (code r) m
                               | StudentRow _ => code r = 201
                               end)
                   now
                   (Query Client
                      (InsertHistory (s_id student)
                         (mkSnapshot (s_name student) (s_email student) (s_phone student)
                            (s_address student) (s_membership_start student)
                            (s_membership_end student) (s_status student)
                            (s_total_fee student) (s_amount_paid student)
                            (s_due_amount student) (s_cash student) (s_online student)
                            (s_security_money student) (or_empty (s_remark student))
                            s first br))
                      (fun _ => Query Client COMMIT (fun _ =>
                                Respond (mkResponse 201 (StudentRow student))))) sq3 d3)
    end.
    { intros first sq3 d3 u sq4 d4 _. split; [exact I|].
      intros u' sq5 d5 _. split; [exact I|reflexivity]. }
    destruct (seat_and_shifts (seatIdNum b) (shiftIdsNum b)) as [seat|] eqn:Hss;
      [|apply Hh].
    destruct (seat_and_shifts_Some _ _ _ Hss) as (z & -> & _).
    apply along_insert_assignments
      with (J := fun _ _ => True) (all := shiftIdsNum b) (done := []);
      try (intros; exact I); [intros; apply Hh|reflexivity]. }
  destruct (seat_and_shifts (seatIdNum b) (shiftIdsNum b)) as [seat|] eqn:Hss;
    [|apply Hins].
  destruct (seat_and_shifts_Some _ _ _ Hss) as (z & -> & _).
  intros rows sq1 d1 He. exec_inv He. split; [exact I|].
  destruct (filter (Z.eqb z) (seats d1)) as [|x l] eqn:Hf; cbn [map].
  { apply along_rollback_reply; [exact I|]. split; [reflexivity|].
    exists z. repeat split; auto. apply filter_nil_not_in. exact Hf. }
  apply along_check_shifts; [exact I| |intros _].
  { intros j Hj Hn. split; [reflexivity|]. exists j. auto. }
  apply along_check_conflicts
    with (free := fun s => exists j, s = Fin j /\
                    filter (at_seat_shift z j) (seat_assignments d1) = [])
         (held := fun s => exists j, s = Fin j /\ taken z j d1);
    [exact I|intros s v sq' d' He; exact (find_any_spec _ _ _ _ _ _ _ _ He)
    | |intros _; apply Hins].
  intros s Hs (j & -> & Ht). apply along_rollback_reply; [exact I|].
  split; [reflexivity|]. exists z, j. auto.
Qed.

(** ** POST /:id/renew, statement by statement *)

Lemma invalid_add (a b : num) :
  invalid a = false -> invalid b = false -> invalid (num_add a b) = false.
Proof.
  intros Ha Hb. apply invalid_false in Ha, Hb.
  destruct Ha as (x & -> & Hx), Hb as (y & -> & Hy).
  unfold invalid. simpl. apply Z.ltb_ge. lia.
Qed.

Lemma renew_body_along (now : Z) (id_param : jsval) (b : body) (i : Z)
    (sq : seqs) (d0 : db) :
  parseInt id_param = Fin i ->
  along (fun d => same_but_student i d0 d /\ (exclusive d0 -> exclusive d))
    (fun r d' =>
       match content r with
       | Message m => d' = d0 /\ renew_refusal (Fin i) b d0 (code r) m
       | StudentRow s =>
           code r = 200 /\ has_id i s = true /\ valid_amounts s = true /\
           (exists old bid,
               student_by_id i d0 = Some old /\
               pg_int_null (r_branch_id (renewal b old)) = Some bid /\
               s = renewed_student bid (renewal b old) old) /\
           student_by_id i d' = Some s /\
           (exists h, student_membership_history d'
                      = student_membership_history d0 ++ [h] /\ snapshot_of s now h) /\
           match seat_and_shifts (seatIdNum b) (shiftIdsNum b) with
           | Some seat =>
               exists z rows, seat = Fin z /\
                 seat_assignments d'
                 = filter (fun a => negb (of_student i a)) (seat_assignments d0) ++ rows /\
                 assigned_rows z i rows (shiftIdsNum b)
           | None => seat_assignments d' = seat_assignments d0
           end
       end)
    now (renew_body id_param b) sq d0.
Proof.
  intros Hid. unfold renew_body. cbv zeta. rewrite Hid.
  assert (Hinv0 : same_but_student i d0 d0 /\ (exclusive d0 -> exclusive d0))
    by (split; [apply same_but_student_refl|auto]).
  destruct (negb (truthy_date (membership_start b)) || negb (truthy_date (membership_end b)))
    eqn:Hdates.
  { cbn. split; [reflexivity|]. split; [reflexivity|].
    destruct (truthy_date (membership_start b)), (truthy_date (membership_end b));
      try reflexivity; discriminate. }
  intros found sq1 d1 He. exec_inv He. split; [exact Hinv0|].
  destruct (filter (has_id i) (students d1)) as [|old rest] eqn:Hold.
  { cbn. split; [reflexivity|]. split; [reflexivity|].
    exists i. split; [reflexivity|]. apply student_by_id_nil. exact Hold. }
  destruct (student_by_id_cons _ _ _ _ Hold) as [Hby Hidold].
  repeat match goal with
         | |- along _ _ _ (if ?c then Respond _ else _) _ _ =>
             let E := fresh "Hv" in
             destruct c eqn:E;
             [cbn; split; [reflexivity|]; split; [reflexivity|];
              first [exact E|exists i, old; auto]|]
         end.
  match goal with |- context [RenewStudent ?v _] => set (vv := v) end.
  assert (Hhist :
    forall updated first sq2 d2,
      has_id i updated = true -> valid_amounts updated = true ->
      (exists old bid,
          student_by_id i d1 = Some old /\
          pg_int_null (r_branch_id (renewal b old)) = Some bid /\
          updated = renewed_student bid (renewal b old) old) ->
      student_by_id i d2 = Some updated ->
      student_membership_history d2 = student_membership_history d1 ->
      same_but_student i d1 d2 -> (exclusive d1 -> exclusive d2) ->
      match seat_and_shifts (seatIdNum b) (shiftIdsNum b) with
      | Some seat =>
          exists z rows, seat = Fin z /\
            seat_assignments d2
            = filter (fun a => negb (of_student i a)) (seat_assignments d1) ++ rows /\
            assigned_rows z i rows (shiftIdsNum b)
      | None => seat_assignments d2 = seat_assignments d1
      end ->
      along (fun d => same_but_student i d1 d /\ (exclusive d1 -> exclusive d))
        (fun r d' =>
           match content r with
           | Message m => d' = d1 /\ renew_refusal (Fin i) b d1 (code r) m
           | StudentRow s =>
               code r = 200 /\ has_id i s = true /\ valid_amounts s = true /\
               (exists old bid,
                   student_by_id i d1 = Some old /\
                   pg_int_null (r_branch_id (renewal b old)) = Some bid /\
                   s = renewed_student bid (renewal b old) old) /\
               student_by_id i d' = Some s /\
               (exists h, student_membership_history d'
                          = student_membership_history d1 ++ [h] /\ snapshot_of s now h) /\
               match seat_and_shifts (seatIdNum b) (shiftIdsNum b) with
               | Some seat =>
                   exists z rows, seat = Fin z /\
                     seat_assignments d'
                     = filter (fun a => negb (of_student i a)) (seat_assignments d1) ++ rows /\
                     assigned_rows z i rows (shiftIdsNum b)
               | None => seat_assignments d' = seat_assignments d1
               end
           end)
        now
        (Query Pool
           (InsertHistory (s_id updated)
              (mkSnapshot (s_name updated) (s_email updated) (s_phone updated)
                 (s_address updated) (s_membership_start updated)
                 (s_membership_end updated) (s_status updated)
                 (s_total_fee updated) (s_amount_paid updated) (s_due_amount updated)
                 (s_cash updated) (s_online updated) (s_security_money updated)
                 (or_empty (s_remark updated)) (seatIdNum b) first
                 (if truthy (branch_id b) then Some (parseInt (branch_id b)) else None)))
           (fun _ => Respond (mkResponse 200 (StudentRow updated)))) sq2 d2).
  { intros updated first sq2 d2 Hu Hva Hfrom Hby2 Hh (Hs1 & Hs2 & Hs3 & Hs4 & Hs5) Hex Hsa.
    intros u sq3 d3 He. exec_inv He.
    assert (Hhu : history_of i
                    (snapshot_row (next_history_id sq2) (s_id updated) o o0 o1 now
                       (mkSnapshot (s_name updated) (s_email updated) (s_phone updated)
                          (s_address updated) (s_membership_start updated)
                          (s_membership_end updated) (s_status updated)
                          (s_total_fee updated) (s_amount_paid updated)
                          (s_due_amount updated) (s_cash updated) (s_online updated)
                          (s_security_money updated) (or_empty (s_remark updated))
                          (seatIdNum b) first
                          (if truthy (branch_id b) then Some (parseInt (branch_id b))
                           else None))) = true) by exact Hu.
    split.
    - split; [|intros Hx; eapply exclusive_same; [|exact (Hex Hx)]; reflexivity].
      unfold same_but_student. simpl. rewrite filter_app_last by (rewrite Hhu; reflexivity).
      repeat split; assumption.
    - cbn. split; [reflexivity|]. split; [exact Hu|]. split; [exact Hva|].
      split; [exact Hfrom|]. split; [exact Hby2|]. split; [|exact Hsa].
      eexists. split; [rewrite Hh; reflexivity|].
      unfold snapshot_of. simpl. repeat split. }
  assert (Hupd :
    forall sq2,
      (forall z, seat_and_shifts (seatIdNum b) (shiftIdsNum b) = Some (Fin z) ->
         Forall (fun s => exists j, s = Fin j /\
                   filter (fun a => at_seat_shift z j a && negb (of_student i a))
                     (seat_assignments d1) = []) (shiftIdsNum b)) ->
      along (fun d => same_but_student i d1 d /\ (exclusive d1 -> exclusive d))
        (fun r d' =>
           match content r with
           | Message m => d' = d1 /\ renew_refusal (Fin i) b d1 (code r) m
           | StudentRow s =>
               code r = 200 /\ has_id i s = true /\ valid_amounts s = true /\
               (exists old bid,
                   student_by_id i d1 = Some old /\
                   pg_int_null (r_branch_id (renewal b old)) = Some bid /\
                   s = renewed_student bid (renewal b old) old) /\
               student_by_id i d' = Some s /\
               (exists h, student_membership_history d'
                          = student_membership_history d1 ++ [h] /\ snapshot_of s now h) /\
               match seat_and_shifts (seatIdNum b) (shiftIdsNum b) with
               | Some seat =>
                   exists z rows, seat = Fin z /\
                     seat_assignments d'
                     = filter (fun a => negb (of_student i a)) (seat_assignments d1) ++ rows /\
                     assigned_rows z i rows (shiftIdsNum b)
               | None => seat_assignments d' = seat_assignments d1
               end
           end)
        now
        (Query Pool (RenewStudent vv (Fin i))
           (fun rows =>
              match seat_and_shifts (seatIdNum b) (shiftIdsNum b) with
              | Some seat =>
                  Query Pool (DeleteAssignments (Fin i)) (fun _ =>
                  insert_assignments Pool seat (Fin i) (shiftIdsNum b) None
                    (fun firstShiftId =>
                       match rows with
                       | [] => Throw
                       | updated :: _ =>
                           Query Pool
                             (InsertHistory (s_id updated)
                                (mkSnapshot (s_name updated) (s_email updated)
                                   (s_phone updated) (s_address updated)
                                   (s_membership_start updated) (s_membership_end updated)
                                   (s_status updated) (s_total_fee updated)
                                   (s_amount_paid updated) (s_due_amount updated)
                                   (s_cash updated) (s_online updated)
                                   (s_security_money updated) (or_empty (s_remark updated))
                                   (seatIdNum b) firstShiftId
                                   (if truthy (branch_id b) then Some (parseInt (branch_id b))
                                    else None)))
                             (fun _ => Respond (mkResponse 200 (StudentRow updated)))
                       end))
              | None =>
                  match rows with
                  | [] => Throw
                  | updated :: _ =>
                      Query Pool
                        (InsertHistory (s_id updated)
                           (mkSnapshot (s_name updated) (s_email updated)
                              (s_phone updated) (s_address updated)
                              (s_membership_start updated) (s_membership_end updated)
                              (s_status updated) (s_total_fee updated)
                              (s_amount_paid updated) (s_due_amount updated)
                              (s_cash updated) (s_online updated)
                              (s_security_money updated) (or_empty (s_remark updated))
                              (seatIdNum b) None
                              (if truthy (branch_id b) then Some (parseInt (branch_id b))
                               else None)))
                        (fun _ => Respond (mkResponse 200 (StudentRow updated)))
                  end
              end)) sq2 d1).
  { intros sq2 Hfree rows sq3 d3 He. exec_inv He. rewrite Hold. cbn [map].
    set (updated := renewed_student o vv old).
    assert (Hu : has_id i updated = true) by exact Hidold.
    assert (Hva : valid_amounts updated = true).
    { unfold valid_amounts, updated, amount_ok. simpl.
      rewrite Hv, Hv0, Hv1, Hv2, (invalid_add _ _ Hv0 Hv1). reflexivity. }
    set (d2 := with_students d1 (map_if (has_id i) (renewed_student o vv) (students d1))).
    assert (Hfrom : exists old0 bid,
               student_by_id i d1 = Some old0 /\
               pg_int_null (r_branch_id (renewal b old0)) = Some bid /\
               updated = renewed_student bid (renewal b old0) old0).
    { exists old, o. repeat split; assumption. }
    assert (Hby2 : student_by_id i d2 = Some updated).
    { unfold student_by_id, d2. simpl. rewrite filter_map_if by reflexivity.
      rewrite Hold. reflexivity. }
    assert (Hs2 : same_but_student i d1 d2).
    { unfold same_but_student, d2. simpl.
      rewrite filter_not_map_if by reflexivity. repeat split. }
    assert (Hx2 : exclusive d1 -> exclusive d2).
    { intros Hx. eapply exclusive_same; [|exact Hx]. reflexivity. }
    split; [split; assumption|].
    destruct (seat_and_shifts (seatIdNum b) (shiftIdsNum b)) as [seat|] eqn:Hss.
    - destruct (seat_and_shifts_Some _ _ _ Hss) as (z & -> & _).
      specialize (Hfree z eq_refl).
      intros u sq4 d4 He. exec_inv He.
      set (d3 := with_assignments d2
                   (filter (fun a => negb (of_student i a)) (seat_assignments d2))).
      assert (HJ3 : (fun (done : list num) (d : db) =>
                 students d = students d2 /\
                 student_membership_history d = student_membership_history d1 /\
                 seats d = seats d1 /\ schedules d = schedules d1 /\
                 (exists rows, seat_assignments d
                               = filter (fun a => negb (of_student i a)) (seat_assignments d1)
                                 ++ rows /\
                               assigned_rows z i rows done) /\
                 (exclusive d1 -> exclusive d /\ reserved z i (shiftIdsNum b) d)) [] d3).
      { split; [reflexivity|]. split; [reflexivity|]. split; [reflexivity|].
        split; [reflexivity|]. split.
        - exists []. split; [simpl; rewrite app_nil_r; reflexivity|constructor].
        - intros Hx. split.
          + eapply exclusive_filter; [| |exact Hx]; reflexivity.
          + unfold reserved. simpl. apply reserved_after_delete. exact Hfree. }
      assert (HJI : forall done d,
                 (fun (done : list num) (d : db) =>
                 students d = students d2 /\
                 student_membership_history d = student_membership_history d1 /\
                 seats d = seats d1 /\ schedules d = schedules d1 /\
                 (exists rows, seat_assignments d
                               = filter (fun a => negb (of_student i a)) (seat_assignments d1)
                                 ++ rows /\
                               assigned_rows z i rows done) /\
                 (exclusive d1 -> exclusive d /\ reserved z i (shiftIdsNum b) d)) done d ->
                 same_but_student i d1 d /\ (exclusive d1 -> exclusive d)).
      { intros done d (Hst & Hh & Hse & Hsc & (rows & Hsa & Hrows) & Hex).
        split; [|intros Hx; exact (proj1 (Hex Hx))].
        destruct Hs2 as (Hs21 & _).
        unfold same_but_student. rewrite Hst, Hh, Hse, Hsc, Hsa, filter_app, filter_twice.
        rewrite (proj2 (assigned_rows_of_student _ _ _ _ Hrows)), app_nil_r.
        repeat split. exact Hs21. }
      split; [exact (HJI _ _ HJ3)|].
      eapply along_insert_assignments
        with (all := shiftIdsNum b) (done := [])
             (J := fun (done : list num) (d : db) =>
                 students d = students d2 /\
                 student_membership_history d = student_membership_history d1 /\
                 seats d = seats d1 /\ schedules d = schedules d1 /\
                 (exists rows, seat_assignments d
                               = filter (fun a => negb (of_student i a)) (seat_assignments d1)
                                 ++ rows /\
                               assigned_rows z i rows done) /\
                 (exclusive d1 -> exclusive d /\ reserved z i (shiftIdsNum b) d));
        [exact HJI| | |reflexivity|exact HJ3].
      + intros done aid j d Hj (Hst & Hh & Hse & Hsc & (rows & Hsa & Hrows) & Hex).
        split; [exact Hst|]. split; [exact Hh|]. split; [exact Hse|].
        split; [exact Hsc|]. split.
        * exists (rows ++ [mkAssignment aid z j i]). simpl. rewrite Hsa, app_assoc.
          split; [reflexivity|]. apply assigned_rows_snoc. exact Hrows.
        * intros Hx. apply reserved_insert; [exact Hj|exact (Hex Hx)].
      + intros first sq5 d5 HJ. pose proof (HJI _ _ HJ) as [Hsb Hx5].
        destruct HJ as (Hst & Hh & Hse & Hsc & (rows & Hsa & Hrows) & Hex).
        apply Hhist; try assumption.
        -- unfold student_by_id. rewrite Hst. exact Hby2.
        -- exists z, rows. auto.
    - apply Hhist; try assumption; reflexivity. }
  destruct (seat_and_shifts (seatIdNum b) (shiftIdsNum b)) as [seat|] eqn:Hss.
  - destruct (seat_and_shifts_Some _ _ _ Hss) as (z & -> & _).
    apply along_check_conflicts
      with (free := fun s => exists j, s = Fin j /\
                      filter (fun a => at_seat_shift z j a && negb (of_student i a))
                        (seat_assignments d1) = [])
           (held := fun s => exists j, s = Fin j /\ taken_by_other z j i d1);
      [exact Hinv0|intros s v sq' d' He; exact (find_other_spec _ _ _ _ _ _ _ _ _ He)| |].
    + intros s Hs (j & -> & Ht). cbn. split; [reflexivity|]. split; [reflexivity|].
      exists i, z, j. auto.
    + intros Hfree. apply Hupd. intros z' Hz. inversion Hz; subst z'. exact Hfree.
  - apply Hupd. discriminate.
Qed.

(** ** PUT /:id, statement by statement *)



(** ** Answers and their status *)

Lemma create_refusal_fails (b : body) (d : db) (r : response) (m : message) :
  create_refusal b d (code r) m -> succeeded r = false.
Proof. unfold succeeded. intros [-> _]. reflexivity. Qed.


Lemma renew_refusal_fails (id : num) (b : body) (d : db) (r : response) (m : message) :
  renew_refusal id b d (code r) m -> succeeded r = false.
Proof.
  unfold succeeded, renew_refusal.
  destruct m; try (intros [-> _]; reflexivity); intros [].
Qed.

(** A renew whose id does not parse stops at its first query. *)
Lemma renew_body_unparsed (now : Z) (id_param : jsval) (b : body) (sq : seqs) (d0 : db) :
  parseInt id_param = NaN ->
  along (fun d => d = d0)
    (fun r d' => d' = d0 /\ r = reply 400 DatesRequired /\
                 truthy_date (membership_start b) && truthy_date (membership_end b) = false)
    now (renew_body id_param b) sq d0.
Proof.
  intros Hid. unfold renew_body. cbv zeta. rewrite Hid.
  destruct (negb (truthy_date (membership_start b)) || negb (truthy_date (membership_end b)))
    eqn:Hdates.
  - cbn. repeat split.
    destruct (truthy_date (membership_start b)), (truthy_date (membership_end b));
      try reflexivity; discriminate.
  - apply unparsed_id_along. reflexivity.
Qed.

(** ** Seats stay exclusive *)









(** ** Delete *)

Lemma delete_body_unparsed (now : Z) (id_param : jsval) (sq : seqs) (d0 : db) :
  parseInt id_param = NaN ->
  along (fun d => d = d0) (fun _ _ => False) now (delete_body id_param) sq d0.
Proof.
  intros Hid. unfold delete_body. cbv zeta. rewrite Hid.
  apply unparsed_id_along. reflexivity.
Qed.

(** X4.  DELETE /:id concerns one student only.  Wherever it stops, the
    rows of the other students, their seat assignments and their history
    are as before.  When it answers anything but 500, every row that
    carries the id is gone from the three tables: the answer is 200 with
    the deleted row if there was a student of that id, and 404 otherwise
    (orphaned assignments and history rows of that id are deleted all
    the same).  An id that is not a number is answered 500 and changes
    nothing. *)
Theorem delete_removes_one_student (faults : nat -> bool) (now : Z) (id_param : jsval)
    (w w' : world) (o : outcome) :
  delete_student faults now id_param w = (o, w') ->
  match parseInt id_param with
  | Fin i =>
      same_but_student i (committed w) (committed w') /\
      exists r, o = Responded r /\
        (r = reply 500 ServerError \/
         committed w' = purged i (committed w) /\
         r = match student_by_id i (committed w) with
             | Some s => mkResponse 200 (StudentRow s)
             | None => reply 404 StudentNotFound
             end)
  | NaN => o = Responded (reply 500 ServerError) /\ committed w' = committed w
  end.
Proof.
  intros H. unfold delete_student in H.
  destruct (parseInt id_param) as [|i] eqn:Hid.
  - pose proof (delete_body_unparsed now id_param (serials w) (committed w) Hid) as Ha.
    destruct (along_pool_route _ _ _ _ _ _ _ _ _
                (delete_body_autocommits id_param) eq_refl Ha H)
      as [-> (r & -> & [->|[]])].
    split; reflexivity.
  - pose proof (delete_body_along now id_param i (serials w) (committed w) Hid) as Ha.
    exact (along_pool_route _ _ _ _ _ _ _ _ _
             (delete_body_autocommits id_param)
             (same_but_student_refl i (committed w)) Ha H).
Qed.

Lemma delete_removes_one_student_witness :
  let deleted := delete_student no_faults sample_now (JText (Fin 2)) library_world in
  fst deleted = Responded (mkResponse 200 (StudentRow chitra)) /\
  committed (snd deleted) = purged 2 library /\
  same_but_student 2 library (committed (snd deleted)).
Proof.
  pose proof (delete_removes_one_student no_faults sample_now (JText (Fin 2)) library_world
                _ _ (surjective_pairing _)) as H.
  cbn [parseInt] in H. destruct H as (Hsame & r & Hr & [E|[Hp E]]).
  - exfalso. rewrite E in Hr. cbv in Hr. discriminate.
  - cbv zeta. rewrite Hr, E. repeat split; assumption.
Defined.

(** ** Create, then delete *)

Lemma exec_keeps_seats (T : Type) (q : sql T) (now : Z) (sq sq' : seqs) (d d' : db) (v : T) :
  exec q now sq d = Some (v, sq', d') ->
  seats d' = seats d /\ schedules d' = schedules d.
Proof.
  destruct q; simpl;
    repeat match goal with
           | |- context [pg_int_null ?x] => destruct (pg_int_null x); simpl
           | |- context [pg_int ?x] => destruct x; simpl
           end;
    intros H; inversion H; subst; simpl; auto.
Qed.

Lemma course_keeps_seats (now : Z) (p : prog) :
  forall (sq : seqs) (d d' : db) (r : response),
    course now p sq d = Some (r, d') ->
    seats d' = seats d /\ schedules d' = schedules d.
Proof.
  induction p as [r0| |T c q k IH]; intros sq d d' r H; simpl in H.
  - inversion H; subst. auto.
  - discriminate.
  - destruct (exec q now sq d) as [[[v sq1] d1]|] eqn:He; [|discriminate].
    destruct (exec_keeps_seats _ _ _ _ _ _ _ _ He) as [E1 E2].
    destruct (IH _ _ _ _ _ H) as [E3 E4]. split; congruence.
Qed.

Lemma filter_negb_all {A : Type} (p : A -> bool) (l : list A) :
  filter p l = [] -> filter (fun x => negb (p x)) l = l.
Proof.
  induction l as [|x l IH]; simpl; [reflexivity|].
  destruct (p x); [discriminate|]. simpl. intros H. rewrite IH by exact H. reflexivity.
Qed.

Lemma db_ext (d d' : db) :
  students d' = students d -> seats d' = seats d -> schedules d' = schedules d ->
  seat_assignments d' = seat_assignments d ->
  student_membership_history d' = student_membership_history d ->
  d' = d.
Proof. destruct d, d'; simpl. intros; subst; reflexivity. Qed.

(** X5.  Create followed by delete of the student it returned gives back
    the database that was there before the create, provided that the
    serial the new row drew was carried by no row of any table: the
    delete answers 200 with the row the create answered, and the
    students, the seat assignments and the history are what they were. *)
Theorem create_then_delete_restores (faults faults' : nat -> bool) (now now' : Z)
    (b : body) (w w1 w2 : world) (s : student) (r2 : response) :
  tx w = None ->
  unused_id (next_student_id (serials w)) (committed w) ->
  post_student faults now b w = (Responded (mkResponse 201 (StudentRow s)), w1) ->
  delete_student faults' now' (JText (Fin (s_id s))) w1 = (Responded r2, w2) ->
  r2 <> reply 500 ServerError ->
  r2 = mkResponse 200 (StudentRow s) /\ committed w2 = committed w.
Proof.
  intros Htx (Hu1 & Hu2 & Hu3) Hpost Hdel Hr2.
  apply post_student_answer in Hpost; [|exact Htx].
  destruct Hpost as [[E _]|(df & Hco & Hdf)]; [discriminate|].
  change (succeeded (mkResponse 201 (StudentRow s))) with true in Hdf. cbv iota in Hdf.
  destruct (course_keeps_seats _ _ _ _ _ _ Hco) as [Hse Hsc].
  destruct (post_course _ _ _ _ _ _ Hco eq_refl)
    as (bid & rows & hrow & _ & _ & _ & _ & _ & Er & Hst & Hsa & Hrows & Hh & Hhid).
  cbv zeta in Er, Hst. injection Er as Es. rewrite <- Es in Hst.
  assert (Hid : s_id s = next_student_id (serials w)) by (rewrite Es; reflexivity).
  clear Es.
  assert (Hrows' : filter (fun a => negb (of_student (s_id s) a)) rows = []).
  { destruct (seat_and_shifts (seatIdNum b) (shiftIdsNum b)).
    - destruct Hrows as (z & _ & Hrows & _). rewrite Hid.
      exact (proj2 (assigned_rows_of_student _ _ _ _ Hrows)).
    - subst rows. reflexivity. }
  unfold delete_student in Hdel.
  pose proof (delete_body_along now' (JText (Fin (s_id s))) (s_id s) (serials w1)
                (committed w1) eq_refl) as Ha.
  destruct (along_pool_route _ _ _ _ _ _ _ _ _
              (delete_body_autocommits _) (same_but_student_refl _ _) Ha Hdel)
    as [_ (r & Er & Hr)].
  inversion Er; subst r; clear Er. destruct Hr as [E|[Hp E]]; [contradiction|].
  rewrite Hdf in *. rewrite <- Hid in Hu1, Hu2, Hu3, Hhid.
  assert (Hs : has_id (s_id s) s = true) by apply Z.eqb_refl.
  split.
  - rewrite E. unfold student_by_id. rewrite Hst, filter_app, Hu1. cbn [filter app].
    rewrite Hs. reflexivity.
  - rewrite Hp. apply db_ext; cbn [purged students seats schedules seat_assignments
                                   student_membership_history]; try assumption.
    + rewrite Hst, filter_app, (filter_negb_all _ _ Hu1). cbn [filter]. rewrite Hs.
      apply app_nil_r.
    + rewrite Hsa, filter_app, (filter_negb_all _ _ Hu2), Hrows'. apply app_nil_r.
    + rewrite Hh, filter_app, (filter_negb_all _ _ Hu3). cbn [filter].
      unfold history_of at 1. rewrite Hhid, Z.eqb_refl. apply app_nil_r.
Qed.

Lemma create_then_delete_restores_witness :
  let created := post_student no_faults sample_now bela library_world in
  exists s,
    fst created = Responded (mkResponse 201 (StudentRow s)) /\
    let deleted := delete_student no_faults sample_now (JText (Fin (s_id s))) (snd created) in
    fst deleted = Responded (mkResponse 200 (StudentRow s)) /\
    committed (snd deleted) = library.
Proof.
  cbv zeta. eexists. split; [cbv; reflexivity|].
  match goal with |- fst ?del = Responded ?r /\ _ =>
    assert (Hdel : del = (Responded r, snd del))
      by (rewrite (surjective_pairing del) at 1; f_equal; cbv; reflexivity);
    split; [rewrite Hdel; reflexivity|];
    refine (proj2 (create_then_delete_restores no_faults no_faults sample_now sample_now bela
                     library_world _ _ _ _ eq_refl _ _ Hdel _))
  end.
  - cbv. repeat split.
  - match goal with |- ?p = _ => rewrite (surjective_pairing p) at 1 end.
    reflexivity.
  - cbv. discriminate.
Defined.

(** ** Renew *)

(** X6.  Renew concerns one student only, wherever it stops: the rows of
    the other students, their seat assignments and their history are as
    before, although the statements are committed one by one.  An id
    that is not a number changes nothing at all. *)
Theorem renew_touches_one_student (faults : nat -> bool) (now : Z) (id_param : jsval)
    (b : body) (w w' : world) (o : outcome) :
  renew_student faults now id_param b w = (o, w') ->
  match parseInt id_param with
  | Fin i => same_but_student i (committed w) (committed w')
  | NaN => committed w' = committed w
  end.
Proof.
  intros H. unfold renew_student in H.
  destruct (parseInt id_param) as [|i] eqn:Hid.
  - pose proof (renew_body_unparsed now id_param b (serials w) (committed w) Hid) as Ha.
    exact (proj1 (along_pool_route _ _ _ _ _ _ _ _ _
                    (renew_body_autocommits id_param b) eq_refl Ha H)).
  - pose proof (renew_body_along now id_param b i (serials w) (committed w) Hid) as Ha.
    exact (proj1 (proj1 (along_pool_route _ _ _ _ _ _ _ _ _
                           (renew_body_autocommits id_param b)
                           (conj (same_but_student_refl i (committed w)) (fun H0 => H0))
                           Ha H))).
Qed.

Lemma renew_touches_one_student_witness :
  let renewed :=
    renew_student fifth_query_fails sample_now (JText (Fin 1)) asha_renews library_world in
  fst renewed = Responded (reply 500 ServerError) /\
  committed (snd renewed) <> library /\
  same_but_student 1 library (committed (snd renewed)).
Proof.
  cbv zeta. split; [reflexivity|]. split; [cbv; discriminate|].
  exact (renew_touches_one_student fifth_query_fails sample_now (JText (Fin 1)) asha_renews
           library_world _ _ (surjective_pairing _)).
Defined.

(** What the answers of renew say, for a numeric id. *)
Lemma renew_student_answer (faults : nat -> bool) (now : Z) (id_param : jsval) (b : body)
    (w w' : world) (r : response) :
  renew_student faults now id_param b w = (Responded r, w') ->
  match content r with
  | Message m =>
      r = reply 500 ServerError \/
      committed w' = committed w /\ renew_refusal (parseInt id_param) b (committed w) (code r) m
  | StudentRow s =>
      exists i, parseInt id_param = Fin i /\
        code r = 200 /\ has_id i s = true /\ valid_amounts s = true /\
        (exists old bid,
            student_by_id i (committed w) = Some old /\
            pg_int_null (r_branch_id (renewal b old)) = Some bid /\
            s = renewed_student bid (renewal b old) old) /\
        student_by_id i (committed w') = Some s /\
        (exists h, student_membership_history (committed w')
                   = student_membership_history (committed w) ++ [h] /\
                   snapshot_of s now h) /\
        match seat_and_shifts (seatIdNum b) (shiftIdsNum b) with
        | Some seat =>
            exists z rows, seat = Fin z /\
              seat_assignments (committed w')
              = filter (fun a => negb (of_student i a)) (seat_assignments (committed w))
                ++ rows /\
              assigned_rows z i rows (shiftIdsNum b)
        | None => seat_assignments (committed w') = seat_assignments (committed w)
        end
  end.
Proof.
  intros H. unfold renew_student in H.
  destruct (parseInt id_param) as [|i] eqn:Hid.
  - pose proof (renew_body_unparsed now id_param b (serials w) (committed w) Hid) as Ha.
    destruct (along_pool_route _ _ _ _ _ _ _ _ _
                (renew_body_autocommits id_param b) eq_refl Ha H)
      as [_ (r0 & E & [->|(Hc & -> & Hd)])]; inversion E; subst r.
    + left. reflexivity.
    + right. split; [exact Hc|]. split; [reflexivity|exact Hd].
  - pose proof (renew_body_along now id_param b i (serials w) (committed w) Hid) as Ha.
    destruct (along_pool_route _ _ _ _ _ _ _ _ _
                (renew_body_autocommits id_param b)
                (conj (same_but_student_refl i (committed w)) (fun H0 => H0)) Ha H)
      as [_ (r0 & E & [->|HQ])]; inversion E; subst r.
    + left. reflexivity.
    + cbv beta in HQ. destruct (content r0) as [m|s].
      * right. exact HQ.
      * exists i. split; [reflexivity|exact HQ].
Qed.

(** X7.  A refusal of renew is truthful and writes nothing.  An answer
    of renew that carries a message is either the 500 of the [catch]
    block or comes with the committed database unchanged, and then the
    message is justified by the request and that database: 400 for
    missing dates, for an invalid amount and for a seat that another
    student holds in one of the shifts, 404 for a student that does not
    exist.  Renew never answers that a seat or a shift does not exist. *)
Theorem renew_refusals_are_truthful (faults : nat -> bool) (now : Z) (id_param : jsval)
    (b : body) (w w' : world) (r : response) (m : message) :
  renew_student faults now id_param b w = (Responded r, w') ->
  content r = Message m ->
  r = reply 500 ServerError \/
  committed w' = committed w /\
  renew_refusal (parseInt id_param) b (committed w) (code r) m.
Proof.
  intros H Hm. apply renew_student_answer in H. rewrite Hm in H. exact H.
Qed.

Lemma renew_refusals_are_truthful_witness :
  let renewed :=
    renew_student no_faults sample_now (JText (Fin 1)) asha_on_chitra_seat library_world in
  fst renewed = Responded (reply 400 (SeatTaken (Fin 1))) /\
  committed (snd renewed) = library /\
  taken_by_other 11 1 1 library.
Proof.
  cbv zeta. split; [reflexivity|].
  destruct (renew_refusals_are_truthful no_faults sample_now (JText (Fin 1))
              asha_on_chitra_seat library_world _ (reply 400 (SeatTaken (Fin 1)))
              (SeatTaken (Fin 1)) (surjective_pairing _) eq_refl)
    as [E|[Hc (_ & i & z & j & Ei & Ez & Ej & _ & Ht)]]; [discriminate|].
  split; [exact Hc|].
  inversion Ei; inversion Ez; inversion Ej; subst. exact Ht.
Defined.

(** X8.  Renew always appends to the history.  A renewal that answers
    with the student row has added exactly one row to
    [student_membership_history], after the rows that were there, which
    are left as they were: a snapshot of the row it answers, stamped with
    the time of the request. *)
Theorem renew_appends_history (faults : nat -> bool) (now : Z) (id_param : jsval)
    (b : body) (w w' : world) (r : response) (s : student) :
  renew_student faults now id_param b w = (Responded r, w') ->
  content r = StudentRow s ->
  code r = 200 /\
  exists h,
    student_membership_history (committed w')
    = student_membership_history (committed w) ++ [h] /\
    snapshot_of s now h.
Proof.
  intros H Hs. apply renew_student_answer in H. rewrite Hs in H.
  destruct H as (i & _ & Hc & _ & _ & _ & _ & Hh & _). split; assumption.
Qed.

Lemma renew_appends_history_witness :
  let renewed :=
    renew_student no_faults sample_now (JText (Fin 1)) asha_renews library_world in
  exists s h,
    fst renewed = Responded (mkResponse 200 (StudentRow s)) /\
    student_membership_history (committed (snd renewed))
    = [asha_enrolled; chitra_enrolled; h] /\
    snapshot_of s sample_now h.
Proof.
  cbv zeta. eexists. 
  match goal with |- exists h, fst ?p = Responded ?r /\ _ =>
    assert (Hp : p = (Responded r, snd p))
      by (rewrite (surjective_pairing p) at 1; f_equal; cbv; reflexivity);
    destruct (renew_appends_history no_faults sample_now (JText (Fin 1)) asha_renews
                library_world _ r _ Hp eq_refl) as (_ & h & Hh & Hsnap);
    exists h; split; [rewrite Hp; reflexivity|]; split; [exact Hh|exact Hsnap]
  end.
Defined.

(** X9.  Renew replaces the seat assignments only when it is given a
    seat.  After a renewal that answers with the student row: with a
    seat and a non-empty list of shifts, the student's former assignments
    are gone and there is one new row per shift on that seat; without,
    the seat assignments are all as before (where an update would have
    deleted the student's). *)
Theorem renew_replaces_assignments_only_with_seat (faults : nat -> bool) (now : Z)
    (id_param : jsval) (b : body) (w w' : world) (r : response) (s : student) :
  renew_student faults now id_param b w = (Responded r, w') ->
  content r = StudentRow s ->
  match seat_and_shifts (seatIdNum b) (shiftIdsNum b) with
  | Some seat =>
      exists z rows, seat = Fin z /\
        seat_assignments (committed w')
        = filter (fun a => negb (of_student (s_id s) a)) (seat_assignments (committed w))
          ++ rows /\
        assigned_rows z (s_id s) rows (shiftIdsNum b)
  | None => seat_assignments (committed w') = seat_assignments (committed w)
  end.
Proof.
  intros H Hs. apply renew_student_answer in H. rewrite Hs in H.
  destruct H as (i & _ & _ & Hi & _ & _ & _ & _ & Hsa).
  apply Z.eqb_eq in Hi. rewrite Hi. exact Hsa.
Qed.

Lemma renew_replaces_assignments_only_with_seat_witness :
  let by_phone :=
    renew_student no_faults sample_now (JText (Fin 1)) asha_renews_by_phone library_world in
  let on_seat :=
    renew_student no_faults sample_now (JText (Fin 1)) asha_renews library_world in
  seat_assignments (committed (snd by_phone)) = seat_assignments library /\
  map triple (seat_assignments (committed (snd on_seat))) = [(11, 1, 2); (10, 1, 1); (10, 2, 1)].
Proof.
  cbv zeta. split.
  - refine (renew_replaces_assignments_only_with_seat no_faults sample_now (JText (Fin 1))
              asha_renews_by_phone library_world _ _ _ _ _);
      [match goal with |- ?p = _ => rewrite (surjective_pairing p) at 1 end;
       f_equal; cbv; reflexivity
      |reflexivity].
  - reflexivity.
Defined.


Lemma amount_ok_intro (n : num) : invalid n = false -> amount_ok (Some n) = true.
Proof. simpl. intros ->. reflexivity. Qed.





(** X11.  Renew changes the membership, never the person.  The row a
    renewal answers is the stored row of that id; its id, name, address
    and profile image are the ones it had; email, phone and branch are
    kept where the request gives none (an empty email or phone is a
    value and is stored); the dates are those of the request, and a
    request without a remark clears the stored one. *)
Theorem renew_keeps_the_person (faults : nat -> bool) (now : Z) (id_param : jsval)
    (b : body) (w w' : world) (r : response) (s : student) :
  renew_student faults now id_param b w = (Responded r, w') ->
  content r = StudentRow s ->
  exists i old,
    parseInt id_param = Fin i /\
    student_by_id i (committed w) = Some old /\
    student_by_id i (committed w') = Some s /\
    s_id s = s_id old /\ s_name s = s_name old /\ s_address s = s_address old /\
    s_profile_image_url s = s_profile_image_url old /\
    s_email s = coalesce (email b) (s_email old) /\
    s_phone s = coalesce (phone b) (s_phone old) /\
    (truthy (branch_id b) = false -> s_branch_id s = s_branch_id old) /\
    (truthy (branch_id b) = true ->
     exists z, parseInt (branch_id b) = Fin z /\ s_branch_id s = Some z) /\
    s_membership_start s = membership_start b /\
    s_membership_end s = membership_end b /\
    s_remark s = or_null (remark b).
Proof.
  intros H Hs. apply renew_student_answer in H. rewrite Hs in H.
  destruct H as (i & Hid & _ & _ & _ & (old & bid & Hold & Hb & Es) & Hnew & _).
  exists i, old. rewrite Es. simpl. simpl in Hb.
  repeat split; try assumption; try reflexivity.
  - rewrite <- Es. exact Hnew.
  - intros Ht. rewrite Ht in Hb. injection Hb as <-. reflexivity.
  - intros Ht. rewrite Ht in Hb. simpl in Hb.
    destruct (parseInt (branch_id b)) as [|z]; [discriminate|].
    injection Hb as <-. exists z. split; reflexivity.
Qed.

Lemma renew_keeps_the_person_witness :
  let renewed :=
    renew_student no_faults sample_now (JText (Fin 2)) asha_renews_by_phone library_world in
  exists s,
    fst renewed = Responded (mkResponse 200 (StudentRow s)) /\
    s_name s = s_name chitra /\ s_email s = s_email chitra /\
    s_phone s = Some "9000000009"%string /\ s_branch_id s = s_branch_id chitra /\
    s_remark s = None.
Proof.
  cbv zeta. eexists.
  match goal with |- fst ?p = Responded ?r /\ _ =>
    assert (Hp : p = (Responded r, snd p))
      by (rewrite (surjective_pairing p) at 1; f_equal; cbv; reflexivity);
    destruct (renew_keeps_the_person no_faults sample_now (JText (Fin 2))
                asha_renews_by_phone library_world _ r _ Hp eq_refl)
      as (i & old & Ei & Eold & _ & _ & Hn & _ & _ & He & Hph & Hbr & _ & _ & _ & Hre);
    split; [rewrite Hp; reflexivity|]
  end.
  injection Ei as <-. cbv in Eold. injection Eold as <-.
  repeat split; assumption.
Defined.

(** ** Refusals of create and update *)

(** X12.  A refusal of create is truthful and writes nothing.  An answer
    of create that carries a message leaves the committed database as it
    was, and is either the 500 of the [catch] block or a 400 whose
    message is justified by the request and the database: a required
    field that is missing, an amount that is not a number or is
    negative, a seat or a shift that does not exist, a seat that is
    already assigned in one of the shifts. *)
Theorem create_refusals_are_truthful (faults : nat -> bool) (now : Z) (b : body)
    (w w' : world) (r : response) (m : message) :
  tx w = None ->
  post_student faults now b w = (Responded r, w') ->
  content r = Message m ->
  committed w' = committed w /\
  (r = reply 500 ServerError \/ create_refusal b (committed w) (code r) m).
Proof.
  intros Htx H Hm. apply post_student_answer in H; [|exact Htx].
  destruct H as [[-> Hc]|(df & Hco & Hc)]; [auto|].
  pose proof (along_course _ _ _ _ _ _ _ _
                (post_body_along now b (serials w) (committed w)) Hco) as HQ.
  cbv beta in HQ. rewrite Hm in HQ.
  rewrite (create_refusal_fails _ _ _ _ HQ) in Hc. auto.
Qed.

Lemma create_refusals_are_truthful_witness :
  let created := post_student no_faults sample_now bela_on_asha_seat library_world in
  fst created = Responded (reply 400 (SeatTaken (Fin 1))) /\
  committed (snd created) = library /\
  taken 10 1 library.
Proof.
  cbv zeta. split; [reflexivity|].
  destruct (create_refusals_are_truthful no_faults sample_now bela_on_asha_seat
              library_world _ (reply 400 (SeatTaken (Fin 1))) (SeatTaken (Fin 1))
              eq_refl (surjective_pairing _) eq_refl)
    as [Hc [E|(_ & z & j & Ez & Ej & _ & Ht)]]; [discriminate|].
  split; [exact Hc|].
  inversion Ez; inversion Ej; subst. exact Ht.
Defined.



(** ** What create and update store *)

(** X14.  A successful create only appends.  It answers 201 with a row
    whose id is the next serial and whose amounts are numbers that are
    not negative; that row is added after the students that were there,
    one assignment row per requested shift (none without a seat) after
    the seat assignments that were there, all of them for the new
    student, and one history row of the new student after the history
    that was there.  Seats and schedules are not touched. *)
Theorem create_only_appends (faults : nat -> bool) (now : Z) (b : body)
    (w w' : world) (r : response) :
  tx w = None ->
  post_student faults now b w = (Responded r, w') ->
  succeeded r = true ->
  exists s rows h,
    r = mkResponse 201 (StudentRow s) /\
    s_id s = next_student_id (serials w) /\ valid_amounts s = true /\
    students (committed w') = students (committed w) ++ [s] /\
    seat_assignments (committed w') = seat_assignments (committed w) ++ rows /\
    match seat_and_shifts (seatIdNum b) (shiftIdsNum b) with
    | Some seat => exists z, seat = Fin z /\ assigned_rows z (s_id s) rows (shiftIdsNum b)
    | None => rows = []
    end /\
    student_membership_history (committed w')
    = student_membership_history (committed w) ++ [h] /\
    h_student_id h = s_id s /\
    seats (committed w') = seats (committed w) /\
    schedules (committed w') = schedules (committed w).
Proof.
  intros Htx H Hr. pose proof (post_student_course _ _ _ _ _ _ Htx H Hr) as Hco.
  destruct (course_keeps_seats _ _ _ _ _ _ Hco) as [Hse Hsc].
  destruct (post_course _ _ _ _ _ _ Hco Hr)
    as (bid & rows & h & Hv1 & Hv2 & Hv3 & Hv4 & Hv5 & Er & Hst & Hsa & Hrows & Hh & Hhid).
  cbv zeta in *. eexists. exists rows, h.
  split; [exact Er|]. split; [reflexivity|].
  split; [unfold valid_amounts; rewrite !andb_true_iff;
          repeat split; apply amount_ok_intro; assumption|].
  split; [exact Hst|]. split; [exact Hsa|].
  split; [|repeat split; assumption].
  destruct (seat_and_shifts (seatIdNum b) (shiftIdsNum b)); [|exact Hrows].
  destruct Hrows as (z & Ez & Hrows & _). exists z. split; assumption.
Qed.

Lemma create_only_appends_witness :
  let created := post_student no_faults sample_now bela library_world in
  exists s h,
    fst created = Responded (mkResponse 201 (StudentRow s)) /\
    s_id s = 4 /\
    students (committed (snd created)) = [asha; chitra; dev; s] /\
    map triple (seat_assignments (committed (snd created)))
    = [(10, 1, 1); (11, 1, 2); (11, 2, 4)] /\
    student_membership_history (committed (snd created))
    = [asha_enrolled; chitra_enrolled; h].
Proof.
  cbv zeta.
  destruct (create_only_appends no_faults sample_now bela library_world _
              (mkResponse 201
                 (StudentRow (inserted_student 4 (Some 1)
                    (mkValues (name bela) (email bela) (phone bela) (address bela)
                       (Some (Fin 1)) (membership_start bela) (membership_end bela)
                       (Fin 1000) (Fin 1200) (Fin (-200)) (Fin 0) (Fin 0) (Fin 0)
                       None None active))))
              eq_refl (surjective_pairing _) eq_refl)
    as (s & rows & h & Er & Hid & _ & Hst & _ & _ & Hh & _).
  exists s, h. injection Er as <-.
  split; [reflexivity|]. split; [reflexivity|]. split; [exact Hst|].
  split; [reflexivity|exact Hh].
Defined.



(** ** All or nothing *)

Lemma tx_route_all_or_nothing (faults : nat -> bool) (now : Z) (k : unit -> prog)
    (w w' : world) (o : outcome) :
  closes_tx (k tt) ->
  tx w = None ->
  with_client
    (try_catch faults now (Query Client BEGIN k) (rollback_reply 500 ServerError)) w
  = (o, w') ->
  in_use w' = in_use w /\
  match o with
  | Responded r =>
      tx w' = None /\
      (if succeeded r
       then course now (Query Client BEGIN k) (serials w) (committed w)
            = Some (r, committed w')
       else committed w' = committed w) /\
      exists l,
        log w' = log w ++ Connect :: l ++
                   [Issued Client (if succeeded r then KCommit else KRollback) true;
                    Sent r; Release]
  | Thrown => committed w' = committed w
  end.
Proof.
  intros Hk Htx H. apply tx_route in H; [|exact Hk|exact Htx].
  destruct H as [Hu H]. split; [exact Hu|]. destruct o as [r|]; [|exact H].
  destruct H as (Ht & Hco & l & Hl). split; [exact Ht|].
  destruct (succeeded r) eqn:Hr.
  - split; [|exists l; exact Hl].
    destruct Hco as [->|(df & Hco & Hdf)]; [discriminate|].
    rewrite (Hdf eq_refl). exact Hco.
  - destruct Hl as [Hc Hl]. split; [exact Hc|exists l; exact Hl].
Qed.

(** X16.  Create is all or nothing.  Whatever the request and whichever
    query is lost: the connection is given back; an answer finds no
    transaction open; the committed database is the one before unless
    the answer is a success, and then it is the end of the fault-free
    course of the whole body; the last statement before a success is
    COMMIT, and before any other answer ROLLBACK.  If the handler throws
    (the ROLLBACK of the [catch] block was lost), nothing is committed
    either. *)
Theorem create_is_all_or_nothing (faults : nat -> bool) (now : Z) (b : body)
    (w w' : world) (o : outcome) :
  tx w = None ->
  post_student faults now b w = (o, w') ->
  in_use w' = in_use w /\
  match o with
  | Responded r =>
      tx w' = None /\
      (if succeeded r
       then course now (post_body now b) (serials w) (committed w) = Some (r, committed w')
       else committed w' = committed w) /\
      exists l,
        log w' = log w ++ Connect :: l ++
                   [Issued Client (if succeeded r then KCommit else KRollback) true;
                    Sent r; Release]
  | Thrown => committed w' = committed w
  end.
Proof.
  intros Htx H. unfold post_student in H.
  destruct (post_body_closes now b) as (k & Heq & Hk).
  rewrite Heq in *. exact (tx_route_all_or_nothing _ _ _ _ _ _ Hk Htx H).
Qed.

Lemma create_is_all_or_nothing_witness :
  let created := post_student third_query_fails sample_now bela library_world in
  fst created = Responded (reply 500 ServerError) /\
  in_use (snd created) = in_use library_world /\
  committed (snd created) = library /\
  exists l, log (snd created)
            = Connect :: l ++ [Issued Client KRollback true; Sent (reply 500 ServerError);
                               Release].
Proof.
  cbv zeta. split; [reflexivity|].
  destruct (create_is_all_or_nothing third_query_fails sample_now bela library_world _
              (Responded (reply 500 ServerError)) eq_refl (surjective_pairing _))
    as (Hu & _ & Hc & l & Hl).
  split; [exact Hu|]. split; [exact Hc|]. exists l. exact Hl.
Defined.



(** ** Reads *)

Lemma insert_by_perm {A : Type} (le : A -> A -> bool) (x : A) (l : list A) :
  Permutation (insert_by le x l) (x :: l).
Proof.
  induction l as [|y l IH]; simpl; [apply Permutation_refl|].
  destruct (le x y); [apply Permutation_refl|].
  eapply Permutation_trans; [apply perm_skip; exact IH|apply perm_swap].
Qed.

(** ORDER BY only reorders. *)
Lemma order_by_perm {A : Type} (le : A -> A -> bool) (l : list A) :
  Permutation (order_by le l) l.
Proof.
  unfold order_by. induction l as [|x l IH]; simpl; [apply perm_nil|].
  eapply Permutation_trans; [apply insert_by_perm|apply perm_skip; exact IH].
Qed.

Lemma order_by_in {A : Type} (le : A -> A -> bool) (l : list A) (x : A) :
  In x (order_by le l) <-> In x l.
Proof.
  split; apply Permutation_in; [|apply Permutation_sym]; apply order_by_perm.
Qed.

Lemma insert_by_sorted {A : Type} (le : A -> A -> bool) (x : A) (l : list A) :
  (forall a b, le a b = false -> le b a = true) ->
  (forall a b c, le a b = true -> le b c = true -> le a c = true) ->
  StronglySorted (fun a b => le a b = true) l ->
  StronglySorted (fun a b => le a b = true) (insert_by le x l).
Proof.
  intros Htot Htr. induction 1 as [|y l Hs IH Hy]; simpl.
  - constructor; constructor.
  - destruct (le x y) eqn:Hxy.
    + constructor; [constructor; assumption|].
      constructor; [exact Hxy|].
      rewrite Forall_forall in *. intros z Hz. exact (Htr _ _ _ Hxy (Hy z Hz)).
    + constructor; [exact IH|].
      rewrite Forall_forall in *. intros z Hz.
      apply (Permutation_in _ (insert_by_perm le x l)) in Hz.
      destruct Hz as [<-|Hz]; [apply Htot; exact Hxy|exact (Hy z Hz)].
Qed.

Lemma order_by_sorted {A : Type} (le : A -> A -> bool) (l : list A) :
  (forall a b, le a b = false -> le b a = true) ->
  (forall a b c, le a b = true -> le b c = true -> le a c = true) ->
  StronglySorted (fun a b => le a b = true) (order_by le l).
Proof.
  intros Htot Htr. unfold order_by. induction l as [|x l IH]; simpl.
  - constructor.
  - apply insert_by_sorted; assumption.
Qed.

Lemma filter_split_perm {A : Type} (p q : A -> bool) (l : list A) :
  (forall x, p x && q x = false) ->
  Permutation (filter p l ++ filter q l) (filter (fun x => p x || q x) l).
Proof.
  intros Hpq. induction l as [|x l IH]; simpl; [apply perm_nil|].
  specialize (Hpq x). destruct (p x), (q x); simpl; try discriminate.
  - apply perm_skip. exact IH.
  - eapply Permutation_trans; [apply Permutation_sym, Permutation_middle|].
    apply perm_skip. exact IH.
  - exact IH.
Qed.

Lemma map_row_shaped (now : Z) (l : list student) : map j_row (map (shaped now) l) = l.
Proof. rewrite map_map. simpl. apply map_id. Qed.

Lemma not_ended_status (now : Z) (s : student) :
  not_ended now s = true -> withCalculatedStatus s now = active.
Proof.
  unfold not_ended, withCalculatedStatus. destruct (s_membership_end s) as [e|]; [|discriminate].
  intros H. apply Z.leb_le in H. destruct (Z.ltb_spec e (CURRENT_DATE now)); [lia|reflexivity].
Qed.

Lemma ended_status (now : Z) (s : student) :
  ended now s = true -> withCalculatedStatus s now = expired.
Proof.
  unfold ended, withCalculatedStatus. destruct (s_membership_end s) as [e|]; [|discriminate].
  intros ->. reflexivity.
Qed.

(** X18.  /active and /expired split the students that have an end
    date.  For the same branch filter and the same day, every student of
    the branch whose [membership_end] is set is in exactly one of the two
    lists, whatever the collation: in /active, shown as active, when the
    membership ends today or later, in /expired, shown as expired, when
    it ended before today.  A student whose [membership_end] is NULL is
    in neither list, although the status computed for such a row is
    active. *)
Theorem active_and_expired_split (faults faults' : nat -> bool)
    (name_le : text -> text -> bool) (now : Z) (branchId : jsval) (d : db)
    (actives expireds : list student_json) :
  get_active faults name_le now branchId d = Json actives ->
  get_expired faults' name_le now branchId d = Json expireds ->
  Permutation (map j_row (actives ++ expireds))
    (filter (fun s => truthy_date (s_membership_end s)
                      && in_branch (branchIdNum branchId) s) (students d)) /\
  Forall (fun j => j_status j = active /\ not_ended now (j_row j) = true) actives /\
  Forall (fun j => j_status j = expired /\ ended now (j_row j) = true) expireds /\
  forall s, In s (students d) -> s_membership_end s = None ->
    ~ In s (map j_row (actives ++ expireds)) /\ withCalculatedStatus s now = active.
Proof.
  unfold get_active, get_expired, pool_query. cbv zeta.
  destruct (faults 0%nat); [discriminate|]. destruct (faults' 0%nat); [discriminate|].
  intros Ha He. injection Ha as <-. injection He as <-.
  set (bn := branchIdNum branchId).
  assert (Hperm :
    Permutation
      (map j_row
         (map (shaped now)
            (order_by (fun s t => name_le (s_name s) (s_name t))
               (filter (fun s => not_ended now s && in_branch bn s) (students d))) ++
          map (shaped now)
            (order_by (fun s t => name_le (s_name s) (s_name t))
               (filter (fun s => ended now s && in_branch bn s) (students d)))))
      (filter (fun s => truthy_date (s_membership_end s) && in_branch bn s) (students d))).
  { rewrite map_app, !map_row_shaped.
    eapply Permutation_trans;
      [apply Permutation_app; apply order_by_perm|].
    eapply Permutation_trans; [apply filter_split_perm|].
    - intros s. unfold not_ended, ended. destruct (s_membership_end s) as [e|]; simpl;
        [|reflexivity].
      destruct (Z.leb_spec (CURRENT_DATE now) e), (Z.ltb_spec e (CURRENT_DATE now));
        simpl; try reflexivity; try lia; destruct (in_branch bn s); reflexivity.
    - erewrite filter_ext; [apply Permutation_refl|].
      intros s. unfold not_ended, ended. destruct (s_membership_end s) as [e|]; simpl;
        [|reflexivity].
      destruct (Z.leb_spec (CURRENT_DATE now) e), (Z.ltb_spec e (CURRENT_DATE now));
        simpl; try reflexivity; try lia; destruct (in_branch bn s); reflexivity. }
  split; [exact Hperm|]. split; [|split].
  - rewrite Forall_forall. intros j Hj. apply in_map_iff in Hj.
    destruct Hj as (s & <- & Hs). apply order_by_in in Hs. apply filter_In in Hs.
    destruct Hs as [_ Hs]. apply andb_prop in Hs. destruct Hs as [Hs _].
    simpl. split; [apply not_ended_status|]; exact Hs.
  - rewrite Forall_forall. intros j Hj. apply in_map_iff in Hj.
    destruct Hj as (s & <- & Hs). apply order_by_in in Hs. apply filter_In in Hs.
    destruct Hs as [_ Hs]. apply andb_prop in Hs. destruct Hs as [Hs _].
    simpl. split; [apply ended_status|]; exact Hs.
  - intros s Hin Hnone. split.
    + intros Hs. apply (Permutation_in _ Hperm) in Hs. apply filter_In in Hs.
      rewrite Hnone in Hs. destruct Hs as [_ Hs]. discriminate.
    + unfold withCalculatedStatus. rewrite Hnone. reflexivity.
Qed.

Lemma active_and_expired_split_witness :
  exists actives expireds,
    get_active no_faults by_length sample_now JUndefined library = Json actives /\
    get_expired no_faults by_length sample_now JUndefined library = Json expireds /\
    map j_row actives = [chitra] /\ map j_row expireds = [asha] /\
    Permutation (map j_row (actives ++ expireds)) [asha; chitra] /\
    ~ In dev (map j_row (actives ++ expireds)).
Proof.
  eexists. eexists. split; [reflexivity|]. split; [reflexivity|].
  split; [reflexivity|]. split; [reflexivity|].
  destruct (active_and_expired_split no_faults no_faults by_length sample_now JUndefined
              library _ _ eq_refl eq_refl) as (Hp & _ & _ & Hn).
  split; [exact Hp|]. apply (Hn dev); [right; right; left; reflexivity|reflexivity].
Defined.

Lemma date_le_total (a b : date) : date_le a b = false -> date_le b a = true.
Proof.
  destruct a as [x|], b as [y|]; simpl; try reflexivity; try discriminate.
  intros H. apply Z.leb_gt in H. apply Z.leb_le. lia.
Qed.

Lemma date_le_trans (a b c : date) :
  date_le a b = true -> date_le b c = true -> date_le a c = true.
Proof.
  destruct a as [x|], b as [y|], c as [z|]; simpl; try reflexivity; try discriminate.
  intros H1 H2. apply Z.leb_le in H1, H2. apply Z.leb_le. lia.
Qed.

(** The parameter of /expiring-soon falls on the thirtieth day from
    today. *)
Lemma ends_by_thirty_days (now : Z) (s : student) :
  ends_by (thirtyDaysFromNow now) s = true <->
  exists e, s_membership_end s = Some e /\ e <= CURRENT_DATE now + 30.
Proof.
  unfold ends_by, thirtyDaysFromNow, CURRENT_DATE.
  assert (Hm : 0 < msPerDay) by reflexivity.
  assert (Hdiv : (now + 30 * msPerDay) / msPerDay = now / msPerDay + 30)
    by (apply Z.div_add; discriminate).
  destruct (s_membership_end s) as [e|].
  - rewrite Z.leb_le. split.
    + intros H. exists e. split; [reflexivity|]. rewrite <- Hdiv.
      apply Z.div_le_lower_bound; [exact Hm|]. rewrite Z.mul_comm. exact H.
    + intros (e' & E & H). injection E as <-. rewrite <- Hdiv in H.
      pose proof (Z.mul_div_le (now + 30 * msPerDay) msPerDay Hm) as Hle.
      nia.
  - split; [discriminate|]. intros (e & E & _). discriminate.
Qed.

(** X19.  /expiring-soon is the part of /active that ends within thirty
    days.  It lists exactly the students of the branch whose membership
    ends on one of the 31 days from today to today + 30, each by its
    stored row, shown as active, by ascending end date; all of them are
    in the /active list of the same day and branch. *)
Theorem expiring_soon_is_a_window_of_active (faults faults' : nat -> bool)
    (name_le : text -> text -> bool) (now : Z) (branchId : jsval) (d : db)
    (soon : list student_json) :
  get_expiring_soon faults now branchId d = Json soon ->
  (forall s, In s (map j_row soon) <->
             In s (students d) /\ in_branch (branchIdNum branchId) s = true /\
             exists e, s_membership_end s = Some e /\
                       CURRENT_DATE now <= e <= CURRENT_DATE now + 30) /\
  StronglySorted (fun a b => j_membership_end a <= j_membership_end b) soon /\
  Forall (fun j => j = shaped now (j_row j) /\ j_status j = active) soon /\
  forall actives, get_active faults' name_le now branchId d = Json actives ->
                  incl soon actives.
Proof.
  unfold get_expiring_soon, get_active, pool_query. cbv zeta.
  destruct (faults 0%nat); [discriminate|]. intros H. injection H as <-.
  set (bn := branchIdNum branchId).
  set (window := fun s => not_ended now s && ends_by (thirtyDaysFromNow now) s
                          && in_branch bn s).
  assert (Hwin : forall s, window s = true <->
            in_branch bn s = true /\
            exists e, s_membership_end s = Some e /\
                      CURRENT_DATE now <= e <= CURRENT_DATE now + 30).
  { intros s. unfold window. rewrite !andb_true_iff, ends_by_thirty_days.
    unfold not_ended. split.
    - intros [[H1 (e & E & H2)] H3]. split; [exact H3|]. exists e.
      rewrite E in H1. apply Z.leb_le in H1. auto.
    - intros [H3 (e & E & H1 & H2)]. rewrite E. repeat split; [apply Z.leb_le; exact H1| |exact H3].
      exists e. auto. }
  split; [|split; [|split]].
  - intros s. rewrite map_row_shaped, order_by_in, filter_In, Hwin. tauto.
  - match goal with |- context [order_by ?le ?l] =>
      pose proof (order_by_sorted le l
                    (fun a b => date_le_total _ _) (fun a b c => date_le_trans _ _ _)) as Hs;
      assert (Hall : Forall (fun s => window s = true) (order_by le l))
    end.
    { rewrite Forall_forall. intros s Hs'. apply order_by_in in Hs'.
      apply filter_In in Hs'. tauto. }
    induction Hs as [|s l Hs IH Hle]; simpl; constructor.
    + apply IH. inversion Hall; assumption.
    + inversion Hall as [|? ? Hws Hwl]; subst. apply Hwin in Hws.
      destruct Hws as (_ & e & E & _).
      rewrite Forall_forall in *. intros j Hj. apply in_map_iff in Hj.
      destruct Hj as (t & <- & Ht). specialize (Hle t Ht). specialize (Hwl t Ht).
      apply Hwin in Hwl. destruct Hwl as (_ & e' & E' & _).
      simpl. rewrite E, E' in *. simpl in *. apply Z.leb_le. exact Hle.
  - rewrite Forall_forall. intros j Hj. apply in_map_iff in Hj.
    destruct Hj as (s & <- & Hs). split; [reflexivity|].
    apply order_by_in in Hs. apply filter_In in Hs. destruct Hs as [_ Hs].
    unfold window in Hs. rewrite !andb_true_iff in Hs.
    simpl. apply not_ended_status. tauto.
  - destruct (faults' 0%nat); [discriminate|]. intros actives Ha. injection Ha as <-.
    intros j Hj. apply in_map_iff in Hj. destruct Hj as (s & <- & Hs).
    apply in_map. apply order_by_in. apply order_by_in in Hs.
    apply filter_In in Hs. apply filter_In.
    unfold window in Hs. rewrite !andb_true_iff in Hs. rewrite andb_true_iff. tauto.
Qed.

Lemma expiring_soon_is_a_window_of_active_witness :
  exists soon,
    get_expiring_soon no_faults sample_now JUndefined library = Json soon /\
    map j_row soon = [chitra] /\
    CURRENT_DATE sample_now = 19675 /\
    forall actives, get_active no_faults by_length sample_now JUndefined library
                    = Json actives -> incl soon actives.
Proof.
  eexists. split; [reflexivity|]. split; [reflexivity|]. split; [reflexivity|].
  exact (proj2 (proj2 (proj2
           (expiring_soon_is_a_window_of_active no_faults no_faults by_length sample_now
              JUndefined library _ eq_refl)))).
Defined.

(** X20.  The branch filter is applied only for a number other than 0.
    A [branchId] that is absent, empty, ["0"] or not a number gives the
    lists of all the branches, the same as no [branchId] at all; it is
    not an error. *)
Theorem branch_filter_needs_a_number (faults : nat -> bool)
    (name_le : text -> text -> bool) (now : Z) (branchId : jsval) (d : db) :
  parseInt branchId = NaN \/ parseInt branchId = Fin 0 \/ truthy branchId = false ->
  get_active faults name_le now branchId d = get_active faults name_le now JUndefined d /\
  get_expired faults name_le now branchId d = get_expired faults name_le now JUndefined d /\
  get_expiring_soon faults now branchId d = get_expiring_soon faults now JUndefined d /\
  forall s, in_branch (branchIdNum branchId) s = true.
Proof.
  intros H.
  assert (Hb : forall s, in_branch (branchIdNum branchId) s = true).
  { intros s. unfold in_branch, branchIdNum.
    destruct (truthy branchId); [|reflexivity].
    destruct H as [->|[->|H]]; [reflexivity|reflexivity|discriminate]. }
  assert (Hf : forall p : student -> bool,
             filter (fun s => p s && in_branch (branchIdNum branchId) s) (students d)
             = filter (fun s => p s && in_branch (branchIdNum JUndefined) s) (students d)).
  { intros p. apply filter_ext. intros s. rewrite Hb. reflexivity. }
  unfold get_active, get_expired, get_expiring_soon. cbv zeta.
  rewrite (Hf (not_ended now)), (Hf (ended now)),
    (Hf (fun s => not_ended now s && ends_by (thirtyDaysFromNow now) s)).
  repeat split. exact Hb.
Qed.

Lemma branch_filter_needs_a_number_witness :
  get_active no_faults by_length sample_now (JText (Fin 0)) library
  = get_active no_faults by_length sample_now JUndefined library /\
  get_active no_faults by_length sample_now (JText NaN) library
  = get_active no_faults by_length sample_now JUndefined library /\
  get_active no_faults by_length sample_now (JText (Fin 2)) library = Json [].
Proof.
  split; [|split; [|reflexivity]].
  - apply (branch_filter_needs_a_number no_faults by_length sample_now (JText (Fin 0)) library).
    right. left. reflexivity.
  - apply (branch_filter_needs_a_number no_faults by_length sample_now (JText NaN) library).
    left. reflexivity.
Defined.

Lemma left_join_cons (key : option Z) (t : list (Z * text)) :
  exists x l, left_join key t = x :: l.
Proof.
  unfold left_join. destruct key as [i|]; [|exists None, []; reflexivity].
  destruct (filter (fun r => fst r =? i) t) as [|r rs]; [exists None, []; reflexivity|].
  exists (snd r), (map snd rs). reflexivity.
Qed.


(** What GET /:id answers when its two queries go through. *)
Lemma get_student_found (faults : nat -> bool) (lb : labels) (now : Z)
    (id_param : jsval) (i : Z) (d : db) (s : student) :
  faults 0%nat = false -> faults 1%nat = false ->
  parseInt id_param = Fin i ->
  student_by_id i d = Some s ->
  exists detail,
    get_student faults lb now id_param d = Json detail /\
    sd_student detail = shaped now s /\
    forall z j, In (z, j) (map (fun a => (aj_seat_id a, aj_shift_id a))
                             (sd_assignments detail)) <->
                exists a, In a (seat_assignments d) /\ triple a = (z, j, i).
Proof.
  intros Hf0 Hf1 Hid Hs. unfold get_student, pool_query. cbv zeta.
  rewrite Hf0, Hf1, Hid. cbn [pg_int bind_opt].
  unfold student_by_id in Hs.
  destruct (filter (has_id i) (students d)) as [|s0 rest]; [discriminate|].
  injection Hs as ->. cbn [flat_map].
  destruct (left_join_cons (s_branch_id s) (branch_names lb)) as (x & l & ->).
  cbn [map app]. eexists. split; [reflexivity|]. split; [reflexivity|].
  cbn [sd_assignments]. intros z j. rewrite in_map_iff. split.
  - intros (aj & E & Hin). apply in_flat_map in Hin. destruct Hin as (a & Ha & Hin).
    apply in_flat_map in Hin. destruct Hin as (n & _ & Hin).
    apply in_map_iff in Hin. destruct Hin as (t & <- & _).
    apply filter_In in Ha. destruct Ha as [Ha Hof]. apply Z.eqb_eq in Hof.
    exists a. split; [exact Ha|]. simpl in E. injection E as <- <-.
    unfold triple. rewrite Hof. reflexivity.
  - intros (a & Ha & E). unfold triple in E. injection E as <- <- Hof.
    destruct (left_join_cons (Some (sa_seat_id a)) (seat_numbers lb)) as (n & ns & En).
    destruct (left_join_cons (Some (sa_shift_id a)) (shift_titles lb)) as (t & ts & Et).
    exists (mkAssignmentJson (sa_seat_id a) (sa_shift_id a) n t). split; [reflexivity|].
    apply in_flat_map. exists a. split.
    + apply filter_In. split; [exact Ha|]. apply Z.eqb_eq. exact Hof.
    + apply in_flat_map. exists n. split; [rewrite En; left; reflexivity|].
      rewrite Et. left. reflexivity.
Qed.


(** ** A write, then a read *)




(** X23.  A deleted student is not found.  After a DELETE /:id that
    answered anything but 500, GET /:id for the same id answers 404 as
    soon as its first query goes through. *)
Theorem deleted_student_is_not_found (faults faults' : nat -> bool) (lb : labels)
    (now now' : Z) (id_param : jsval) (w w' : world) (r : response) :
  delete_student faults now id_param w = (Responded r, w') ->
  r <> reply 500 ServerError ->
  faults' 0%nat = false ->
  get_student faults' lb now' id_param (committed w') = Refusal 404 "Student not found".
Proof.
  intros H Hr Hf0. unfold delete_student in H.
  destruct (parseInt id_param) as [|i] eqn:Hid.
  - pose proof (delete_body_unparsed now id_param (serials w) (committed w) Hid) as Ha.
    destruct (along_pool_route _ _ _ _ _ _ _ _ _
                (delete_body_autocommits id_param) eq_refl Ha H)
      as [_ (r0 & E & Hr0)].
    injection E as E. subst r0. destruct Hr0 as [E|[]]. contradiction.
  - pose proof (delete_body_along now id_param i (serials w) (committed w) Hid) as Ha.
    destruct (along_pool_route _ _ _ _ _ _ _ _ _
                (delete_body_autocommits id_param)
                (same_but_student_refl i (committed w)) Ha H)
      as [_ (r0 & E & Hr0)].
    injection E as E. subst r0. destruct Hr0 as [E|[Hp _]]; [contradiction|].
    unfold get_student, pool_query. cbv zeta. rewrite Hf0, Hid, Hp.
    cbn [pg_int bind_opt purged students]. rewrite filter_none. reflexivity.
Qed.

Lemma deleted_student_is_not_found_witness :
  let deleted := delete_student no_faults sample_now (JText (Fin 2)) library_world in
  (exists detail, get_student no_faults sample_labels sample_now (JText (Fin 2)) library
                  = Json detail) /\
  get_student no_faults sample_labels sample_now (JText (Fin 2)) (committed (snd deleted))
  = Refusal 404 "Student not found".
Proof.
  cbv zeta. split; [eexists; reflexivity|].
  apply (deleted_student_is_not_found no_faults no_faults sample_labels sample_now sample_now
           (JText (Fin 2)) library_world _ (mkResponse 200 (StudentRow chitra)));
    [apply surjective_pairing|discriminate|reflexivity].
Defined.

(** X24.  A renewal into the past is stored active and read expired.
    After a renewal that answered with the student row, for an end date
    that is before the day of a later read, the stored [status] of the
    student is active while GET /:id shows the same row as expired. *)
Theorem renewed_into_the_past_reads_expired (faults faults' : nat -> bool) (lb : labels)
    (now now' : Z) (id_param : jsval) (b : body) (w w' : world) (r : response)
    (s : student) (e : Z) :
  renew_student faults now id_param b w = (Responded r, w') ->
  content r = StudentRow s ->
  membership_end b = Some e ->
  e < CURRENT_DATE now' ->
  faults' 0%nat = false -> faults' 1%nat = false ->
  s_status s = active /\
  exists detail,
    get_student faults' lb now' id_param (committed w') = Json detail /\
    j_row (sd_student detail) = s /\
    j_status (sd_student detail) = expired.
Proof.
  intros H Hs He Hlt Hf0 Hf1. apply renew_student_answer in H. rewrite Hs in H.
  destruct H as (i & Hid & _ & _ & _ & (old & bid & _ & _ & Es) & Hby & _).
  split; [rewrite Es; reflexivity|].
  destruct (get_student_found faults' lb now' id_param i (committed w') s Hf0 Hf1 Hid Hby)
    as (detail & Hget & Hd & _).
  exists detail. split; [exact Hget|]. rewrite Hd. split; [reflexivity|].
  cbn [shaped j_status]. unfold withCalculatedStatus.
  rewrite Es. cbn [s_membership_end renewed_student renewal r_membership_end].
  rewrite He. apply Z.ltb_lt in Hlt. rewrite Hlt. reflexivity.
Qed.

Lemma renewed_into_the_past_reads_expired_witness :
  let renewed := renew_student no_faults sample_now (JText (Fin 1)) renew_past library_world in
  exists detail,
    get_student no_faults sample_labels sample_now (JText (Fin 1)) (committed (snd renewed))
    = Json detail /\
    s_status (j_row (sd_student detail)) = active /\
    j_status (sd_student detail) = expired.
Proof.
  cbv zeta.
  match goal with |- context [snd ?p] =>
    assert (Hp : exists r, p = (Responded (mkResponse 200 (StudentRow r)), snd p))
      by (eexists; rewrite (surjective_pairing p) at 1; f_equal; cbv; reflexivity)
  end.
  destruct Hp as [s0 Hp].
  destruct (renewed_into_the_past_reads_expired no_faults no_faults sample_labels sample_now
              sample_now (JText (Fin 1)) renew_past library_world _ _ s0 19030
              Hp eq_refl eq_refl eq_refl eq_refl eq_refl)
    as (Hst & detail & Hget & Hrow & Hj).
  exists detail. rewrite Hrow. auto.
Defined.

(** ** GET /shift/:shiftId *)

(** X25.  The shift listing follows its status filter.  Every row of an
    answered listing is a student who holds a seat in that shift (once
    per assignment row), shown with the status computed from the end
    date; with [status=active] all the rows are active and have an end
    date, with [status=expired] all are expired. *)
Theorem shift_listing_follows_the_filter (faults : nat -> bool)
    (name_le : text -> text -> bool) (ilike : string -> string -> bool) (now : Z)
    (shiftId : jsval) (search statusFilter : text) (d : db) (rows : list shift_row) :
  get_shift_students faults name_le ilike now shiftId search statusFilter d = Json rows ->
  exists j,
    parseInt shiftId = Fin j /\
    Forall (fun r => exists s a,
                In s (students d) /\ In a (seat_assignments d) /\
                sa_student_id a = s_id s /\ sa_shift_id a = j /\
                r = mkShiftRow (s_id s) (s_name s) (s_email s) (s_phone s)
                      (s_membership_end s) (withCalculatedStatus s now)) rows /\
    (statusFilter = Some "active"%string ->
     Forall (fun r => sr_status r = active /\ sr_membership_end r <> None) rows) /\
    (statusFilter = Some "expired"%string ->
     Forall (fun r => sr_status r = expired) rows).
Proof.
  unfold get_shift_students, pool_query. cbv zeta.
  destruct (parseInt shiftId) as [|j] eqn:Hj; cbn [isNaN]; [discriminate|].
  destruct (faults 0%nat); [discriminate|]. cbn [pg_int bind_opt].
  intros H. injection H as <-. exists j. split; [reflexivity|].
  match goal with |- context [order_by ?le (filter ?p ?l)] =>
    set (joined := l); set (cond := p); set (sorted := order_by le (filter p l));
    assert (Hin : forall s, In s sorted -> In s joined /\ cond s = true)
      by (intros s Hs; apply order_by_in in Hs; apply filter_In in Hs; exact Hs)
  end.
  split; [|split].
  - rewrite Forall_forall. intros r Hr. apply in_map_iff in Hr.
    destruct Hr as (s & <- & Hs). apply Hin in Hs. destruct Hs as [Hs _].
    unfold joined in Hs. apply in_flat_map in Hs. destruct Hs as (s' & Hs' & Hs).
    apply in_map_iff in Hs. destruct Hs as (a & E & Ha). subst s'. apply filter_In in Ha.
    destruct Ha as [Ha Hc]. apply andb_prop in Hc. destruct Hc as [Hof Hsh].
    apply Z.eqb_eq in Hof, Hsh. exists s, a. repeat split; assumption.
  - intros ->. rewrite Forall_forall. intros r Hr. apply in_map_iff in Hr.
    destruct Hr as (s & <- & Hs). apply Hin in Hs. destruct Hs as [_ Hc].
    unfold cond in Hc. apply andb_prop in Hc. destruct Hc as [_ Hc]. cbn in Hc.
    cbn [sr_status sr_membership_end]. split; [apply not_ended_status; exact Hc|].
    unfold not_ended in Hc. destruct (s_membership_end s); [discriminate|discriminate].
  - intros ->. rewrite Forall_forall. intros r Hr. apply in_map_iff in Hr.
    destruct Hr as (s & <- & Hs). apply Hin in Hs. destruct Hs as [_ Hc].
    unfold cond in Hc. apply andb_prop in Hc. destruct Hc as [_ Hc]. cbn in Hc.
    cbn [sr_status]. apply ended_status. exact Hc.
Qed.

Lemma shift_listing_follows_the_filter_witness :
  exists everyone actives,
    get_shift_students no_faults by_length (fun _ _ => false) sample_now (JText (Fin 1))
      None None library = Json everyone /\
    get_shift_students no_faults by_length (fun _ _ => false) sample_now (JText (Fin 1))
      None (Some "active"%string) library = Json actives /\
    map sr_id everyone = [1; 2] /\ map sr_id actives = [2] /\
    Forall (fun r => sr_status r = active /\ sr_membership_end r <> None) actives.
Proof.
  eexists. eexists. split; [reflexivity|]. split; [reflexivity|].
  split; [reflexivity|]. split; [reflexivity|].
  destruct (shift_listing_follows_the_filter no_faults by_length (fun _ _ => false)
              sample_now (JText (Fin 1)) None (Some "active"%string) library _ eq_refl)
    as (j & _ & _ & Ha & _).
  exact (Ha eq_refl).
Defined.

(** X26.  The shift listing refuses an id that is not a number and
    ignores a status word it does not know.  A [shiftId] that does not
    parse is answered 400 before any query is sent; a [status] other
    than [active] and [expired] ([all], the empty string, any other
    word) gives the unfiltered listing. *)
Theorem shift_listing_edge_cases (faults : nat -> bool)
    (name_le : text -> text -> bool) (ilike : string -> string -> bool) (now : Z)
    (shiftId : jsval) (search : text) (d : db) :
  (parseInt shiftId = NaN ->
   forall statusFilter,
     get_shift_students faults name_le ilike now shiftId search statusFilter d
     = Refusal 400 "Invalid Shift ID") /\
  (forall word, word <> "active"%string -> word <> "expired"%string ->
     get_shift_students faults name_le ilike now shiftId search (Some word) d
     = get_shift_students faults name_le ilike now shiftId search None d).
Proof.
  split.
  - intros Hid statusFilter. unfold get_shift_students. rewrite Hid. reflexivity.
  - intros word Ha He. unfold get_shift_students. cbv zeta.
    apply String.eqb_neq in Ha, He. rewrite Ha, He.
    destruct (negb (word =? "")%string && negb (word =? "all")%string); reflexivity.
Qed.

(** ** The edit form *)






Lemma parsed_or_zero_number (x : jsval) : exists z, parsed_or_zero x = Fin z.
Proof.
  unfold parsed_or_zero, jor. destruct (parseFloat x) as [|z]; simpl.
  - exists 0. reflexivity.
  - destruct (z =? 0) eqn:Hz; simpl; [exists 0|exists z]; reflexivity.
Qed.



(** X28.  The edit form shows the amounts it sends.  The due amount and
    the amount paid on the screen are numbers whatever is typed into the
    fields, and at the moment the form is submitted they are the
    [totalFee - amountPaid] and the [amountPaid] of the payload. *)
Theorem edit_form_shows_what_it_sends (formData : FormData) (shifts : list Z) :
  (exists paid due, totalAmountPaid formData = Fin paid /\ dueAmount formData = Fin due) /\
  forall p, handleSubmit formData shifts = Submit p ->
    totalAmountPaid formData = p_amountPaid p /\
    dueAmount formData = num_sub (p_totalFee p) (p_amountPaid p).
Proof.
  split.
  - unfold dueAmount, totalAmountPaid.
    destruct (parsed_or_zero_number (f_cash formData)) as (c & ->).
    destruct (parsed_or_zero_number (f_online formData)) as (o & ->).
    destruct (parsed_or_zero_number (f_totalFee formData)) as (f & ->).
    exists (c + o), (f - (c + o)). split; reflexivity.
  - intros p H. unfold handleSubmit in H. cbv zeta in H.
    repeat match type of H with
           | (if ?c then Toast _ else _) = _ =>
               let E := fresh "Hc" in destruct c eqn:E; [discriminate|]
           end.
    injection H as <-. cbn. split; [reflexivity|].
    unfold dueAmount, totalAmountPaid. f_equal.
    match goal with E : invalid _ = false |- _ => apply invalid_false in E;
      destruct E as (fee & Efee & Hfee) end.
    unfold parsed_or_zero at 1. rewrite Efee. unfold jor. cbn.
    destruct (Z.eqb_spec fee 0) as [->|]; reflexivity.
Qed.

(** ** The renew dialog *)

Lemma or_blank_truthy (t : text) :
  String.eqb (or_blank t) EmptyString = negb (truthy_text t).
Proof.
  unfold or_blank, or_empty, truthy_text. destruct t as [s|]; [|reflexivity].
  destruct (String.eqb s EmptyString) eqn:E; simpl; [reflexivity|exact E].
Qed.

(** X29.  The renew dialog opens with the payments reset.  Submitted as
    [handleRenewClick] opened it for a student, the dialog sends cash 0
    and online 0 (so nothing is shown as paid and the whole fee as due),
    the fee and the shift the list holds for the student, and the two
    dates it was opened with; it refuses to send, with one message for
    all cases, exactly when the student has no email, no phone, no
    shift or no fee (a fee of 0 counts as none). *)
Theorem renew_dialog_opens_with_payments_reset (student : Student) (today in_a_month : Z) :
  let st := handleRenewClick student today in_a_month in
  paid st = Fin 0 /\
  match handleRenewSubmit st with
  | Renew id p =>
      id = ls_id student /\
      rp_cash p = Fin 0 /\ rp_online p = Fin 0 /\
      rp_membershipStart p = Some today /\ rp_membershipEnd p = Some in_a_month /\
      ls_email student = Some (rp_email p) /\ ls_phone student = Some (rp_phone p) /\
      exists fee shift,
        ls_totalFee student = Some (Fin fee) /\ fee <> 0 /\
        rp_totalFee p = Fin fee /\ due st = Fin fee /\
        ls_shiftId student = Some (Fin shift) /\ shift <> 0 /\
        rp_shiftIds p = [Fin shift]
  | Refused _ =>
      truthy_text (ls_email student) && truthy_text (ls_phone student)
      && truthy_id (ls_shiftId student) && truthy_id (ls_totalFee student) = false
  end.
Proof.
  cbv zeta. split; [reflexivity|].
  unfold handleRenewSubmit, handleRenewClick.
  cbn [selectedStudent selectedShift startDate endDate emailInput phoneInput totalFee
       cashInput onlineInput securityMoneyInput remarkInput selectedSeat
       truthy_date negb orb].
  destruct (ls_shiftId student) as [[|shift]|] eqn:Hshift; cbn [truthy_id];
    try (rewrite !andb_false_r; reflexivity).
  destruct (Z.eqb_spec shift 0) as [|Hs0]; cbn [negb];
    [rewrite !andb_false_r; reflexivity|].
  rewrite !or_blank_truthy.
  destruct (truthy_text (ls_email student)) eqn:Hemail; cbn [negb orb andb]; [|reflexivity].
  destruct (truthy_text (ls_phone student)) eqn:Hphone; cbn [negb orb andb]; [|reflexivity].
  destruct (ls_totalFee student) as [[|fee]|] eqn:Hfee; cbn [shown truthy_id truthy negb];
    try reflexivity.
  destruct (Z.eqb_spec fee 0) as [|Hf0]; cbn [negb truthy]; [reflexivity|].
  split; [reflexivity|]. split; [reflexivity|]. split; [reflexivity|].
  split; [reflexivity|]. split; [reflexivity|].
  unfold truthy_text in Hemail, Hphone. unfold or_blank, or_empty, truthy_text.
  destruct (ls_email student) as [e|]; [|discriminate].
  destruct (ls_phone student) as [ph|]; [|discriminate].
  rewrite Hemail, Hphone.
  split; [reflexivity|]. split; [reflexivity|].
  exists fee, shift. repeat split; try assumption.
  unfold due, paid, parsed_or_zero, jor. cbn.
  destruct (Z.eqb_spec fee 0); [contradiction|]. cbn. f_equal. lia.
Qed.

Example renew_dialog_for_asha :
  handleRenewSubmit (handleRenewClick asha_listed 19676 19706)
  = Renew 1
      (mkRenewPayload (Some 19676) (Some 19706) "asha@example.org" "9000000001"
         [Fin 1] (JNum (Fin 10)) (Fin 1500) (Fin 0) (Fin 0) (Fin 200) None).
Proof. reflexivity. Qed.

